(** * mozci: the trigger-decision engine of [mozci/mozci.py]

    A shallow embedding of the decision logic of [mozci.py]: the status
    summary, the trigger-objective resolver, the session ledger
    [SCHEDULING_MANAGER], [trigger], [trigger_job], [trigger_range] and the
    backfill helpers.  Everything the module imports from other modules
    (the query sources, buildapi, buildjson, pushlog, allthethings, the
    platform mapping) is a collaborator whose answers are taken as data. *)

From Stdlib Require Import ZArith List Bool String Lia.
From stdpp Require Import gmap strings list fin_maps.
Import ListNotations.

Local Open Scope Z_scope.
Local Open Scope string_scope.

(** ** Exceptions and results *)

(** The exceptions the module raises or lets through. *)
Inductive exn : Type :=
| AssertionError (msg : string)
| BuildjsonException
| Exception (msg : string)
| KeyError (key : string)
| IndexError
| SystemExit (code : Z).

Inductive Result (A : Type) : Type :=
| Return (a : A)
| Raise (e : exn).
Arguments Return {A} a.
Arguments Raise {A} e.

Definition is_Return {A} (r : Result A) : bool :=
  match r with Return _ => true | Raise _ => false end.

(** ** Data *)

(** Modelled from the spec: the status constants that [mozci.py] imports from
    [mozci.query_jobs], a module that is not part of the sources at hand.
    The data model of the specification lists exactly these nine statuses. *)
Inductive Status : Type :=
| PENDING | RUNNING | SUCCESS | WARNING | UNKNOWN
| COALESCED | FAILURE | EXCEPTION | RETRY.

#[global] Instance Status_eq_dec : EqDecision Status.
Proof. solve_decision. Defined.

(** A job is the scheduling-info dictionary a query source returns; the
    code reads [job["requests"][0]["complete_at"]] and
    [job["requests"][0]["request_id"]] from it. *)
Record Job : Type := mkJob {
  request_id : Z;
  complete_at : Z
}.

#[global] Instance Job_eq_dec : EqDecision Job.
Proof. solve_decision. Defined.

(** What [buildjson.query_job_data] returns for a job: a dictionary that may
    or may not have a ["properties"] entry, itself a dictionary. *)
Record JobData : Type := mkJobData {
  properties : option (gmap string string)
}.

(** The two query sources [set_query_source] chooses from. *)
Inductive QuerySource : Type := BuildApi | TreeherderApi.

(** The response object of a scheduling request; only [status_code] is read. *)
Record Response : Type := mkResponse {
  status_code : Z
}.

(** The [extra_properties] dictionaries the module builds:
    [{'mozci_request': {'type': .., 'builders': .., 'times': ..}}]. *)
Record MozciRequest : Type := mkMozciRequest {
  req_type : string;
  req_builders : option (list string);
  req_times : option Z
}.

(** A call of [buildapi.trigger_arbitrary_job] or of
    [buildapi.make_retrigger_request], with its arguments ([dry_run]
    included: the call is made in a dry run too). *)
Inductive BackendCall : Type :=
| TriggerArbitraryJob (repo_name builder revision : string)
    (files : option (list string)) (dry_run : bool)
    (extra_properties : option MozciRequest)
| MakeRetriggerRequest (repo_name : string) (req_id : Z) (count : Z)
    (dry_run : bool).

(** The values a caller can hand to [_status_summary]. *)
Inductive PyValue : Type :=
| PyList (jobs : list Job)
| PyTuple (jobs : list Job)
| PyNone
| PyInt (n : Z)
| PyStr (s : string).

(** Python's notion of a sequence among these values. *)
Definition is_sequence (v : PyValue) : bool :=
  match v with
  | PyList _ | PyTuple _ | PyStr _ => true
  | PyNone | PyInt _ => false
  end.

(** ** Collaborators *)

(** The answers of the external modules at one moment. *)
Record Collab : Type := mkCollab {
  (* buildapi.query_repositories(clobber): the repository names, in the
     order the dictionary yields them *)
  query_repositories : bool -> list string;
  (* buildapi.query_repo_url(repo_name) *)
  query_repo_url : string -> string;
  (* pushlog.valid_revision(repo_url, revision) *)
  valid_revision : string -> string -> bool;
  (* allthethings.list_builders() *)
  list_builders : list string;
  (* <source>.get_matching_jobs(repo_name, revision, buildername) *)
  get_matching_jobs : QuerySource -> string -> string -> string -> list Job;
  (* <source>.get_job_status(job) *)
  get_job_status : QuerySource -> Job -> Result Status;
  (* <source>.get_buildapi_request_id(repo_name, job) *)
  get_buildapi_request_id : QuerySource -> string -> Job -> Z;
  (* buildjson.query_job_data(complete_at, request_id) *)
  query_job_data : Z -> Z -> option JobData;
  (* mozci.utils.misc._all_urls_reachable(files) *)
  _all_urls_reachable : list string -> bool;
  (* pushlog.query_revisions_range_from_revision_before_and_after
       (repo_url, revision, before, after) *)
  query_revisions_range_from_revision_before_and_after :
    string -> string -> Z -> Z -> list string;
  (* what buildapi.trigger_arbitrary_job or buildapi.make_retrigger_request
     returns for a call: a response, or None *)
  buildapi_response : BackendCall -> option Response
}.

(** ** Job Status Aggregator: [_status_summary] *)

(** The five counts that the callers of [_status_summary] unpack from its
    result, in the order [trigger_range] and [_filter_backfill_revlist]
    take them: [(successful, pending, running, coalesced, failed)]. *)
Record StatusSummary : Type := mkSummary {
  successful : Z;
  pending : Z;
  running : Z;
  coalesced : Z;
  failed : Z
}.

Definition summary0 : StatusSummary := mkSummary 0 0 0 0 0.

Definition status_in (status : Status) (l : list Status) : bool :=
  bool_decide (status ∈ l).

(** The body of the [for] loop: five independent [if] statements. *)
Definition tally (status : Status) (s : StatusSummary) : StatusSummary :=
  let s := if bool_decide (status = PENDING)
           then mkSummary (successful s) (pending s + 1) (running s) (coalesced s) (failed s)
           else s in
  let s := if status_in status [RUNNING; UNKNOWN]
           then mkSummary (successful s) (pending s) (running s + 1) (coalesced s) (failed s)
           else s in
  let s := if bool_decide (status = SUCCESS)
           then mkSummary (successful s + 1) (pending s) (running s) (coalesced s) (failed s)
           else s in
  let s := if bool_decide (status = COALESCED)
           then mkSummary (successful s) (pending s) (running s) (coalesced s + 1) (failed s)
           else s in
  let s := if status_in status [FAILURE; WARNING; EXCEPTION; RETRY]
           then mkSummary (successful s) (pending s) (running s) (coalesced s) (failed s + 1)
           else s in
  s.

Fixpoint status_loop (c : Collab) (src : QuerySource) (jobs : list Job)
    (s : StatusSummary) : Result StatusSummary :=
  match jobs with
  | [] => Return s
  | job :: rest =>
      match get_job_status c src job with
      | Return status => status_loop c src rest (tally status s)
      | Raise e => Raise e
      end
  end.

(** [_status_summary(jobs)] as its two callers read it.  The text of the
    function in [mozci.py] is not valid Python as it stands: the
    initialisation is written [status_summary = {successful = 0, pending = 0,
    running = 0, coalesced = 0, failed = 0}] and the last line is
    [return (status_summary)], while the loop in between increments the five
    names [pending], [running], [successful], [coalesced] and [failed].
    [trigger_range] unpacks the result into five counts and
    [_filter_backfill_revlist] unpacks it or takes its first component, so
    the definition gives the loop five counters that start at zero and
    returns them in the callers' order.  What is proved of this definition
    is proved of that reading, not of the text of the function. *)
Definition _status_summary (c : Collab) (src : QuerySource) (jobs : PyValue)
    : Result StatusSummary :=
  match jobs with
  | PyList js => status_loop c src js summary0
  | _ => Raise (AssertionError "")
  end.

(** "Potential jobs" as [trigger_range] computes them. *)
Definition potential_jobs (s : StatusSummary) : Z :=
  pending s + running s + successful s + failed s.

(** ** Query and validation helpers *)

(** Python's [needle in haystack] on strings. *)
Fixpoint str_in (needle haystack : string) : bool :=
  String.prefix needle haystack ||
  match haystack with
  | EmptyString => false
  | String _ rest => str_in needle rest
  end.

(** [any(True for iterable in [' %s ', '_%s_', '-%s-']
         if iterable % repo_name in buildername)] *)
Definition repo_name_in_buildername (repo_name buildername : string) : bool :=
  existsb (fun sep => str_in (sep ++ repo_name ++ sep) buildername)
          [" "; "_"; "-"].

Definition repo_not_found : exn :=
  Exception "Repository name not found in buildername. Please provide a correct buildername.".

(** The call with [clobber=True]: no recursion is left. *)
Definition query_repo_name_clobbered (c : Collab) (buildername : string)
    : Result string :=
  match find (fun r => repo_name_in_buildername r buildername)
             (query_repositories c true) with
  | Some repo_name => Return repo_name
  | None => Raise repo_not_found
  end.

(** [query_repo_name_from_buildername(buildername, clobber=False)].  When no
    repository matches, the function calls itself with [clobber=True], drops
    what that call returns, and raises. *)
Definition query_repo_name_from_buildername (c : Collab) (buildername : string)
    : Result string :=
  match find (fun r => repo_name_in_buildername r buildername)
             (query_repositories c false) with
  | Some repo_name => Return repo_name
  | None =>
      match query_repo_name_clobbered c buildername with
      | Raise e => Raise e
      | Return _ => Raise repo_not_found
      end
  end.

Definition query_repo_url_from_buildername (c : Collab) (buildername : string)
    : Result string :=
  match query_repo_name_from_buildername c buildername with
  | Return repo_name => Return (query_repo_url c repo_name)
  | Raise e => Raise e
  end.

(** [valid_builder]: membership in the builder catalogue (the file written
    for the operator when the name is unknown is left out). *)
Definition valid_builder (c : Collab) (buildername : string) : bool :=
  bool_decide (buildername ∈ list_builders c).

(** The platform mapping of [mozci.platforms] is not part of the sources at
    hand and is taken as a parameter: [determine_upstream_builder] gives the
    build builder a builder depends on, [is_downstream] tells the test
    builders from the build builders. *)
Record Platforms : Type := mkPlatforms {
  determine_upstream_builder : string -> string;
  is_downstream : string -> bool
}.

(** ** Session Dedup Ledger *)

(** The module-level state: the ledger [SCHEDULING_MANAGER], the selected
    [QUERY_SOURCE], and the requests sent to the scheduling backend so far
    (oldest first). *)
Record Session : Type := mkSession {
  SCHEDULING_MANAGER : gmap string (list string);
  QUERY_SOURCE : QuerySource;
  backend_calls : list BackendCall
}.

Definition fresh_session : Session := mkSession ∅ BuildApi [].

Definition _unique_build_request (p : Platforms)
    (sch_mgr : gmap string (list string)) (buildername revision : string)
    : bool :=
  if is_downstream p buildername then true
  else
    match sch_mgr !! revision with
    | Some builders =>
        if bool_decide (buildername ∈ builders) then false else true
    | None => true
    end.

(** ** Trigger Objective Resolver *)

Definition _status_info (c : Collab) (job_schedule_info : Job)
    : option JobData :=
  query_job_data c (complete_at job_schedule_info) (request_id job_schedule_info).

Definition no_properties : exn :=
  Exception "The status of the job is expected to have a properties key, however, it is missing.".

Definition _find_files (c : Collab) (job_schedule_info : Job)
    : Result (list string) :=
  match _status_info c job_schedule_info with
  | None => Raise (AssertionError "We should not have received an empty status")
  | Some job_status =>
      match properties job_status with
      | None => Raise no_properties
      | Some props =>
          if bool_decide (props = ∅) then Raise no_properties
          else
            match props !! "buildername" with
            | None => Raise (KeyError "buildername")
            | Some _ =>
                let files :=
                  match props !! "packageUrl" with
                  | Some url => [url]
                  | None => []
                  end in
                let files :=
                  match props !! "testPackagesUrl" with
                  | Some url => (files ++ [url])%list
                  | None =>
                      match props !! "testsUrl" with
                      | Some url => (files ++ [url])%list
                      | None => files
                      end
                  end in
                Return files
            end
      end
  end.

(** The local variables the scan of the build jobs updates. *)
Record Scan : Type := mkScan {
  scan_files : option (list string);
  working_job : option Job;
  running_job : option Job;
  failed_job : option Job
}.

Definition scan0 : Scan := mkScan None None None None.

Definition in_flight (status : Status) : bool :=
  bool_decide (status = RUNNING) || bool_decide (status = PENDING)
  || bool_decide (status = UNKNOWN).

(** The [for job in build_jobs] loop of [_determine_trigger_objective]:
    [continue] goes on with the rest, [break] returns. *)
Fixpoint scan_build_jobs (c : Collab) (build_jobs : list Job) (st : Scan)
    : Result Scan :=
  match build_jobs with
  | [] => Return st
  | job :: rest =>
      match get_job_status c BuildApi job with
      | Raise BuildjsonException => scan_build_jobs c rest st
      | Raise e => Raise e
      | Return status =>
          if in_flight status then
            scan_build_jobs c rest
              (mkScan (scan_files st) (working_job st) (Some job) (failed_job st))
          else
            match _find_files c job with
            | Raise e => Raise e
            | Return files =>
                if negb (bool_decide (files = [])) && _all_urls_reachable c files
                then Return (mkScan (Some files) (Some job) (running_job st) (failed_job st))
                else scan_build_jobs c rest
                       (mkScan None (working_job st) (running_job st) (Some job))
            end
      end
  end.

Definition _determine_trigger_objective (p : Platforms) (c : Collab)
    (sch_mgr : gmap string (list string))
    (revision buildername : string) (trigger_build_if_missing : bool)
    : Result (option string * option (list string)) :=
  match query_repo_name_from_buildername c buildername with
  | Raise e => Raise e
  | Return repo_name =>
      let build_buildername := determine_upstream_builder p buildername in
      if negb (valid_builder c build_buildername)
      then Raise (AssertionError "Our platforms mapping system has failed.")
      else if bool_decide (build_buildername = buildername)
      then Return (Some build_buildername, None)
      else
        let build_jobs :=
          get_matching_jobs c BuildApi repo_name revision build_buildername in
        match scan_build_jobs c build_jobs scan0 with
        | Raise e => Raise e
        | Return st =>
            let builder_to_trigger :=
              match working_job st, running_job st, failed_job st with
              | Some _, _, _ => Some buildername
              | None, Some _, _ => None
              | None, None, Some _ => None
              | None, None, None =>
                  if negb trigger_build_if_missing
                     || negb (_unique_build_request p sch_mgr build_buildername revision)
                  then None
                  else Some build_buildername
              end in
            Return (builder_to_trigger, scan_files st)
        end
  end.

(** ** The session monad *)

(** The collaborators answer according to what has been sent to the backend
    so far: a job triggered a moment ago may show up in the next query. *)
Definition World : Type := list BackendCall -> Collab.

(** A computation reads and updates the session and returns or raises; the
    session survives an exception, as module globals do. *)
Definition M (A : Type) : Type := Session -> Result A * Session.

Definition ret {A} (a : A) : M A := fun st => (Return a, st).

Definition raise {A} (e : exn) : M A := fun st => (Raise e, st).

Definition bind {A B} (m : M A) (k : A -> M B) : M B :=
  fun st =>
    match m st with
    | (Return a, st') => k a st'
    | (Raise e, st') => (Raise e, st')
    end.

Notation "'do' x <- m ; k" := (bind m (fun x => k))
  (at level 10, x name, m at level 100, k at level 200).
Notation "'do' ' pat <- m ; k" := (bind m (fun x => match x with pat => k end))
  (at level 10, pat pattern, m at level 100, k at level 200).

Definition lift {A} (r : Result A) : M A := fun st => (r, st).

(** The collaborators' answers at this point of the session. *)
Definition ask (w : World) : M Collab :=
  fun st => (Return (w (backend_calls st)), st).

Definition get_sch_mgr : M (gmap string (list string)) :=
  fun st => (Return (SCHEDULING_MANAGER st), st).

Definition modify_sch_mgr
    (f : gmap string (list string) -> gmap string (list string)) : M unit :=
  fun st =>
    (Return tt,
     mkSession (f (SCHEDULING_MANAGER st)) (QUERY_SOURCE st) (backend_calls st)).

Definition get_query_source : M QuerySource :=
  fun st => (Return (QUERY_SOURCE st), st).

(** [set_query_source(query_source)] *)
Definition set_query_source (query_source : string) : M unit :=
  fun st =>
    let source_class :=
      if bool_decide (query_source = "treeherder") then TreeherderApi
      else BuildApi in
    (Return tt,
     mkSession (SCHEDULING_MANAGER st) source_class (backend_calls st)).

(** A call of the scheduling backend: the call joins the history, the
    backend's response comes back. *)
Definition send (w : World) (call : BackendCall) : M (option Response) :=
  fun st =>
    (Return (buildapi_response (w (backend_calls st)) call),
     mkSession (SCHEDULING_MANAGER st) (QUERY_SOURCE st)
               (backend_calls st ++ [call])%list).

(** Python truthiness of [files] (None and the empty list are false) and of
    [builder_to_trigger] (None and the empty string are false). *)
Definition truthy_files (files : option (list string)) : bool :=
  match files with
  | Some (_ :: _) => true
  | _ => false
  end.

Definition truthy_builder (b : option string) : bool :=
  match b with
  | Some s => negb (bool_decide (s = ""))
  | None => false
  end.

(** ** Trigger functionality *)

(** [trigger(builder, revision, files, dry_run, extra_properties)] *)
Definition trigger (w : World) (builder revision : string)
    (files : option (list string)) (dry_run : bool)
    (extra_properties : option MozciRequest) : M (option Response) :=
  do sch_mgr <- get_sch_mgr;
  do _ <- (if bool_decide (sch_mgr !! revision = None)
           then modify_sch_mgr (insert revision [])
           else ret tt);
  do _ <- modify_sch_mgr (alter (fun builders => (builders ++ [builder])%list) revision);
  do c <- ask w;
  do repo_name <- lift (query_repo_name_from_buildername c builder);
  send w (TriggerArbitraryJob repo_name builder revision files dry_run
                               extra_properties).

(** [for _ in range(times): req = trigger(..); if req is not None: append] *)
Fixpoint trigger_times (w : World) (n : nat) (builder revision : string)
    (files : option (list string)) (dry_run : bool)
    (extra_properties : option MozciRequest)
    (list_of_requests : list Response) : M (list Response) :=
  match n with
  | O => ret list_of_requests
  | S n' =>
      do req <- trigger w builder revision files dry_run extra_properties;
      trigger_times w n' builder revision files dry_run extra_properties
        (match req with
         | Some r => (list_of_requests ++ [r])%list
         | None => list_of_requests
         end)
  end.

(** [trigger_job(revision, buildername, times, files, dry_run,
                 extra_properties, trigger_build_if_missing)] *)
Definition trigger_job (p : Platforms) (w : World)
    (revision buildername : string) (times : Z)
    (files : option (list string)) (dry_run : bool)
    (extra_properties : option MozciRequest)
    (trigger_build_if_missing : bool) : M (list Response) :=
  do c <- ask w;
  do repo_name <- lift (query_repo_name_from_buildername c buildername);
  let repo_url := query_repo_url c repo_name in
  if negb (valid_revision c repo_url revision) then ret []
  else if negb (valid_builder c buildername) then raise (SystemExit (-1))
  else
    do '(builder_to_trigger, files, times) <-
      (if truthy_files files then ret (Some buildername, files, times)
       else
         do sch_mgr <- get_sch_mgr;
         do '(builder_to_trigger, files) <-
           lift (_determine_trigger_objective p c sch_mgr revision buildername
                   trigger_build_if_missing);
         if negb (bool_decide (builder_to_trigger = Some buildername))
            && negb (times =? 1)%Z
         then ret (builder_to_trigger, files, 1)
         else ret (builder_to_trigger, files, times));
    match builder_to_trigger with
    | Some builder =>
        if truthy_builder builder_to_trigger then
          if dry_run then
            do _ <- trigger w builder revision files dry_run extra_properties;
            ret []
          else
            trigger_times w (Z.to_nat times) builder revision files dry_run
              extra_properties []
        else ret []
    | None => ret []
    end.

(** One round of the [for rev in revisions] loop of [trigger_range]. *)
Definition trigger_range_rev (p : Platforms) (w : World)
    (buildername : string) (times : Z) (dry_run : bool)
    (files : option (list string)) (extra_properties : option MozciRequest)
    (trigger_build_if_missing : bool) (repo_name repo_url rev : string)
    : M unit :=
  do c <- ask w;
  if negb (valid_revision c repo_url rev) then ret tt
  else
    do src <- get_query_source;
    let matching_jobs := get_matching_jobs c src repo_name rev buildername in
    do s <- lift (_status_summary c src (PyList matching_jobs));
    let potential := potential_jobs s in
    if (potential >=? times)%Z then ret tt
    else
      match matching_jobs, files with
      | job0 :: _, None =>
          let req_id := get_buildapi_request_id c src repo_name job0 in
          do _ <- send w (MakeRetriggerRequest repo_name req_id
                            (times - potential) dry_run);
          ret tt
      | _, _ =>
          do _ <- trigger_job p w rev buildername (times - potential) files
                    dry_run extra_properties trigger_build_if_missing;
          ret tt
      end.

Fixpoint for_each {A} (l : list A) (body : A -> M unit) : M unit :=
  match l with
  | [] => ret tt
  | x :: rest => do _ <- body x; for_each rest body
  end.

(** [trigger_range(buildername, revisions, times, dry_run, files,
                   extra_properties, trigger_build_if_missing)] *)
Definition trigger_range (p : Platforms) (w : World)
    (buildername : string) (revisions : list string) (times : Z)
    (dry_run : bool) (files : option (list string))
    (extra_properties : option MozciRequest)
    (trigger_build_if_missing : bool) : M unit :=
  do c <- ask w;
  do repo_name <- lift (query_repo_name_from_buildername c buildername);
  let repo_url := query_repo_url c repo_name in
  for_each revisions
    (trigger_range_rev p w buildername times dry_run files extra_properties
       trigger_build_if_missing repo_name repo_url).

(** ** Backfill Window Finder *)

(** Python truthiness of an integer. *)
Definition truthy_int (n : Z) : bool := negb (n =? 0)%Z.

(** The [for rev in revisions] loop of [_filter_backfill_revlist]. *)
Fixpoint backfill_loop (c : Collab) (src : QuerySource)
    (repo_name buildername : string) (only_successful : bool)
    (revisions new_revisions_list : list string) : Result (list string) :=
  match revisions with
  | [] => Return new_revisions_list
  | rev :: rest =>
      let matching_jobs := get_matching_jobs c src repo_name rev buildername in
      match _status_summary c src (PyList matching_jobs) with
      | Raise e => Raise e
      | Return s =>
          if negb only_successful then
            if negb (bool_decide (matching_jobs = []))
               && (truthy_int (successful s) || truthy_int (pending s)
                   || truthy_int (running s) || truthy_int (failed s))
            then Return new_revisions_list
            else backfill_loop c src repo_name buildername only_successful rest
                   (new_revisions_list ++ [rev])%list
          else
            if (successful s >? 0)%Z then Return new_revisions_list
            else backfill_loop c src repo_name buildername only_successful rest
                   (new_revisions_list ++ [rev])%list
      end
  end.

(** [_filter_backfill_revlist(buildername, revisions, only_successful)];
    the log line before the loop reads [revisions[0]] and [revisions[-1]]. *)
Definition _filter_backfill_revlist (c : Collab) (src : QuerySource)
    (buildername : string) (revisions : list string) (only_successful : bool)
    : Result (list string) :=
  match query_repo_name_from_buildername c buildername with
  | Raise e => Raise e
  | Return repo_name =>
      match revisions with
      | [] => Raise IndexError
      | _ :: _ =>
          backfill_loop c src repo_name buildername only_successful revisions []
      end
  end.

(** [find_backfill_revlist(repo_url, revision, max_revisions, buildername)] *)
Definition find_backfill_revlist (c : Collab) (src : QuerySource)
    (repo_url revision : string) (max_revisions : Z) (buildername : string)
    : Result (list string) :=
  let revlist :=
    query_revisions_range_from_revision_before_and_after c repo_url revision
      (max_revisions - 1) 0 in
  _filter_backfill_revlist c src buildername revlist true.

(** [manual_backfill(revision, buildername, max_revisions, dry_run)] *)
Definition manual_backfill (p : Platforms) (w : World)
    (revision buildername : string) (max_revisions : Z) (dry_run : bool)
    : M unit :=
  do c <- ask w;
  do repo_url <- lift (query_repo_url_from_buildername c buildername);
  do _ <- set_query_source "treeherder";
  let revlist :=
    query_revisions_range_from_revision_before_and_after c repo_url revision
      max_revisions (-1) in
  do src <- get_query_source;
  do filtered_revlist <-
    lift (_filter_backfill_revlist c src buildername revlist false);
  trigger_range p w buildername filtered_revlist 1 dry_run None
    (Some (mkMozciRequest "manual_backfill" (Some [buildername]) None))
    true.

(** ** The classification of the specification *)

Inductive Bucket : Type :=
| B_successful | B_pending | B_running | B_coalesced | B_failed.

#[global] Instance Bucket_eq_dec : EqDecision Bucket.
Proof. solve_decision. Defined.

(** The classification rule in the specification's words: pending to
    pending; running and unknown to running; success to successful;
    coalesced to coalesced; failure, warning, exception and retry to
    failed. *)
Definition spec_bucket (status : Status) : Bucket :=
  match status with
  | PENDING => B_pending
  | RUNNING | UNKNOWN => B_running
  | SUCCESS => B_successful
  | COALESCED => B_coalesced
  | FAILURE | WARNING | EXCEPTION | RETRY => B_failed
  end.

(** How many of the statuses fall into a bucket. *)
Definition bucket_count (b : Bucket) (statuses : list Status) : Z :=
  Z.of_nat (length (List.filter (fun s => bool_decide (spec_bucket s = b)) statuses)).

(** A status fetch that failed with the data-retrieval error of
    [buildjson]. *)
Definition retrieval_error (r : Result Status) : bool :=
  match r with
  | Raise BuildjsonException => true
  | _ => false
  end.

(** The statuses the query source reports for a list of jobs. *)
Definition job_statuses (c : Collab) (src : QuerySource) (jobs : list Job)
    : list Status :=
  omap (fun job => match get_job_status c src job with
                   | Return status => Some status
                   | Raise _ => None
                   end) jobs.

Definition statuses_known (c : Collab) (src : QuerySource) (jobs : list Job)
    : Prop :=
  Forall (fun job => is_Return (get_job_status c src job) = true) jobs.

(** A build job the scan gets past without an error: its status fetch
    returns or fails with the data-retrieval error, and if it is finished,
    [_find_files] returns some list of files for it. *)
Definition scan_ok (c : Collab) (job : Job) : bool :=
  match get_job_status c BuildApi job with
  | Return status => in_flight status || is_Return (_find_files c job)
  | Raise e => retrieval_error (Raise e)
  end.

(** ** The backfill window of the specification *)

(** The prefix of the input strictly before the first stopping element, or
    the whole input when nothing stops the scan. *)
Fixpoint prefix_before {A} (stop : A -> bool) (l : list A) : list A :=
  match l with
  | [] => []
  | x :: rest => if stop x then [] else x :: prefix_before stop rest
  end.

(** Any-status mode stops at a revision with at least one matching job whose
    status counts as successful, pending, running or failed. *)
Definition any_status_stop (c : Collab) (src : QuerySource)
    (repo_name buildername rev : string) : bool :=
  existsb (fun status => negb (bool_decide (spec_bucket status = B_coalesced)))
          (job_statuses c src (get_matching_jobs c src repo_name rev buildername)).

(** Successful-only mode stops at a revision with at least one successful
    matching job. *)
Definition successful_stop (c : Collab) (src : QuerySource)
    (repo_name buildername rev : string) : bool :=
  existsb (fun status => bool_decide (status = SUCCESS))
          (job_statuses c src (get_matching_jobs c src repo_name rev buildername)).

(** The stopping test of a mode. *)
Definition backfill_stop (c : Collab) (src : QuerySource)
    (repo_name buildername : string) (only_successful : bool) : string -> bool :=
  if only_successful then successful_stop c src repo_name buildername
  else any_status_stop c src repo_name buildername.

(** The [extra_properties] of [manual_backfill]. *)
Definition manual_backfill_request (buildername : string) : MozciRequest :=
  mkMozciRequest "manual_backfill" (Some [buildername]) None.

(** ** Sessions *)

(** The entry points a caller invokes during a session. *)
Inductive Invocation : Type :=
| TriggerJob (revision buildername : string) (times : Z)
    (files : option (list string)) (dry_run : bool)
    (extra_properties : option MozciRequest) (trigger_build_if_missing : bool)
| TriggerRange (buildername : string) (revisions : list string) (times : Z)
    (dry_run : bool) (files : option (list string))
    (extra_properties : option MozciRequest) (trigger_build_if_missing : bool).

Definition invoke (p : Platforms) (w : World) (i : Invocation) : M unit :=
  match i with
  | TriggerJob revision buildername times files dry_run extra tbim =>
      do _ <- trigger_job p w revision buildername times files dry_run extra tbim;
      ret tt
  | TriggerRange buildername revisions times dry_run files extra tbim =>
      trigger_range p w buildername revisions times dry_run files extra tbim
  end.

(** A session is a sequence of invocations, each made against the world of
    its moment; an invocation that raises leaves the globals as they are and
    the caller goes on. *)
Fixpoint run_session (p : Platforms) (invs : list (World * Invocation))
    (st : Session) : Session :=
  match invs with
  | [] => st
  | (w, i) :: rest => run_session p rest (snd (invoke p w i st))
  end.

Definition requested_builder (i : Invocation) : string :=
  match i with
  | TriggerJob _ buildername _ _ _ _ _ => buildername
  | TriggerRange buildername _ _ _ _ _ _ => buildername
  end.

Definition supplied_files (i : Invocation) : option (list string) :=
  match i with
  | TriggerJob _ _ _ files _ _ _ => files
  | TriggerRange _ _ _ _ files _ _ => files
  end.

(** The trigger requests in a history that ask for [builder] on
    [revision]. *)
Definition is_trigger_of (revision builder : string) (call : BackendCall)
    : bool :=
  match call with
  | TriggerArbitraryJob _ b r _ _ _ =>
      bool_decide (b = builder) && bool_decide (r = revision)
  | MakeRetriggerRequest _ _ _ _ => false
  end.

Definition trigger_count (revision builder : string)
    (calls : list BackendCall) : nat :=
  length (List.filter (is_trigger_of revision builder) calls).

(** [builder in sch_mgr[revision]], false when the revision has no entry. *)
Definition recorded (sch_mgr : gmap string (list string))
    (revision builder : string) : Prop :=
  builder ∈ default [] (sch_mgr !! revision).

(** ** A small world for examples *)

Definition linux_build : string := "Linux try build".
Definition linux_test : string := "Ubuntu VM 12.04 try opt test mochitest-1".
Definition linux_talos : string := "Ubuntu HW 12.04 try talos svgr".

(** Test and talos builders hang off the one build builder. *)
Definition demo_platforms : Platforms :=
  mkPlatforms
    (fun buildername =>
       if str_in "test" buildername || str_in "talos" buildername
       then linux_build else buildername)
    (fun buildername => str_in "test" buildername || str_in "talos" buildername).

Definition demo_collab
    (jobs : QuerySource -> string -> string -> string -> list Job)
    (status : Job -> Result Status)
    (data : Z -> Z -> option JobData)
    (reachable : list string -> bool)
    (revisions_around : Z -> Z -> list string) : Collab :=
  mkCollab
    (fun _ => ["mozilla-central"; "try"])
    (fun repo_name => "https://hg.mozilla.org/" ++ repo_name)
    (fun _ _ => true)
    [linux_build; linux_test; linux_talos]
    jobs
    (fun _ => status)
    (fun _ _ job => request_id job)
    data
    reachable
    (fun _ _ => revisions_around)
    (fun _ => Some (mkResponse 202)).

(** A world that never changes. *)
Definition still (c : Collab) : World := fun _ => c.

(** No job anywhere. *)
Definition empty_collab : Collab :=
  demo_collab (fun _ _ _ _ => []) (fun _ => Return SUCCESS) (fun _ _ => None)
              (fun _ => true) (fun _ _ => []).

Definition job1 : Job := mkJob 1 100.
Definition job2 : Job := mkJob 2 200.
Definition job3 : Job := mkJob 3 300.

Definition build_props (urls : list (string * string)) : gmap string string :=
  list_to_map (("buildername", linux_build) :: urls).

Definition good_urls : list (string * string) :=
  [("packageUrl", "http://ftp/firefox.tar.bz2");
   ("testsUrl", "http://ftp/firefox.tests.zip")].

Definition rev1 : string := "abcdef012345".

(** The build builder has two jobs on every revision: [job1] is still
    running, [job2] finished and its files are reachable. *)
Definition in_flight_then_working : Collab :=
  demo_collab
    (fun _ _ _ buildername =>
       if bool_decide (buildername = linux_build) then [job1; job2] else [])
    (fun job => if bool_decide (job = job1) then Return RUNNING else Return SUCCESS)
    (fun _ _ => Some (mkJobData (Some (build_props good_urls))))
    (fun _ => true) (fun _ _ => []).

(** The build builder has one finished job whose status record carries an
    empty properties dictionary. *)
Definition empty_properties : Collab :=
  demo_collab
    (fun _ _ _ buildername =>
       if bool_decide (buildername = linux_build) then [job1] else [])
    (fun _ => Return SUCCESS)
    (fun _ _ => Some (mkJobData (Some ∅)))
    (fun _ => true) (fun _ _ => []).

(** The build builder has one finished job that recorded no file. *)
Definition no_files_recorded : Collab :=
  demo_collab
    (fun _ _ _ buildername =>
       if bool_decide (buildername = linux_build) then [job1] else [])
    (fun _ => Return FAILURE)
    (fun _ _ => Some (mkJobData (Some (build_props []))))
    (fun _ => true) (fun _ _ => []).

(** ** Ledger bookkeeping *)

(** What [trigger] does to the ledger: the builder is appended to the list
    of the revision, which starts empty. *)
Definition record_builder (sch_mgr : gmap string (list string))
    (revision builder : string) : gmap string (list string) :=
  <[revision := (default [] (sch_mgr !! revision) ++ [builder])%list]> sch_mgr.

(** The ledger of [st'] records whatever the ledger of [st] records. *)
Definition ledger_le (st st' : Session) : Prop :=
  forall r b, recorded (SCHEDULING_MANAGER st) r b ->
              recorded (SCHEDULING_MANAGER st') r b.

Definition grows {A} (m : M A) : Prop := forall st, ledger_le st (snd (m st)).

(** The invariant behind the dedup check, for one revision and one builder:
    the history holds at most one trigger request for the pair, and the
    revision's ledger entry lists the builder once such a request exists. *)
Definition dedup_inv (st : Session) (r b : string) : Prop :=
  (trigger_count r b (backend_calls st) <= 1)%nat
  /\ ((1 <= trigger_count r b (backend_calls st))%nat ->
      recorded (SCHEDULING_MANAGER st) r b).

(** The revisions of the specification's backfill example, newest first;
    the one job of the builder sits on the third of them. *)
Definition five_revisions : list string := ["r5"; "r4"; "r3"; "r2"; "r1"].

Definition job_on_third (status : Status) : Collab :=
  demo_collab
    (fun _ _ rev _ => if bool_decide (rev = "r3") then [job1] else [])
    (fun _ => Return status)
    (fun _ _ => None) (fun _ => true) (fun _ _ => []).

(** A dry run for a test builder whose build is missing, then a real request
    for another test builder of the same build. *)
Definition dry_run_then_real_session : list (World * Invocation) :=
  [(still empty_collab, TriggerJob rev1 linux_test 1 None true None true);
   (still empty_collab, TriggerJob rev1 linux_talos 1 None false None true)].

(** A caller asks for the build builder itself, twice over. *)
Definition direct_build_session : list (World * Invocation) :=
  [(still empty_collab, TriggerJob rev1 linux_build 2 None false None true)].

(** Two test builders of the same build are requested on one revision that
    has no build job yet. *)
Definition two_tests_session : list (World * Invocation) :=
  [(still empty_collab, TriggerJob rev1 linux_test 3 None false None true);
   (still empty_collab, TriggerRange linux_talos [rev1; rev1] 2 false None None true)].

(** A push log of five pushes, newest first; the revisions around the third
    push are those whose push id lies between [3 - before] and
    [3 + after]. *)
Definition pushes : list (Z * string) :=
  [(5, "e5e5e5e5e5e5"); (4, "d4d4d4d4d4d4"); (3, "c3c3c3c3c3c3");
   (2, "b2b2b2b2b2b2"); (1, "a1a1a1a1a1a1")].

Definition around_third_push (before after : Z) : list string :=
  map snd (List.filter (fun push => (3 - before <=? fst push)%Z
                                    && (fst push <=? 3 + after)%Z) pushes).

(** No builder has a job on any of them. *)
Definition pushlog_collab : Collab :=
  demo_collab (fun _ _ _ _ => []) (fun _ => Return SUCCESS) (fun _ _ => None)
              (fun _ => true) around_third_push.

(** Three jobs of the requested test builder on every revision: one pending,
    one successful, one coalesced. *)
Definition mixed_statuses : Collab :=
  demo_collab
    (fun _ _ _ _ => [job1; job2; job3])
    (fun job => if bool_decide (job = job1) then Return PENDING
                else if bool_decide (job = job2) then Return SUCCESS
                else Return COALESCED)
    (fun _ _ => None) (fun _ => true) (fun _ _ => []).

(** Two successful jobs and a pending one. *)
Definition three_potential_jobs : Collab :=
  demo_collab
    (fun _ _ _ _ => [job1; job2; job3])
    (fun job => if bool_decide (job = job3) then Return PENDING
                else Return SUCCESS)
    (fun _ _ => None) (fun _ => true) (fun _ _ => []).

(** ** What the scan makes of a build job *)

(** A build job is skipped (its status fetch hit the data-retrieval error),
    in flight, working (finished, with files that are all reachable),
    unusable (finished, without such files), or it breaks the scan with an
    error. *)
Inductive JobKind : Type :=
| Skipped
| InFlight
| Working (files : list string)
| Unusable
| Broken (e : exn).

Definition job_kind (c : Collab) (job : Job) : JobKind :=
  match get_job_status c BuildApi job with
  | Raise BuildjsonException => Skipped
  | Raise e => Broken e
  | Return status =>
      if in_flight status then InFlight
      else
        match _find_files c job with
        | Raise e => Broken e
        | Return files =>
            if negb (bool_decide (files = [])) && _all_urls_reachable c files
            then Working files
            else Unusable
        end
  end.

Definition is_working (c : Collab) (job : Job) : bool :=
  match job_kind c job with Working _ => true | _ => false end.

Definition is_in_flight (c : Collab) (job : Job) : bool :=
  match job_kind c job with InFlight => true | _ => false end.

Definition is_unusable (c : Collab) (job : Job) : bool :=
  match job_kind c job with Unusable => true | _ => false end.

Definition working_files (c : Collab) (job : Job) : option (list string) :=
  match job_kind c job with Working files => Some files | _ => None end.

(** The first of two optional values that is there. *)
Definition or_else {A} (o d : option A) : option A :=
  match o with Some x => Some x | None => d end.

(** The scan of an error-free job list in closed form: it stops at the
    first working job; of the jobs before it (all jobs when none works) the
    last in-flight one and the last unusable one are remembered. *)
Definition scan_summary (c : Collab) (jobs : list Job) : Scan :=
  let scanned := prefix_before (is_working c) jobs in
  mkScan
    (match List.find (is_working c) jobs with
     | Some job => working_files c job
     | None => None
     end)
    (List.find (is_working c) jobs)
    (last (List.filter (is_in_flight c) scanned))
    (last (List.filter (is_unusable c) scanned)).

(** The build builder has one job, still pending. *)
Definition pending_build : Collab :=
  demo_collab
    (fun _ _ _ buildername =>
       if bool_decide (buildername = linux_build) then [job1] else [])
    (fun _ => Return PENDING)
    (fun _ _ => None) (fun _ => true) (fun _ _ => []).

(** The status record of every job names both test archives. *)
Definition archive_props : gmap string string :=
  build_props [("packageUrl", "http://ftp/firefox.tar.bz2");
               ("testsUrl", "http://ftp/firefox.tests.zip");
               ("testPackagesUrl", "http://ftp/test_packages.json")].

Definition archive_files : list string :=
  ["http://ftp/firefox.tar.bz2"; "http://ftp/test_packages.json"].

Definition both_test_archives : Collab :=
  demo_collab
    (fun _ _ _ buildername =>
       if bool_decide (buildername = linux_build) then [job1] else [])
    (fun _ => Return SUCCESS)
    (fun _ _ => Some (mkJobData (Some archive_props)))
    (fun _ => true) (fun _ _ => []).

(** ** Relations between the session before and after a computation *)

(** Every run of [m] takes the session to one that [R] relates to it. *)
Definition keeps (R : Session -> Session -> Prop) {A} (m : M A) : Prop :=
  forall st, R st (snd (m st)).

(** The history of [st'] is the history of [st] followed by calls that all
    satisfy [P]. *)
Definition adds (P : BackendCall -> Prop) (st st' : Session) : Prop :=
  exists added,
    backend_calls st' = (backend_calls st ++ added)%list /\ Forall P added.

(** The calls [trigger_job] may make for a request. *)
Definition job_request (p : Platforms) (revision buildername : string)
    (dry_run : bool) (extra : option MozciRequest) (call : BackendCall) : Prop :=
  match call with
  | TriggerArbitraryJob _ b r _ d e =>
      r = revision
      /\ (b = buildername \/ b = determine_upstream_builder p buildername)
      /\ d = dry_run /\ e = extra
  | MakeRetriggerRequest _ _ _ _ => False
  end.

(** The calls [trigger_range] may make for a request. *)
Definition range_request (p : Platforms) (buildername : string)
    (revisions : list string) (times : Z) (dry_run : bool)
    (extra : option MozciRequest) (call : BackendCall) : Prop :=
  match call with
  | TriggerArbitraryJob _ b r _ d e =>
      r ∈ revisions
      /\ (b = buildername \/ b = determine_upstream_builder p buildername)
      /\ d = dry_run /\ e = extra
  | MakeRetriggerRequest _ _ count d => 0 < count <= times /\ d = dry_run
  end.

(** How often the ledger lists a builder for a revision. *)
Definition ledger_count (sch_mgr : gmap string (list string))
    (revision builder : string) : nat :=
  length (List.filter (fun b => bool_decide (b = builder))
            (default [] (sch_mgr !! revision))).

(** Every trigger request of the history is booked in the ledger. *)
Definition covered (st : Session) : Prop :=
  forall revision builder,
    (trigger_count revision builder (backend_calls st)
     <= ledger_count (SCHEDULING_MANAGER st) revision builder)%nat.

(** ** Triggering whole families of builders *)

(** [trigger_missing_jobs_for_revision(repo_name, revision, dry_run)];
    [filter_buildernames] of [mozci.platforms] is not part of the sources at
    hand and is taken as a parameter. *)
Definition trigger_missing_jobs_for_revision (p : Platforms)
    (filter_buildernames :
       list string -> list string -> list string -> list string)
    (w : World) (repo_name revision : string) (dry_run : bool) : M unit :=
  do c <- ask w;
  let all_buildernames :=
    filter_buildernames [repo_name] ["hg bundle"; "b2g"; "pgo"]
                        (list_builders c) in
  for_each all_buildernames
    (fun buildername =>
       trigger_range p w buildername [revision] 1 dry_run None
         (Some (mkMozciRequest "trigger_missing_jobs_for_revision" None None))
         true).

(** [trigger_all_talos_jobs(repo_name, revision, times, dry_run)];
    [build_talos_buildernames_for_repo] of [mozci.platforms] is taken as a
    parameter. *)
Definition trigger_all_talos_jobs (p : Platforms)
    (build_talos_buildernames_for_repo : string -> bool -> list string)
    (w : World) (repo_name revision : string) (times : Z) (dry_run : bool)
    : M unit :=
  let pgo :=
    bool_decide (repo_name ∈ ["mozilla-central"; "mozilla-aurora";
                              "mozilla-beta"]) in
  let buildernames := build_talos_buildernames_for_repo repo_name pgo in
  for_each buildernames
    (fun buildername =>
       trigger_range p w buildername [revision] times dry_run None
         (Some (mkMozciRequest "trigger_all_talos_jobs" None (Some times)))
         true).

(** The calls a family trigger may make: trigger requests on the one
    revision carrying the given tag, and retriggers of a count between one
    and [times]; all with the caller's [dry_run]. *)
Definition family_request (revision : string) (times : Z) (dry_run : bool)
    (tag : MozciRequest) (call : BackendCall) : Prop :=
  match call with
  | TriggerArbitraryJob _ _ r files d e =>
      r = revision /\ d = dry_run /\ e = Some tag
  | MakeRetriggerRequest _ _ count d => 0 < count <= times /\ d = dry_run
  end.

(** The history of [st'] is the history of [st] followed by at most [n]
    calls. *)
Definition adds_at_most (n : nat) (st st' : Session) : Prop :=
  exists added,
    backend_calls st' = (backend_calls st ++ added)%list
    /\ (length added <= n)%nat.

(** The push log knows one revision only. *)
Definition only_rev1_is_valid : Collab :=
  mkCollab (fun _ => ["try"]) (fun repo_name => "https://hg.mozilla.org/" ++ repo_name)
    (fun _ rev => bool_decide (rev = rev1))
    [linux_build; linux_test; linux_talos]
    (fun _ _ _ _ => []) (fun _ _ => Return SUCCESS) (fun _ _ job => request_id job)
    (fun _ _ => None) (fun _ => true) (fun _ _ _ _ => [])
    (fun _ => Some (mkResponse 202)).

(** The push log knows one revision only, and the status of the one job of
    every builder on it cannot be fetched. *)
Definition unreadable_status : Collab :=
  mkCollab (fun _ => ["try"]) (fun repo_name => "https://hg.mozilla.org/" ++ repo_name)
    (fun _ rev => bool_decide (rev = rev1))
    [linux_build; linux_test; linux_talos]
    (fun _ _ _ _ => [job1]) (fun _ _ => Raise BuildjsonException)
    (fun _ _ job => request_id job)
    (fun _ _ => None) (fun _ => true) (fun _ _ _ _ => [])
    (fun _ => Some (mkResponse 202)).

(** ** The scheduling managers of [mozci/ci_manager.py] *)

Module CIManager.

(** The errors a manager method can end with: the ones Python raises
    while binding arguments or looking up attributes, and whatever the
    backend function raises. *)
Inductive error : Type :=
| TypeError (msg : string)
| KeyError (key : string)
| AttributeError (name : string)
| BackendError (msg : string).

Inductive outcome (A : Type) : Type :=
| Ok (a : A)
| Err (e : error).
Arguments Ok {A} a.
Arguments Err {A} e.

(** The values handed around: names, identifiers, flags, task graphs. *)
Inductive value : Type :=
| VNone
| VStr (s : string)
| VInt (n : Z)
| VBool (b : bool)
| VGraph (g : list (string * list string)).

(** A call that reaches a function of [buildapi], [tc] or
    [buildbot_bridge]: positional and keyword arguments. *)
Record call : Type := mkCall {
  callee : string;
  positional : list value;
  keywords : gmap string value
}.

(** What the backend functions answer.  The functions of [buildapi], [tc]
    and [buildbot_bridge] that the managers name are taken to exist in
    those modules; how they bind the arguments they get is theirs to
    answer. *)
Definition External : Type := call -> outcome value.

(** [f(k1=v1, .., *args, **kwargs)]: Python raises [TypeError] when
    [kwargs] holds one of the keywords written out in the call; otherwise
    the function is called. *)
Definition apply_call (ext : External) (f : string)
    (explicit : list (string * value)) (args : list value)
    (kwargs : gmap string value) : outcome value :=
  match List.find (fun kv => bool_decide (is_Some (kwargs !! fst kv)))
                  explicit with
  | Some kv =>
      Err (TypeError (f ++ "() got multiple values for keyword argument '"
                        ++ fst kv ++ "'"))
  | None => ext (mkCall f args (list_to_map explicit ∪ kwargs))
  end.

(** Entering a method [def m(self, p1, .., *args, **kwargs)] called on an
    instance with [p1, ..] given by position: [params] lists the named
    parameters, [self] first, and a keyword argument with the name of one
    of them is a [TypeError] before the body runs. *)
Definition enter (method : string) (params : list string)
    (kwargs : gmap string value) (body : outcome value) : outcome value :=
  match List.find (fun name => bool_decide (is_Some (kwargs !! name)))
                  params with
  | Some name =>
      Err (TypeError (method ++ "() got multiple values for argument '"
                        ++ name ++ "'"))
  | None => body
  end.

Inductive class : Type :=
| BaseCIManager
| BuildAPIManager
| TaskclusterManager
| TaskClusterBuildbotManager.

(** The method names each class body defines. *)
Definition defines (cls : class) (name : string) : bool :=
  match cls with
  | BaseCIManager | BuildAPIManager | TaskclusterManager =>
      bool_decide (name ∈ ["schedule_arbitrary_job"; "schedule_graph";
                           "retrigger"; "cancel"; "cancel_all"])
  | TaskClusterBuildbotManager =>
      bool_decide (name ∈ ["schedule_graph"; "schedule_arbitrary_job"])
  end.

(** The method resolution order of a class. *)
Definition mro (cls : class) : list class :=
  match cls with
  | BaseCIManager => [BaseCIManager]
  | BuildAPIManager => [BuildAPIManager; BaseCIManager]
  | TaskclusterManager => [TaskclusterManager; BaseCIManager]
  | TaskClusterBuildbotManager =>
      [TaskClusterBuildbotManager; TaskclusterManager; BaseCIManager]
  end.

(** Attribute lookup along a list of classes. *)
Definition lookup (classes : list class) (name : string) : option class :=
  List.find (fun cls => defines cls name) classes.

(** [super(cls, self).name]: the lookup starts after [cls]. *)
Definition super (cls : class) (name : string) : option class :=
  lookup (tl (mro cls)) name.

(** [TaskclusterManager.schedule_graph(self, task_graph)] *)
Definition taskcluster_schedule_graph (task_graph : value) : outcome value :=
  Ok task_graph.

(** [schedule_graph(repo_name, revision, <third>, *args, **kwargs)] called
    on an instance of [cls], for the two classes that take these
    parameters. *)
Definition schedule_graph (cls : class) (ext : External)
    (repo_name revision third : value) (args : list value)
    (kwargs : gmap string value) : outcome value :=
  match lookup (mro cls) "schedule_graph" with
  | Some TaskClusterBuildbotManager =>
      enter "schedule_graph" ["self"; "repo_name"; "revision"; "builders_graph"] kwargs
        (match apply_call ext "buildbot_bridge.generate_task_graph"
                 [("repo_name", repo_name); ("revision", revision);
                  ("builders_graph", third)] args kwargs with
         | Err e => Err e
         | Ok graph =>
             match super TaskClusterBuildbotManager "schedule_graph" with
             | Some TaskclusterManager => taskcluster_schedule_graph graph
             | Some _ => Ok VNone
             | None => Err (AttributeError "schedule_graph")
             end
         end)
  | Some TaskclusterManager =>
      Err (TypeError "schedule_graph() takes exactly 2 arguments")
  | Some _ =>
      enter "schedule_graph" ["self"; "repo_name"; "revision"; "uuid"] kwargs (Ok VNone)
  | None => Err (AttributeError "schedule_graph")
  end.

(** [schedule_arbitrary_job(repo_name, revision, uuid, *args, **kwargs)] *)
Definition schedule_arbitrary_job (cls : class) (ext : External)
    (repo_name revision uuid : value) (args : list value)
    (kwargs : gmap string value) : outcome value :=
  match lookup (mro cls) "schedule_arbitrary_job" with
  | Some BuildAPIManager =>
      enter "schedule_arbitrary_job" ["self"; "repo_name"; "revision"; "uuid"] kwargs
        (apply_call ext "buildapi.trigger_arbitrary_job"
           [("repo_name", repo_name); ("builder", uuid);
            ("revision", revision)] args kwargs)
  | Some TaskClusterBuildbotManager =>
      enter "schedule_arbitrary_job" ["self"; "repo_name"; "revision"; "uuid"] kwargs
        (match apply_call ext "buildbot_bridge.schedule_arbitrary_builder"
                 [("revision", revision); ("buildername", uuid)] args
                 kwargs with
         | Err e => Err e
         | Ok task =>
             match super TaskClusterBuildbotManager
                     "schedule_arbitrary_task" with
             | Some _ => Ok VNone
             | None => Err (AttributeError "schedule_arbitrary_task")
             end
         end)
  | Some _ =>
      enter "schedule_arbitrary_job" ["self"; "repo_name"; "revision"; "uuid"] kwargs
        (Ok VNone)
  | None => Err (AttributeError "schedule_arbitrary_job")
  end.

(** [retrigger(uuid, *args, **kwargs)] *)
Definition retrigger (cls : class) (ext : External) (uuid : value)
    (args : list value) (kwargs : gmap string value) : outcome value :=
  match lookup (mro cls) "retrigger" with
  | Some BuildAPIManager =>
      enter "retrigger" ["self"; "uuid"] kwargs
        (apply_call ext "buildapi.make_retrigger_request"
           [("request_id", uuid)] args kwargs)
  | Some TaskclusterManager =>
      enter "retrigger" ["self"; "uuid"] kwargs
        (apply_call ext "tc.retrigger_task" [("task_id", uuid)] args kwargs)
  | Some _ => enter "retrigger" ["self"; "uuid"] kwargs (Ok VNone)
  | None => Err (AttributeError "retrigger")
  end.

(** [cancel(uuid, *args, **kwargs)] *)
Definition cancel (cls : class) (ext : External) (uuid : value)
    (args : list value) (kwargs : gmap string value) : outcome value :=
  match lookup (mro cls) "cancel" with
  | Some BuildAPIManager =>
      enter "cancel" ["self"; "uuid"] kwargs
        (match kwargs !! "repo_name" with
         | None => Err (KeyError "repo_name")
         | Some repo_name =>
             apply_call ext "buildapi.make_cancel_request"
               [("repo_name", repo_name); ("request_id", uuid)] args kwargs
         end)
  | Some _ => enter "cancel" ["self"; "uuid"] kwargs (Ok VNone)
  | None => Err (AttributeError "cancel")
  end.

(** [cancel_all(repo_name, revision, *args, **kwargs)] *)
Definition cancel_all (cls : class) (repo_name revision : value)
    (args : list value) (kwargs : gmap string value) : outcome value :=
  match lookup (mro cls) "cancel_all" with
  | Some _ => enter "cancel_all" ["self"; "repo_name"; "revision"] kwargs (Ok VNone)
  | None => Err (AttributeError "cancel_all")
  end.

Definition is_Err {A} (o : outcome A) : bool :=
  match o with Err _ => true | Ok _ => false end.

(** A backend that answers every call. *)
Definition obliging : External := fun c => Ok (VStr (callee c)).

End CIManager.

(** The part of a list a scan with a stopping test looks at: the elements
    up to and including the first stopping one. *)
Fixpoint examined {A} (stop : A -> bool) (l : list A) : list A :=
  match l with
  | [] => []
  | x :: rest => if stop x then [x] else x :: examined stop rest
  end.

(** A pending job on the third of five revisions; the job on the fourth
    has no status to fetch. *)
Definition unreadable_past_the_stop : Collab :=
  demo_collab
    (fun _ _ rev _ => if bool_decide (rev = "r3") then [job1]
                      else if bool_decide (rev = "r2") then [job2]
                      else [])
    (fun job => if bool_decide (job = job1) then Return PENDING
                else Raise BuildjsonException)
    (fun _ _ => None) (fun _ => true) (fun _ _ => five_revisions).

(** Test builders of one build asked for on one revision: without files,
    over a range, and with artifact files. *)
Definition mixed_requests_session : list (World * Invocation) :=
  [(still empty_collab, TriggerJob rev1 linux_test 3 None false None true);
   (still empty_collab,
    TriggerRange linux_talos [rev1; rev1] 2 false None None true);
   (still empty_collab,
    TriggerJob rev1 linux_test 2 (Some ["http://ftp/firefox.tar.bz2"]) false
      None true)].

(** * Properties *)

(** Evaluate the closed tests and counts that occur in the goal. *)
Ltac eval_closed :=
  repeat match goal with
    | |- context [bucket_count ?b [?s]] =>
        let v := eval vm_compute in (bucket_count b [s]) in
        change (bucket_count b [s]) with v
    | |- context [bool_decide ?P] =>
        let v := eval vm_compute in (bool_decide P) in
        change (bool_decide P) with v
    end.

(** ** Job Status Aggregator *)

Lemma tally_bucket (status : Status) (s : StatusSummary) :
  tally status s =
  mkSummary
    (successful s + bucket_count B_successful [status])
    (pending s + bucket_count B_pending [status])
    (running s + bucket_count B_running [status])
    (coalesced s + bucket_count B_coalesced [status])
    (failed s + bucket_count B_failed [status]).
Proof.
  destruct s as [a b r k f].
  destruct status; unfold tally, status_in; eval_closed; cbn; f_equal; lia.
Qed.

Lemma bucket_count_cons (b : Bucket) (status : Status) (l : list Status) :
  bucket_count b (status :: l) = bucket_count b [status] + bucket_count b l.
Proof.
  unfold bucket_count. cbn [List.filter].
  destruct (bool_decide (spec_bucket status = b)); cbn [length]; lia.
Qed.

Lemma bucket_count_total (l : list Status) :
  bucket_count B_successful l + bucket_count B_pending l
  + bucket_count B_running l + bucket_count B_coalesced l
  + bucket_count B_failed l = Z.of_nat (length l).
Proof.
  induction l as [|status l IH].
  - reflexivity.
  - rewrite !(bucket_count_cons _ status l). cbn [length].
    destruct status; eval_closed; lia.
Qed.

Lemma status_loop_counts (c : Collab) (src : QuerySource) :
  forall (jobs : list Job) (statuses : list Status) (s : StatusSummary),
    map (get_job_status c src) jobs = map Return statuses ->
    status_loop c src jobs s =
    Return (mkSummary
              (successful s + bucket_count B_successful statuses)
              (pending s + bucket_count B_pending statuses)
              (running s + bucket_count B_running statuses)
              (coalesced s + bucket_count B_coalesced statuses)
              (failed s + bucket_count B_failed statuses)).
Proof.
  induction jobs as [|job jobs IH]; intros [|status statuses] s Hmap;
    try discriminate.
  - destruct s; cbn. do 2 f_equal; unfold bucket_count; cbn; lia.
  - cbn in Hmap. injection Hmap as Hjob Hrest.
    cbn [status_loop]. rewrite Hjob.
    rewrite (IH statuses _ Hrest), tally_bucket. cbn.
    rewrite !(bucket_count_cons _ status statuses).
    do 2 f_equal; lia.
Qed.

(** The loop of [_status_summary] is the partition of the specification
    once its five counters start at zero and are handed back in order: on a
    list of jobs whose statuses the query source reports, every job is
    counted in the one bucket the classification rule gives its status
    (pending; running or unknown; success; coalesced; failure, warning,
    exception or retry), so the five counts add up to the length of the
    list; a value that is not a sequence fails the assertion on entry.
    This is a property of the reading the callers rely on (see
    [_status_summary]), not of the function's text, which Python does not
    accept. *)
Lemma status_summary_partition
    (c : Collab) (src : QuerySource) (jobs : list Job)
    (statuses : list Status) (v : PyValue)
    (Hstatus : map (get_job_status c src) jobs = map Return statuses)
    (Hv : is_sequence v = false) :
  (exists s : StatusSummary,
      _status_summary c src (PyList jobs) = Return s
      /\ successful s = bucket_count B_successful statuses
      /\ pending s = bucket_count B_pending statuses
      /\ running s = bucket_count B_running statuses
      /\ coalesced s = bucket_count B_coalesced statuses
      /\ failed s = bucket_count B_failed statuses
      /\ successful s + pending s + running s + coalesced s + failed s
         = Z.of_nat (length jobs))
  /\ (exists msg : string, _status_summary c src v = Raise (AssertionError msg)).
Proof.
  split.
  - eexists. split.
    + cbn [_status_summary]. apply (status_loop_counts c src jobs statuses), Hstatus.
    + cbn. repeat split; try reflexivity.
      assert (length jobs = length statuses) as ->.
      { rewrite <- (length_map (get_job_status c src) jobs), Hstatus.
        apply length_map. }
      apply bucket_count_total.
  - destruct v; try discriminate Hv; eexists; reflexivity.
Qed.

(** ** Trigger Objective Resolver *)

Lemma scan_in_flight_continues (c : Collab) (job : Job) (rest : list Job)
    (st : Scan) (status : Status) :
  get_job_status c BuildApi job = Return status ->
  in_flight status = true ->
  scan_build_jobs c (job :: rest) st =
  scan_build_jobs c rest
    (mkScan (scan_files st) (working_job st) (Some job) (failed_job st)).
Proof. intros Hs Hf. cbn [scan_build_jobs]. now rewrite Hs, Hf. Qed.

Lemma scan_working_stops (c : Collab) (job : Job) (rest : list Job)
    (st : Scan) (status : Status) (files : list string) :
  get_job_status c BuildApi job = Return status ->
  in_flight status = false ->
  _find_files c job = Return files ->
  files <> [] ->
  _all_urls_reachable c files = true ->
  scan_build_jobs c (job :: rest) st =
  Return (mkScan (Some files) (Some job) (running_job st) (failed_job st)).
Proof.
  intros Hs Hf Hfiles Hne Hreach. cbn [scan_build_jobs].
  rewrite Hs, Hf, Hfiles, Hreach.
  now rewrite bool_decide_eq_false_2.
Qed.

(** C7: a job whose status fetch raises the data-retrieval error of
    buildjson is skipped and the scan goes on with the next job, so the scan
    of a job list is the scan of that list without those jobs: such a
    failure never ends the scan. *)
Theorem scan_skips_retrieval_errors (c : Collab) (jobs : list Job) (st : Scan) :
  scan_build_jobs c jobs st =
  scan_build_jobs c
    (List.filter
       (fun job => negb (retrieval_error (get_job_status c BuildApi job))) jobs)
    st.
Proof.
  revert st. induction jobs as [|job jobs IH]; intros st.
  - reflexivity.
  - cbn [List.filter].
    destruct (get_job_status c BuildApi job) as [status|e] eqn:Hfetch.
    + cbn [retrieval_error negb scan_build_jobs]. rewrite Hfetch.
      destruct (in_flight status); [apply IH|].
      destruct (_find_files c job) as [files|e]; [|reflexivity].
      destruct (negb (bool_decide (files = [])) && _all_urls_reachable c files);
        [reflexivity | apply IH].
    + destruct e; cbn [retrieval_error negb scan_build_jobs]; rewrite Hfetch;
        solve [reflexivity | apply IH].
Qed.

Lemma scan_returns (c : Collab) (jobs : list Job) (st : Scan) :
  Forall (fun job => scan_ok c job = true) jobs ->
  is_Return (scan_build_jobs c jobs st) = true.
Proof.
  intros Hok. revert st. induction Hok as [|job jobs Hjob _ IH]; intros st.
  - reflexivity.
  - cbn [scan_build_jobs]. unfold scan_ok in Hjob.
    destruct (get_job_status c BuildApi job) as [status|e].
    + destruct (in_flight status); [apply IH|].
      destruct (_find_files c job) as [files|e]; [|discriminate Hjob].
      destruct (negb (bool_decide (files = [])) && _all_urls_reachable c files);
        [reflexivity | apply IH].
    + destruct e; try discriminate Hjob. apply IH.
Qed.

(** C8, as the code has it: when the files found for a finished build job
    are none at all, or are not all reachable, the job becomes the failed
    candidate, the files are forgotten and the scan goes on with the next
    job; nothing is raised for that job, so the scan returns whenever the
    jobs after it raise nothing themselves. *)
Theorem unusable_files_make_failed_candidate
    (c : Collab) (job : Job) (rest : list Job) (st : Scan)
    (status : Status) (files : list string)
    (Hstatus : get_job_status c BuildApi job = Return status)
    (Hdone : in_flight status = false)
    (Hfiles : _find_files c job = Return files)
    (Hbad : files = [] \/ _all_urls_reachable c files = false) :
  scan_build_jobs c (job :: rest) st =
  scan_build_jobs c rest
    (mkScan None (working_job st) (running_job st) (Some job))
  /\ (Forall (fun j => scan_ok c j = true) rest ->
      is_Return (scan_build_jobs c (job :: rest) st) = true).
Proof.
  assert (Hstep : scan_build_jobs c (job :: rest) st =
                  scan_build_jobs c rest
                    (mkScan None (working_job st) (running_job st) (Some job))).
  { cbn [scan_build_jobs]. rewrite Hstatus, Hdone, Hfiles.
    destruct Hbad as [-> | ->].
    - reflexivity.
    - now rewrite andb_false_r. }
  split; [exact Hstep|].
  intros Hrest. rewrite Hstep. now apply scan_returns.
Qed.

Lemma unusable_files_witness :
  scan_build_jobs no_files_recorded [job1] scan0 =
  Return (mkScan None None None (Some job1))
  /\ is_Return (scan_build_jobs no_files_recorded [job1] scan0) = true.
Proof.
  destruct (unusable_files_make_failed_candidate no_files_recorded job1 []
              scan0 FAILURE []) as [Hstep Hreturns].
  - reflexivity.
  - reflexivity.
  - vm_compute. reflexivity.
  - left. reflexivity.
  - split; [exact Hstep | apply Hreturns; constructor].
Defined.

(** C8, as stated, fails: a finished build job whose status record has an
    empty properties dictionary yields no file, and the resolution raises
    instead of remembering a failed candidate. *)
Lemma empty_properties_raise :
  get_job_status empty_properties BuildApi job1 = Return SUCCESS
  /\ in_flight SUCCESS = false
  /\ _find_files empty_properties job1 = Raise no_properties
  /\ _determine_trigger_objective demo_platforms empty_properties ∅ rev1
       linux_test true = Raise no_properties.
Proof. vm_compute. repeat split; reflexivity. Qed.

(** C2 at the input [in-flight job; working job]: the scan goes on after
    the in-flight job, reaches the working build that comes later, and the
    resolution selects it. *)
Theorem working_build_after_in_flight_wins :
  get_matching_jobs in_flight_then_working BuildApi "try" rev1 linux_build
    = [job1; job2]
  /\ get_job_status in_flight_then_working BuildApi job1 = Return RUNNING
  /\ scan_build_jobs in_flight_then_working [job1; job2] scan0
     = Return (mkScan (Some ["http://ftp/firefox.tar.bz2";
                             "http://ftp/firefox.tests.zip"])
                      (Some job2) (Some job1) None)
  /\ _determine_trigger_objective demo_platforms in_flight_then_working ∅
       rev1 linux_test true
     = Return (Some linux_test,
               Some ["http://ftp/firefox.tar.bz2";
                     "http://ftp/firefox.tests.zip"]).
Proof. vm_compute. repeat split; reflexivity. Qed.

(** ** Session Dedup Ledger *)

(** Creating the entry when it is missing and appending to it is one
    insertion. *)
Lemma append_to_entry (m : gmap string (list string)) (revision builder : string) :
  alter (fun builders => (builders ++ [builder])%list) revision
    (if bool_decide (m !! revision = None) then <[revision := []]> m else m)
  = record_builder m revision builder.
Proof.
  unfold record_builder. apply map_eq. intros k.
  rewrite lookup_alter, lookup_insert.
  destruct (m !! revision) as [l|] eqn:Hentry.
  - rewrite bool_decide_eq_false_2 by congruence.
    case_decide; subst; [rewrite Hentry|]; reflexivity.
  - rewrite bool_decide_eq_true_2 by congruence.
    repeat case_decide; subst;
      rewrite ?lookup_insert_eq, ?lookup_insert_ne by done;
      try rewrite Hentry; reflexivity.
Qed.

(** [trigger] in one step: the ledger entry first, then the lookup of the
    repository, then the request. *)
Lemma trigger_unfold (w : World) (builder revision : string)
    (files : option (list string)) (dry_run : bool)
    (extra : option MozciRequest) (st : Session) :
  trigger w builder revision files dry_run extra st =
  let sch_mgr := record_builder (SCHEDULING_MANAGER st) revision builder in
  match query_repo_name_from_buildername (w (backend_calls st)) builder with
  | Raise e => (Raise e, mkSession sch_mgr (QUERY_SOURCE st) (backend_calls st))
  | Return repo_name =>
      let call :=
        TriggerArbitraryJob repo_name builder revision files dry_run extra in
      (Return (buildapi_response (w (backend_calls st)) call),
       mkSession sch_mgr (QUERY_SOURCE st) (backend_calls st ++ [call])%list)
  end.
Proof.
  pose proof (append_to_entry (SCHEDULING_MANAGER st) revision builder) as Hm.
  unfold trigger, bind, get_sch_mgr, modify_sch_mgr, ask, lift, send, ret.
  destruct (bool_decide (SCHEDULING_MANAGER st !! revision = None));
    cbn; rewrite Hm;
    destruct (query_repo_name_from_buildername (w (backend_calls st)) builder);
    reflexivity.
Qed.

Lemma recorded_record_builder (m : gmap string (list string)) (r b r' b' : string) :
  recorded (record_builder m r b) r' b' <-> recorded m r' b' \/ (r' = r /\ b' = b).
Proof.
  unfold recorded, record_builder.
  destruct (decide (r' = r)) as [->|Hne].
  - rewrite lookup_insert_eq. cbn. rewrite elem_of_app, list_elem_of_singleton. tauto.
  - rewrite lookup_insert_ne by done. tauto.
Qed.

Lemma unique_build_request_spec (p : Platforms) (m : gmap string (list string))
    (b r : string) :
  _unique_build_request p m b r = true <->
  is_downstream p b = true \/ ~ recorded m r b.
Proof.
  unfold _unique_build_request, recorded.
  destruct (is_downstream p b); [tauto|].
  destruct (m !! r) as [l|]; cbn.
  - case_bool_decide; split; intros; try tauto; try discriminate.
  - split; [intros _; right; apply not_elem_of_nil | reflexivity].
Qed.

Lemma ledger_le_refl st : ledger_le st st.
Proof. intros r b H. exact H. Qed.

Lemma ledger_le_trans st1 st2 st3 :
  ledger_le st1 st2 -> ledger_le st2 st3 -> ledger_le st1 st3.
Proof. intros H1 H2 r b H. apply H2, H1, H. Qed.

Lemma grows_ret {A} (a : A) : grows (ret a).
Proof. intros st. apply ledger_le_refl. Qed.
Lemma grows_raise {A} (e : exn) : grows (@raise A e).
Proof. intros st. apply ledger_le_refl. Qed.
Lemma grows_lift {A} (r : Result A) : grows (lift r).
Proof. intros st. apply ledger_le_refl. Qed.
Lemma grows_ask (w : World) : grows (ask w).
Proof. intros st. apply ledger_le_refl. Qed.
Lemma grows_get_sch_mgr : grows get_sch_mgr.
Proof. intros st. apply ledger_le_refl. Qed.
Lemma grows_get_query_source : grows get_query_source.
Proof. intros st. apply ledger_le_refl. Qed.
Lemma grows_set_query_source (s : string) : grows (set_query_source s).
Proof. intros st r b H. exact H. Qed.
Lemma grows_send (w : World) (call : BackendCall) : grows (send w call).
Proof. intros st r b H. exact H. Qed.

Lemma grows_bind {A B} (m : M A) (k : A -> M B) :
  grows m -> (forall a, grows (k a)) -> grows (bind m k).
Proof.
  intros Hm Hk st. unfold bind. specialize (Hm st).
  destruct (m st) as [[a|e] st1]; cbn in *.
  - eapply ledger_le_trans; [exact Hm | apply Hk].
  - exact Hm.
Qed.

Lemma grows_trigger w builder revision files dry_run extra :
  grows (trigger w builder revision files dry_run extra).
Proof.
  intros st r b H. rewrite trigger_unfold. cbn.
  destruct (query_repo_name_from_buildername _ _); cbn;
    apply recorded_record_builder; now left.
Qed.

Ltac grows_step :=
  first
    [ apply grows_ret | apply grows_raise | apply grows_lift | apply grows_ask
    | apply grows_get_sch_mgr | apply grows_get_query_source
    | apply grows_set_query_source | apply grows_send | apply grows_trigger
    | apply grows_bind; [|intros]
    | match goal with
      | |- grows (if ?b then _ else _) => destruct b
      | |- grows (match ?x with _ => _ end) => destruct x
      end ].

Lemma grows_trigger_times w n builder revision files dry_run extra acc :
  grows (trigger_times w n builder revision files dry_run extra acc).
Proof.
  revert acc. induction n as [|n IH]; intros acc; cbn [trigger_times].
  - apply grows_ret.
  - apply grows_bind; [apply grows_trigger | intros req; apply IH].
Qed.

Lemma grows_trigger_job p w revision buildername times files dry_run extra tbim :
  grows (trigger_job p w revision buildername times files dry_run extra tbim).
Proof.
  unfold trigger_job. repeat first [apply grows_trigger_times | grows_step].
Qed.

Lemma grows_trigger_range_rev p w buildername times dry_run files extra tbim
    repo_name repo_url rev :
  grows (trigger_range_rev p w buildername times dry_run files extra tbim
           repo_name repo_url rev).
Proof.
  unfold trigger_range_rev. repeat first [apply grows_trigger_job | grows_step].
Qed.

Lemma grows_for_each {A} (l : list A) (body : A -> M unit) :
  (forall x, grows (body x)) -> grows (for_each l body).
Proof.
  intros Hbody. induction l as [|x l IH]; cbn [for_each].
  - apply grows_ret.
  - apply grows_bind; [apply Hbody | intros _; apply IH].
Qed.

Lemma grows_trigger_range p w buildername revisions times dry_run files extra tbim :
  grows (trigger_range p w buildername revisions times dry_run files extra tbim).
Proof.
  unfold trigger_range.
  repeat first [apply grows_for_each; intros rev; apply grows_trigger_range_rev
               | grows_step].
Qed.

Lemma grows_invoke p w i : grows (invoke p w i).
Proof.
  destruct i; cbn [invoke].
  - apply grows_bind; [apply grows_trigger_job | intros; apply grows_ret].
  - apply grows_trigger_range.
Qed.

Lemma run_session_grows p invs st : ledger_le st (run_session p invs st).
Proof.
  revert st. induction invs as [|[w i] invs IH]; intros st; cbn [run_session].
  - apply ledger_le_refl.
  - eapply ledger_le_trans; [apply grows_invoke | apply IH].
Qed.

Lemma trigger_count_app r b (l1 l2 : list BackendCall) :
  trigger_count r b (l1 ++ l2) = (trigger_count r b l1 + trigger_count r b l2)%nat.
Proof. unfold trigger_count. now rewrite List.filter_app, length_app. Qed.

Lemma trigger_count_single r b (call : BackendCall) :
  trigger_count r b [call] = if is_trigger_of r b call then 1%nat else 0%nat.
Proof. unfold trigger_count. cbn. now destruct (is_trigger_of r b call). Qed.

Lemma trigger_inv p w builder revision files dry_run extra st r b :
  is_downstream p b = false ->
  dedup_inv st r b ->
  builder <> b
  \/ _unique_build_request p (SCHEDULING_MANAGER st) builder revision = true ->
  dedup_inv (snd (trigger w builder revision files dry_run extra st)) r b.
Proof.
  intros Hbuild [Hle Hrec] Hguard. unfold dedup_inv.
  rewrite trigger_unfold. cbv zeta.
  destruct (query_repo_name_from_buildername _ _) as [repo_name|e];
    cbn [snd backend_calls SCHEDULING_MANAGER].
  - rewrite trigger_count_app, trigger_count_single. cbn [is_trigger_of].
    destruct (bool_decide (builder = b)) eqn:Hb; cbn [andb];
      [destruct (bool_decide (revision = r)) eqn:Hr|].
    + apply bool_decide_eq_true_1 in Hb, Hr. subst b r.
      destruct Hguard as [Hne|Hguard]; [congruence|].
      apply unique_build_request_spec in Hguard as [Hd|Hnot]; [congruence|].
      split.
      * destruct (trigger_count revision builder (backend_calls st)) eqn:Hc; [lia|].
        exfalso. apply Hnot, Hrec. lia.
      * intros _. apply recorded_record_builder. now right.
    + rewrite Nat.add_0_r. split; [exact Hle|].
      intros H. apply recorded_record_builder. left. now apply Hrec.
    + rewrite Nat.add_0_r. split; [exact Hle|].
      intros H. apply recorded_record_builder. left. now apply Hrec.
  - split; [exact Hle|].
    intros H. apply recorded_record_builder. left. now apply Hrec.
Qed.

Lemma trigger_times_inv p w n builder revision files dry_run extra acc st r b :
  is_downstream p b = false ->
  dedup_inv st r b ->
  builder <> b
  \/ ((n <= 1)%nat
      /\ _unique_build_request p (SCHEDULING_MANAGER st) builder revision = true) ->
  dedup_inv (snd (trigger_times w n builder revision files dry_run extra acc st)) r b.
Proof.
  intros Hbuild. revert acc st. induction n as [|n IH]; intros acc st Hinv Hcase.
  - exact Hinv.
  - cbn [trigger_times]. unfold bind.
    assert (Hguard : builder <> b
              \/ _unique_build_request p (SCHEDULING_MANAGER st) builder revision = true).
    { destruct Hcase as [Hne|[_ Hg]]; [now left | now right]. }
    pose proof (trigger_inv p w builder revision files dry_run extra st r b
                  Hbuild Hinv Hguard) as Hstep.
    destruct (trigger w builder revision files dry_run extra st) as [[req|e] st1];
      cbn [snd] in Hstep |- *; [|exact Hstep].
    destruct Hcase as [Hne|[Hn _]].
    + apply IH; [exact Hstep | now left].
    + assert (n = 0%nat) as -> by lia. exact Hstep.
Qed.

Lemma resolved_builder_guarded p c sch_mgr revision buildername tbim b files :
  _determine_trigger_objective p c sch_mgr revision buildername tbim
    = Return (Some b, files) ->
  b = buildername
  \/ (b <> buildername /\ _unique_build_request p sch_mgr b revision = true).
Proof.
  unfold _determine_trigger_objective.
  destruct (query_repo_name_from_buildername c buildername); [|discriminate].
  destruct (negb (valid_builder c _)); [discriminate|].
  case_bool_decide as Heq.
  - intros [= <- _]. now left.
  - destruct (scan_build_jobs c _ scan0) as [sc|e]; [|discriminate].
    destruct (working_job sc), (running_job sc), (failed_job sc);
      try (intros [= <- _]; now left); try discriminate.
    destruct (negb tbim || negb (_unique_build_request p sch_mgr _ revision)) eqn:Hg;
      [discriminate|].
    intros [= <- _]. right. split; [exact Heq|].
    apply orb_false_elim in Hg as [_ Hg]. now apply negb_false_iff in Hg.
Qed.

Lemma trigger_job_inv p w revision buildername times files dry_run extra tbim st r b :
  is_downstream p b = false ->
  buildername <> b ->
  dedup_inv st r b ->
  dedup_inv (snd (trigger_job p w revision buildername times files dry_run extra
                   tbim st)) r b.
Proof.
  intros Hbuild Hother Hinv.
  unfold trigger_job, bind, ask, lift, get_sch_mgr, ret, raise.
  cbn -[trigger trigger_times].
  destruct (query_repo_name_from_buildername _ buildername) as [repo_name|e];
    [|exact Hinv].
  destruct (negb (valid_revision _ _ revision)); [exact Hinv|].
  destruct (negb (valid_builder _ buildername)); [exact Hinv|].
  destruct (truthy_files files) eqn:Hfiles; cbn -[trigger trigger_times].
  - destruct (negb (bool_decide (buildername = ""))); [|exact Hinv].
    destruct dry_run.
    + pose proof (trigger_inv p w buildername revision files true extra st r b
                    Hbuild Hinv (or_introl Hother)) as H.
      destruct (trigger w buildername revision files true extra st) as [[?|?] ?];
        exact H.
    + apply (trigger_times_inv p); [exact Hbuild | exact Hinv | now left].
  - destruct (_determine_trigger_objective p _ _ revision buildername tbim)
      as [[[x|] fs]|e] eqn:Hres; cbn -[trigger trigger_times]; try exact Hinv.
    2:{ destruct (_ && _); exact Hinv. }
    apply resolved_builder_guarded in Hres.
    assert (Hguard : x <> b
              \/ _unique_build_request p (SCHEDULING_MANAGER st) x revision = true).
    { destruct Hres as [->|[_ Hg]]; [now left | now right]. }
    destruct (negb (bool_decide (Some x = Some buildername)) && negb (times =? 1)%Z)
      eqn:Hcond; cbn -[trigger trigger_times];
      (destruct (negb (bool_decide (x = ""))); [|exact Hinv]);
      destruct dry_run.
    + pose proof (trigger_inv p w x revision fs true extra st r b Hbuild Hinv Hguard)
        as H.
      destruct (trigger w x revision fs true extra st) as [[?|?] ?]; exact H.
    + apply (trigger_times_inv p); [exact Hbuild | exact Hinv|].
      destruct Hguard as [Hne|Hg]; [now left|].
      right. split; [cbn; lia | exact Hg].
    + pose proof (trigger_inv p w x revision fs true extra st r b Hbuild Hinv Hguard)
        as H.
      destruct (trigger w x revision fs true extra st) as [[?|?] ?]; exact H.
    + apply (trigger_times_inv p); [exact Hbuild | exact Hinv|].
      apply andb_false_iff in Hcond as [Hc|Hc].
      * apply negb_false_iff, bool_decide_eq_true_1 in Hc. injection Hc as ->.
        now left.
      * apply negb_false_iff, Z.eqb_eq in Hc. subst times.
        destruct Hguard as [Hne|Hg]; [now left|].
        right. split; [cbn; lia | exact Hg].
Qed.

Lemma send_retrigger_inv w repo_name rid count dry_run st r b :
  dedup_inv st r b ->
  dedup_inv (snd (send w (MakeRetriggerRequest repo_name rid count dry_run) st)) r b.
Proof.
  intros Hinv. unfold dedup_inv. cbn [send snd backend_calls SCHEDULING_MANAGER].
  rewrite trigger_count_app, trigger_count_single. cbn [is_trigger_of].
  rewrite Nat.add_0_r. exact Hinv.
Qed.

Lemma trigger_range_rev_inv p w buildername times dry_run files extra tbim
    repo_name repo_url rev st r b :
  is_downstream p b = false ->
  buildername <> b ->
  dedup_inv st r b ->
  dedup_inv (snd (trigger_range_rev p w buildername times dry_run files extra
                   tbim repo_name repo_url rev st)) r b.
Proof.
  intros Hbuild Hother Hinv.
  assert (Hjob : forall n,
    dedup_inv (snd ((do _ <- trigger_job p w rev buildername n files dry_run
                              extra tbim; ret tt) st)) r b).
  { intros n. unfold bind.
    pose proof (trigger_job_inv p w rev buildername n files dry_run extra tbim st
                  r b Hbuild Hother Hinv) as H.
    destruct (trigger_job p w rev buildername n files dry_run extra tbim st)
      as [[?|?] ?]; exact H. }
  unfold trigger_range_rev.
  unfold bind at 1. unfold ask at 1. cbv beta iota.
  destruct (negb (valid_revision _ repo_url rev)); [exact Hinv|].
  unfold bind at 1. unfold get_query_source at 1. cbv beta iota zeta.
  unfold bind at 1. unfold lift at 1.
  destruct (_status_summary _ _ _) as [s|e]; [|exact Hinv].
  destruct (potential_jobs s >=? times)%Z; [exact Hinv|].
  destruct (get_matching_jobs _ _ repo_name rev buildername) as [|job0 more].
  - apply Hjob.
  - destruct files as [fs|]; [apply Hjob|].
    unfold bind.
    pose proof (send_retrigger_inv w repo_name
      (get_buildapi_request_id (w (backend_calls st)) (QUERY_SOURCE st) repo_name job0)
      (times - potential_jobs s) dry_run st r b Hinv) as H.
    destruct (send w _ st) as [[?|?] ?]; exact H.
Qed.

Lemma for_each_inv {A} (P : Session -> Prop) (l : list A) (body : A -> M unit) :
  (forall x st, P st -> P (snd (body x st))) ->
  forall st, P st -> P (snd (for_each l body st)).
Proof.
  intros Hbody. induction l as [|x l IH]; intros st Hst; cbn [for_each].
  - exact Hst.
  - unfold bind. specialize (Hbody x st Hst).
    destruct (body x st) as [[?|?] st1]; cbn in Hbody |- *.
    + apply IH, Hbody.
    + exact Hbody.
Qed.

Lemma trigger_range_inv p w buildername revisions times dry_run files extra tbim
    st r b :
  is_downstream p b = false ->
  buildername <> b ->
  dedup_inv st r b ->
  dedup_inv (snd (trigger_range p w buildername revisions times dry_run files
                   extra tbim st)) r b.
Proof.
  intros Hbuild Hother Hinv.
  unfold trigger_range. unfold bind at 1. unfold ask at 1. cbv beta iota.
  unfold bind at 1. unfold lift at 1.
  destruct (query_repo_name_from_buildername _ buildername) as [repo_name|e];
    [|exact Hinv].
  cbv zeta. apply (for_each_inv (fun st => dedup_inv st r b)); [|exact Hinv].
  intros rev st' Hst'. now apply (trigger_range_rev_inv p).
Qed.

Lemma invoke_inv p w i st r b :
  is_downstream p b = false ->
  requested_builder i <> b ->
  dedup_inv st r b ->
  dedup_inv (snd (invoke p w i st)) r b.
Proof.
  intros Hbuild Hother Hinv. destruct i; cbn [invoke requested_builder] in *.
  - unfold bind.
    pose proof (trigger_job_inv p w revision buildername times files dry_run
                  extra_properties trigger_build_if_missing st r b Hbuild Hother
                  Hinv) as H.
    destruct (trigger_job _ _ _ _ _ _ _ _ _ st) as [[?|?] ?]; exact H.
  - now apply (trigger_range_inv p).
Qed.

Lemma fresh_session_inv r b : dedup_inv fresh_session r b.
Proof. unfold dedup_inv. cbn. split; [lia | intros H; lia]. Qed.

(** C1, as the code has it: in a session that starts with an empty ledger,
    whatever [trigger_job] and [trigger_range] invocations it is made of,
    with or without artifact files, the history holds at most one trigger
    request for a build builder on a revision as long as no invocation asks
    for that build builder itself, however many test builders are asked
    for and whatever the requested counts. *)
Theorem build_triggered_at_most_once
    (p : Platforms) (invs : list (World * Invocation))
    (revision builder : string)
    (Hother : Forall (fun wi => requested_builder (snd wi) <> builder) invs)
    (Hbuild : is_downstream p builder = false) :
  (trigger_count revision builder
     (backend_calls (run_session p invs fresh_session)) <= 1)%nat.
Proof.
  enough (Hrun : forall st, dedup_inv st revision builder ->
                            dedup_inv (run_session p invs st) revision builder).
  { apply (Hrun fresh_session (fresh_session_inv revision builder)). }
  induction Hother as [|[w i] invs Hi _ IH]; intros st Hinv; cbn [run_session].
  - exact Hinv.
  - apply IH. now apply (invoke_inv p).
Qed.

Lemma build_triggered_at_most_once_witness :
  (trigger_count rev1 linux_build
     (backend_calls (run_session demo_platforms mixed_requests_session
                       fresh_session))
   <= 1)%nat.
Proof.
  apply (build_triggered_at_most_once demo_platforms mixed_requests_session rev1
           linux_build).
  - repeat constructor; discriminate.
  - reflexivity.
Defined.

(** C1, as stated, fails: a caller who asks for the build builder itself,
    two times and without files, gets two trigger requests for the same
    revision and build builder. *)
Lemma direct_build_request_is_repeated :
  Forall (fun wi => supplied_files (snd wi) = None) direct_build_session
  /\ is_downstream demo_platforms linux_build = false
  /\ trigger_count rev1 linux_build
       (backend_calls (run_session demo_platforms direct_build_session
                         fresh_session)) = 2%nat.
Proof.
  split; [repeat constructor|]. split; vm_compute; reflexivity.
Qed.

(** C10: [trigger] appends the builder to the ledger entry of the revision
    whatever the builder and whatever [dry_run], and does so before the
    request goes out: the entry is extended even when no request is sent.
    From then on the dedup check answers "not unique" for that pair unless
    the builder is a test builder, through the rest of the session; a second
    call appends the same builder again. *)
Theorem trigger_always_records
    (p : Platforms) (w : World) (builder revision : string)
    (files : option (list string)) (dry_run : bool)
    (extra : option MozciRequest) (st : Session) :
  SCHEDULING_MANAGER (snd (trigger w builder revision files dry_run extra st))
    = record_builder (SCHEDULING_MANAGER st) revision builder
  /\ (backend_calls (snd (trigger w builder revision files dry_run extra st))
        = backend_calls st
      \/ exists repo_name,
           backend_calls (snd (trigger w builder revision files dry_run extra st))
           = (backend_calls st
              ++ [TriggerArbitraryJob repo_name builder revision files dry_run
                    extra])%list)
  /\ (forall invs : list (World * Invocation),
        _unique_build_request p
          (SCHEDULING_MANAGER
             (run_session p invs
                (snd (trigger w builder revision files dry_run extra st))))
          builder revision
        = is_downstream p builder)
  /\ SCHEDULING_MANAGER
       (snd (trigger w builder revision files dry_run extra
               (snd (trigger w builder revision files dry_run extra st))))
       !! revision
     = Some (default [] (SCHEDULING_MANAGER st !! revision)
             ++ [builder; builder])%list.
Proof.
  assert (Hledger : forall st0,
    SCHEDULING_MANAGER (snd (trigger w builder revision files dry_run extra st0))
    = record_builder (SCHEDULING_MANAGER st0) revision builder).
  { intros st0. rewrite trigger_unfold. cbv zeta.
    destruct (query_repo_name_from_buildername _ _); reflexivity. }
  split; [apply Hledger|]. split; [|split].
  - rewrite trigger_unfold. cbv zeta.
    destruct (query_repo_name_from_buildername _ _) as [repo_name|e]; cbn.
    + right. now exists repo_name.
    + now left.
  - intros invs.
    destruct (is_downstream p builder) eqn:Hdown.
    + apply unique_build_request_spec. now left.
    + destruct (_unique_build_request p _ builder revision) eqn:Hu; [|reflexivity].
      apply unique_build_request_spec in Hu as [Hu|Hu]; [congruence|].
      exfalso. apply Hu. apply run_session_grows.
      rewrite Hledger. apply recorded_record_builder. now right.
  - rewrite !Hledger. unfold record_builder.
    rewrite !lookup_insert_eq. cbn. now rewrite <- app_assoc.
Qed.

(** ** Trigger Range Scheduler *)

(** C4: in one round of the range scheduler, when the potential jobs among
    the matching jobs (pending, running, successful and failed; coalesced
    left out) reach the requested count, nothing is sent to the backend and
    the session is left as it was. *)
Theorem enough_jobs_no_backend_call
    (p : Platforms) (w : World) (buildername : string) (times : Z)
    (dry_run : bool) (files : option (list string))
    (extra : option MozciRequest) (tbim : bool)
    (repo_name repo_url rev : string) (st : Session) (s : StatusSummary)
    (Hsummary :
       _status_summary (w (backend_calls st)) (QUERY_SOURCE st)
         (PyList (get_matching_jobs (w (backend_calls st)) (QUERY_SOURCE st)
                    repo_name rev buildername)) = Return s)
    (Henough : potential_jobs s >= times) :
  trigger_range_rev p w buildername times dry_run files extra tbim
    repo_name repo_url rev st = (Return tt, st)
  /\ (query_repo_name_from_buildername (w (backend_calls st)) buildername
        = Return repo_name ->
      trigger_range p w buildername [rev] times dry_run files extra tbim st
        = (Return tt, st)).
Proof.
  assert (Hround : forall url,
    trigger_range_rev p w buildername times dry_run files extra tbim
      repo_name url rev st = (Return tt, st)).
  { intros url.
    unfold trigger_range_rev, bind, ask, get_query_source, lift, ret.
    destruct (negb (valid_revision _ url rev)); [reflexivity|].
    rewrite Hsummary.
    destruct (potential_jobs s >=? times)%Z eqn:Hge; [reflexivity|].
    rewrite Z.geb_leb in Hge. apply Z.leb_gt in Hge. lia. }
  split; [apply Hround|].
  intros Hrepo. unfold trigger_range. cbn [for_each].
  unfold bind at 1 2. unfold ask, lift. rewrite Hrepo.
  unfold bind. now rewrite Hround.
Qed.

(** C5: in one round of the range scheduler on a valid revision, when the
    potential jobs fall short of the requested count, some matching job
    exists and no files were given, exactly one request goes out: a
    retrigger of the first matching job's request id for the missing count;
    the ledger is untouched and no trigger request is sent. *)
Theorem deficit_is_retriggered
    (p : Platforms) (w : World) (buildername : string) (times : Z)
    (dry_run : bool) (extra : option MozciRequest) (tbim : bool)
    (repo_name repo_url rev : string) (st : Session) (s : StatusSummary)
    (job0 : Job) (more : list Job)
    (Hvalid : valid_revision (w (backend_calls st)) repo_url rev = true)
    (Hjobs : get_matching_jobs (w (backend_calls st)) (QUERY_SOURCE st)
               repo_name rev buildername = job0 :: more)
    (Hsummary : _status_summary (w (backend_calls st)) (QUERY_SOURCE st)
                  (PyList (job0 :: more)) = Return s)
    (Hdeficit : potential_jobs s < times) :
  trigger_range_rev p w buildername times dry_run None extra tbim
    repo_name repo_url rev st
  = (Return tt,
     mkSession (SCHEDULING_MANAGER st) (QUERY_SOURCE st)
       (backend_calls st
        ++ [MakeRetriggerRequest repo_name
              (get_buildapi_request_id (w (backend_calls st)) (QUERY_SOURCE st)
                 repo_name job0)
              (times - potential_jobs s) dry_run])%list)
  /\ (query_repo_name_from_buildername (w (backend_calls st)) buildername
        = Return repo_name ->
      repo_url = query_repo_url (w (backend_calls st)) repo_name ->
      trigger_range p w buildername [rev] times dry_run None extra tbim st
      = (Return tt,
         mkSession (SCHEDULING_MANAGER st) (QUERY_SOURCE st)
           (backend_calls st
            ++ [MakeRetriggerRequest repo_name
                  (get_buildapi_request_id (w (backend_calls st))
                     (QUERY_SOURCE st) repo_name job0)
                  (times - potential_jobs s) dry_run])%list)).
Proof.
  assert (Hround :
    trigger_range_rev p w buildername times dry_run None extra tbim
      repo_name repo_url rev st
    = (Return tt,
       mkSession (SCHEDULING_MANAGER st) (QUERY_SOURCE st)
         (backend_calls st
          ++ [MakeRetriggerRequest repo_name
                (get_buildapi_request_id (w (backend_calls st)) (QUERY_SOURCE st)
                   repo_name job0)
                (times - potential_jobs s) dry_run])%list)).
  { unfold trigger_range_rev, bind, ask, get_query_source, lift, ret.
    rewrite Hvalid. cbn [negb]. rewrite Hjobs, Hsummary.
    destruct (potential_jobs s >=? times)%Z eqn:Hge.
    - apply Z.geb_le in Hge. lia.
    - reflexivity. }
  split; [exact Hround|].
  intros Hrepo Hurl. unfold trigger_range. cbn [for_each].
  unfold bind at 1 2. unfold ask, lift. rewrite Hrepo.
  unfold bind. cbv zeta. rewrite <- Hurl, Hround. reflexivity.
Qed.

(** ** Backfill Window Finder *)

Lemma known_statuses_map (c : Collab) (src : QuerySource) (jobs : list Job) :
  statuses_known c src jobs ->
  map (get_job_status c src) jobs = map Return (job_statuses c src jobs).
Proof.
  unfold statuses_known, job_statuses.
  induction 1 as [|job jobs Hjob _ IH]; [reflexivity|].
  cbn [map omap list_omap]. 
  destruct (get_job_status c src job) as [status|e]; [|discriminate].
  cbn. now rewrite IH.
Qed.

Lemma status_summary_known (c : Collab) (src : QuerySource) (jobs : list Job) :
  statuses_known c src jobs ->
  _status_summary c src (PyList jobs) =
  Return (mkSummary
            (bucket_count B_successful (job_statuses c src jobs))
            (bucket_count B_pending (job_statuses c src jobs))
            (bucket_count B_running (job_statuses c src jobs))
            (bucket_count B_coalesced (job_statuses c src jobs))
            (bucket_count B_failed (job_statuses c src jobs))).
Proof.
  intros Hknown. cbn [_status_summary].
  now rewrite (status_loop_counts c src jobs _ summary0 (known_statuses_map c src jobs Hknown)).
Qed.

Lemma truthy_bucket_count (b : Bucket) (l : list Status) :
  truthy_int (bucket_count b l) = existsb (fun s => bool_decide (spec_bucket s = b)) l.
Proof.
  induction l as [|status l IH]; [reflexivity|].
  cbn [existsb]. rewrite <- IH. unfold truthy_int, bucket_count. cbn [List.filter].
  destruct (bool_decide (spec_bucket status = b)); [|reflexivity].
  cbn [length orb]. apply negb_true_iff, Z.eqb_neq. lia.
Qed.

Lemma positive_bucket_count (b : Bucket) (l : list Status) :
  (bucket_count b l >? 0)%Z = truthy_int (bucket_count b l).
Proof.
  unfold truthy_int, bucket_count.
  destruct (Z.of_nat _ =? 0)%Z eqn:E.
  - apply Z.eqb_eq in E. rewrite E. reflexivity.
  - apply Z.eqb_neq in E. cbn. apply Z.gtb_lt. lia.
Qed.

Lemma any_status_test (c : Collab) (src : QuerySource) (jobs : list Job) :
  let l := job_statuses c src jobs in
  negb (bool_decide (jobs = []))
  && (truthy_int (bucket_count B_successful l) || truthy_int (bucket_count B_pending l)
      || truthy_int (bucket_count B_running l) || truthy_int (bucket_count B_failed l))
  = existsb (fun status => negb (bool_decide (spec_bucket status = B_coalesced))) l.
Proof.
  cbv zeta. rewrite !truthy_bucket_count.
  destruct jobs as [|job jobs]; [reflexivity|].
  rewrite bool_decide_eq_false_2 by discriminate. cbn [negb andb].
  induction (job_statuses c src (job :: jobs)) as [|status l IH]; [reflexivity|].
  cbn [existsb]. rewrite <- IH.
  destruct status; eval_closed; cbn [orb negb];
    repeat (rewrite ?orb_true_r, ?orb_false_r, ?orb_true_l; cbn [orb]); try reflexivity.
Qed.

Lemma backfill_loop_window (c : Collab) (src : QuerySource)
    (repo_name buildername : string) (only_successful : bool) :
  forall (revisions acc : list string),
    (forall rev, rev ∈ revisions ->
       statuses_known c src (get_matching_jobs c src repo_name rev buildername)) ->
    backfill_loop c src repo_name buildername only_successful revisions acc =
    Return (acc ++ prefix_before
                     (backfill_stop c src repo_name buildername only_successful)
                     revisions)%list.
Proof.
  induction revisions as [|rev revisions IH]; intros acc Hknown.
  - cbn. now rewrite app_nil_r.
  - cbn [backfill_loop prefix_before].
    rewrite (status_summary_known c src _ (Hknown rev (list_elem_of_here _ _))).
    cbn [successful pending running failed].
    assert (Hrest : forall r, r ∈ revisions ->
              statuses_known c src (get_matching_jobs c src repo_name r buildername)).
    { intros r Hr. apply Hknown. now apply list_elem_of_further. }
    destruct only_successful; cbn [negb backfill_stop].
    + rewrite positive_bucket_count, truthy_bucket_count.
      unfold successful_stop.
      replace (existsb (fun s => bool_decide (spec_bucket s = B_successful)) _)
        with (existsb (fun status => bool_decide (status = SUCCESS))
                (job_statuses c src (get_matching_jobs c src repo_name rev buildername))).
      2:{ induction (job_statuses c src _) as [|s0 l0 IHl]; [reflexivity|].
          cbn [existsb]. rewrite IHl. destruct s0; reflexivity. }
      destruct (existsb _ _).
      * now rewrite app_nil_r.
      * rewrite (IH _ Hrest). now rewrite <- app_assoc.
    + rewrite any_status_test. unfold any_status_stop.
      destruct (existsb _ _).
      * now rewrite app_nil_r.
      * rewrite (IH _ Hrest). now rewrite <- app_assoc.
Qed.

Lemma filter_backfill_window (c : Collab) (src : QuerySource)
    (buildername repo_name : string) (revisions : list string)
    (only_successful : bool) :
  query_repo_name_from_buildername c buildername = Return repo_name ->
  revisions <> [] ->
  (forall rev, rev ∈ revisions ->
     statuses_known c src (get_matching_jobs c src repo_name rev buildername)) ->
  _filter_backfill_revlist c src buildername revisions only_successful =
  Return (prefix_before
            (backfill_stop c src repo_name buildername only_successful) revisions).
Proof.
  intros Hrepo Hne Hknown. unfold _filter_backfill_revlist. rewrite Hrepo.
  destruct revisions as [|rev revisions]; [contradiction|].
  now rewrite (backfill_loop_window c src repo_name buildername only_successful
                 (rev :: revisions) [] Hknown).
Qed.

Lemma prefix_before_prefix {A} (stop : A -> bool) (l : list A) :
  prefix_before stop l `prefix_of` l.
Proof.
  induction l as [|x l IH]; cbn; [reflexivity|].
  destruct (stop x); [apply prefix_nil | now apply prefix_cons].
Qed.

Lemma prefix_before_mono {A} (stop1 stop2 : A -> bool) (l : list A) :
  (forall x, stop2 x = true -> stop1 x = true) ->
  prefix_before stop1 l `prefix_of` prefix_before stop2 l.
Proof.
  intros Himp. induction l as [|x l IH]; cbn; [reflexivity|].
  destruct (stop1 x) eqn:H1; [apply prefix_nil|].
  destruct (stop2 x) eqn:H2.
  - apply Himp in H2. congruence.
  - now apply prefix_cons.
Qed.

Lemma successful_stop_any_status_stop (c : Collab) (src : QuerySource)
    (repo_name buildername rev : string) :
  successful_stop c src repo_name buildername rev = true ->
  any_status_stop c src repo_name buildername rev = true.
Proof.
  unfold successful_stop, any_status_stop. rewrite !existsb_exists.
  intros [status [Hin Hs]]. exists status. split; [exact Hin|].
  apply bool_decide_eq_true_1 in Hs. now subst status.
Qed.

Lemma coalesced_only_does_not_stop (c : Collab) (src : QuerySource)
    (repo_name buildername rev : string) :
  Forall (fun status => status = COALESCED)
    (job_statuses c src (get_matching_jobs c src repo_name rev buildername)) ->
  any_status_stop c src repo_name buildername rev = false.
Proof.
  unfold any_status_stop. induction 1 as [|status l -> _ IH]; [reflexivity|].
  cbn [existsb]. now rewrite IH.
Qed.

(** X28: the backfill windows of the two modes over one non-empty input whose
    jobs all have a status: each is the prefix before the first stopping
    revision, the any-status window is a prefix of the successful-only
    window, and both are prefixes of the input. *)
Lemma backfill_windows (c : Collab) (src : QuerySource)
    (buildername repo_name : string) (revisions : list string)
    (Hrepo : query_repo_name_from_buildername c buildername = Return repo_name)
    (Hne : revisions <> [])
    (Hknown : forall rev, rev ∈ revisions ->
       statuses_known c src (get_matching_jobs c src repo_name rev buildername)) :
  _filter_backfill_revlist c src buildername revisions false
    = Return (prefix_before (any_status_stop c src repo_name buildername) revisions)
  /\ _filter_backfill_revlist c src buildername revisions true
    = Return (prefix_before (successful_stop c src repo_name buildername) revisions)
  /\ prefix_before (any_status_stop c src repo_name buildername) revisions
       `prefix_of`
     prefix_before (successful_stop c src repo_name buildername) revisions
  /\ prefix_before (successful_stop c src repo_name buildername) revisions
       `prefix_of` revisions.
Proof.
  split; [|split; [|split]].
  - apply (filter_backfill_window c src buildername repo_name revisions false); assumption.
  - apply (filter_backfill_window c src buildername repo_name revisions true); assumption.
  - apply prefix_before_mono, successful_stop_any_status_stop.
  - apply prefix_before_prefix.
Qed.

(** C6 at the empty revision list: no revision stops the scan, so the
    window the claim describes is the whole (empty) input; the function
    raises instead, in either mode, because the log line ahead of the loop
    reads the first and the last revision. *)
Theorem filter_backfill_empty_input_raises (c : Collab) (src : QuerySource)
    (buildername repo_name : string) (only_successful : bool) :
  is_Return (_filter_backfill_revlist c src buildername [] only_successful)
    = false
  /\ prefix_before
       (backfill_stop c src repo_name buildername only_successful) [] = []
  /\ _filter_backfill_revlist pushlog_collab TreeherderApi linux_test [] false
     = Raise IndexError
  /\ _filter_backfill_revlist pushlog_collab TreeherderApi linux_test [] true
     = Raise IndexError.
Proof.
  split; [|repeat split].
  unfold _filter_backfill_revlist.
  destruct (query_repo_name_from_buildername c buildername); reflexivity.
Qed.

(** C9, as stated, fails: with two revisions before the third push asked
    for, the window of the claim (two before, one after) holds the fourth
    push, which has no job; [manual_backfill] schedules the two earlier
    pushes only. *)
Lemma manual_backfill_leaves_out_later_revision :
  query_revisions_range_from_revision_before_and_after pushlog_collab
    "https://hg.mozilla.org/try" "c3c3c3c3c3c3" 2 1
    = ["d4d4d4d4d4d4"; "c3c3c3c3c3c3"; "b2b2b2b2b2b2"; "a1a1a1a1a1a1"]
  /\ get_matching_jobs pushlog_collab TreeherderApi "try" "d4d4d4d4d4d4" linux_test = []
  /\ backend_calls
       (snd (manual_backfill demo_platforms (still pushlog_collab) "c3c3c3c3c3c3"
               linux_test 2 false fresh_session))
     = [TriggerArbitraryJob "try" linux_build "b2b2b2b2b2b2" None false
          (Some (manual_backfill_request linux_test));
        TriggerArbitraryJob "try" linux_build "a1a1a1a1a1a1" None false
          (Some (manual_backfill_request linux_test))].
Proof. vm_compute. repeat split; reflexivity. Qed.

(** ** Examples *)

Lemma status_summary_partition_witness :
  (exists s : StatusSummary,
      _status_summary mixed_statuses BuildApi (PyList [job1; job2; job3])
        = Return s
      /\ successful s = bucket_count B_successful [PENDING; SUCCESS; COALESCED]
      /\ pending s = bucket_count B_pending [PENDING; SUCCESS; COALESCED]
      /\ running s = bucket_count B_running [PENDING; SUCCESS; COALESCED]
      /\ coalesced s = bucket_count B_coalesced [PENDING; SUCCESS; COALESCED]
      /\ failed s = bucket_count B_failed [PENDING; SUCCESS; COALESCED]
      /\ successful s + pending s + running s + coalesced s + failed s
         = Z.of_nat (length [job1; job2; job3]))
  /\ (exists msg : string,
        _status_summary mixed_statuses BuildApi PyNone
          = Raise (AssertionError msg)).
Proof.
  apply (status_summary_partition mixed_statuses BuildApi [job1; job2; job3]
           [PENDING; SUCCESS; COALESCED] PyNone).
  - reflexivity.
  - reflexivity.
Defined.

Lemma enough_jobs_witness :
  trigger_range_rev demo_platforms (still three_potential_jobs) linux_test 3
    false None None true "try" "https://hg.mozilla.org/try" rev1 fresh_session
  = (Return tt, fresh_session)
  /\ trigger_range demo_platforms (still three_potential_jobs) linux_test
       [rev1] 3 false None None true fresh_session
     = (Return tt, fresh_session).
Proof.
  destruct (enough_jobs_no_backend_call demo_platforms
              (still three_potential_jobs) linux_test 3 false None None true
              "try" "https://hg.mozilla.org/try" rev1 fresh_session
              (mkSummary 2 1 0 0 0)) as [Hround Hrange].
  - reflexivity.
  - vm_compute. discriminate.
  - split; [exact Hround | apply Hrange; reflexivity].
Defined.

Lemma deficit_is_retriggered_witness :
  trigger_range_rev demo_platforms (still three_potential_jobs) linux_test 5
    false None None true "try" "https://hg.mozilla.org/try" rev1 fresh_session
  = (Return tt,
     mkSession ∅ BuildApi [MakeRetriggerRequest "try" 1 2 false])
  /\ trigger_range demo_platforms (still three_potential_jobs) linux_test
       [rev1] 5 false None None true fresh_session
     = (Return tt,
        mkSession ∅ BuildApi [MakeRetriggerRequest "try" 1 2 false]).
Proof.
  destruct (deficit_is_retriggered demo_platforms (still three_potential_jobs)
              linux_test 5 false None true "try" "https://hg.mozilla.org/try"
              rev1 fresh_session (mkSummary 2 1 0 0 0) job1 [job2; job3])
    as [Hround Hrange].
  - reflexivity.
  - reflexivity.
  - reflexivity.
  - reflexivity.
  - split; [exact Hround | apply Hrange; reflexivity].
Defined.

(** A dry run that resolves to the build builder records it: the real
    request that follows for another test builder of that build sends
    nothing. *)
Example dry_run_marks_build_builder :
  backend_calls (run_session demo_platforms dry_run_then_real_session
                   fresh_session)
    = [TriggerArbitraryJob "try" linux_build rev1 None true None]
  /\ SCHEDULING_MANAGER (run_session demo_platforms dry_run_then_real_session
                           fresh_session) !! rev1
     = Some [linux_build].
Proof. vm_compute. split; reflexivity. Qed.

(** The example of the specification: the first request for a test builder
    on a revision without build job resolves to the build builder, without
    files; once that build is triggered, the request for another test
    builder of the same build resolves to nothing. *)
Example second_test_builder_is_blocked :
  _determine_trigger_objective demo_platforms empty_collab ∅ rev1 linux_test
    true = Return (Some linux_build, None)
  /\ _determine_trigger_objective demo_platforms empty_collab
       (record_builder ∅ rev1 linux_build) rev1 linux_talos true
     = Return (None, None).
Proof. vm_compute. split; reflexivity. Qed.

(** The example of the specification for the backfill window: a pending job
    on the third revision ends the any-status window before it, a coalesced
    job there does not, and the successful-only window passes the pending
    job too. *)
Example backfill_example :
  _filter_backfill_revlist (job_on_third PENDING) BuildApi linux_test
    five_revisions false = Return ["r5"; "r4"]
  /\ _filter_backfill_revlist (job_on_third COALESCED) BuildApi linux_test
       five_revisions false = Return five_revisions
  /\ _filter_backfill_revlist (job_on_third PENDING) BuildApi linux_test
       five_revisions true = Return five_revisions
  /\ _filter_backfill_revlist (job_on_third SUCCESS) BuildApi linux_test
       five_revisions true = Return ["r5"; "r4"].
Proof. vm_compute. repeat split; reflexivity. Qed.

(** ** More on the status summary *)

Lemma status_loop_known (c : Collab) (src : QuerySource) :
  forall (jobs : list Job) (s s' : StatusSummary),
    status_loop c src jobs s = Return s' -> statuses_known c src jobs.
Proof.
  induction jobs as [|job jobs IH]; intros s s' Hloop.
  - constructor.
  - cbn [status_loop] in Hloop.
    destruct (get_job_status c src job) as [status|e] eqn:Hjob; [|discriminate].
    constructor; [now rewrite Hjob | eapply IH, Hloop].
Qed.

Lemma status_loop_first_error (c : Collab) (src : QuerySource) :
  forall (before : list Job) (job : Job) (after : list Job) (e : exn)
         (s : StatusSummary),
    statuses_known c src before ->
    get_job_status c src job = Raise e ->
    status_loop c src (before ++ job :: after) s = Raise e.
Proof.
  induction before as [|j before IH]; intros job after e s Hknown Hjob.
  - cbn. now rewrite Hjob.
  - inversion Hknown as [|? ? Hj Hrest]; subst. cbn [app status_loop].
    destruct (get_job_status c src j); [|discriminate Hj].
    now apply IH.
Qed.

Lemma bucket_count_nonneg (b : Bucket) (l : list Status) : 0 <= bucket_count b l.
Proof. unfold bucket_count. lia. Qed.

Lemma bucket_count_app (b : Bucket) (l1 l2 : list Status) :
  bucket_count b (l1 ++ l2) = bucket_count b l1 + bucket_count b l2.
Proof. unfold bucket_count. rewrite List.filter_app, length_app. lia. Qed.

Lemma job_statuses_length (c : Collab) (src : QuerySource) (jobs : list Job) :
  statuses_known c src jobs -> length (job_statuses c src jobs) = length jobs.
Proof.
  intros Hknown.
  rewrite <- (length_map Return (job_statuses c src jobs)),
          <- (known_statuses_map c src jobs Hknown).
  apply length_map.
Qed.

Lemma job_statuses_app (c : Collab) (src : QuerySource) (l1 l2 : list Job) :
  job_statuses c src (l1 ++ l2) = (job_statuses c src l1 ++ job_statuses c src l2)%list.
Proof. unfold job_statuses. apply omap_app. Qed.

(** ** Repository names and artifact files *)

Lemma prefix_spec (s1 s2 : string) :
  String.prefix s1 s2 = true <-> exists rest, s2 = s1 ++ rest.
Proof.
  revert s2. induction s1 as [|a s1 IH]; intros s2.
  - split; [intros _; now exists s2 | destruct s2; reflexivity].
  - destruct s2 as [|b s2]; cbn.
    + split; [discriminate | intros [rest H]; discriminate H].
    + destruct (Ascii.ascii_dec a b) as [->|Hne].
      * rewrite IH. split; intros [rest H]; exists rest.
        -- now rewrite H.
        -- change (String b s2 = String b (s1 ++ rest)) in H. now injection H.
      * split; [discriminate | intros [rest H]].
        change (String b s2 = String a (s1 ++ rest)) in H. congruence.
Qed.

Lemma str_in_spec (needle haystack : string) :
  str_in needle haystack = true <->
  exists before after, haystack = before ++ needle ++ after.
Proof.
  induction haystack as [|a haystack IH]; cbn [str_in].
  - rewrite orb_false_r, prefix_spec. split.
    + intros [rest H]. exists "", rest. exact H.
    + intros [before [after H]]. destruct before; [now exists after|discriminate].
  - rewrite orb_true_iff, prefix_spec, IH. split.
    + intros [[rest H]|[before [after H]]].
      * exists "", rest. exact H.
      * exists (String a before), after. now rewrite H.
    + intros [before [after H]]. destruct before as [|b before].
      * left. now exists after.
      * right. change (String a haystack = String b (before ++ needle ++ after)) in H.
        injection H as -> H. now exists before, after.
Qed.

Lemma find_split {A} (f : A -> bool) (l : list A) (x : A) :
  List.find f l = Some x ->
  exists before after,
    l = (before ++ x :: after)%list /\ f x = true
    /\ Forall (fun y => f y = false) before.
Proof.
  induction l as [|y l IH]; cbn; [discriminate|].
  destruct (f y) eqn:Hy.
  - intros [= ->]. exists [], l. repeat split; [exact Hy | constructor].
  - intros H. destruct (IH H) as [before [after [-> [Hx Hbefore]]]].
    exists (y :: before), after. repeat split; [exact Hx | now constructor].
Qed.

Lemma find_none_existsb {A} (f : A -> bool) (l : list A) :
  existsb f l = match List.find f l with Some _ => true | None => false end.
Proof.
  induction l as [|y l IH]; cbn; [reflexivity|].
  destruct (f y); [reflexivity | exact IH].
Qed.

(** X4: the repository name [query_repo_name_from_buildername] returns is the
    first name of the cached repository list that occurs in the builder name
    between two spaces, two underscores or two hyphens. *)
Theorem repo_name_is_first_framed_repository
    (c : Collab) (buildername repo_name : string)
    (Hrepo : query_repo_name_from_buildername c buildername = Return repo_name) :
  exists earlier later,
    query_repositories c false = (earlier ++ repo_name :: later)%list
    /\ Forall (fun r => repo_name_in_buildername r buildername = false) earlier
    /\ exists sep before after,
         sep ∈ [" "; "_"; "-"]
         /\ buildername = before ++ (sep ++ repo_name ++ sep) ++ after.
Proof.
  unfold query_repo_name_from_buildername in Hrepo.
  destruct (List.find _ (query_repositories c false)) as [r|] eqn:Hfind.
  - injection Hrepo as ->.
    apply find_split in Hfind as [earlier [later [Hlist [Hin Hearlier]]]].
    exists earlier, later. repeat split; [exact Hlist | exact Hearlier |].
    unfold repo_name_in_buildername in Hin. apply existsb_exists in Hin.
    destruct Hin as [sep [Hsep Hin]]. apply str_in_spec in Hin.
    destruct Hin as [before [after Hb]].
    exists sep, before, after. split; [|exact Hb].
    now apply list_elem_of_In.
  - destruct (query_repo_name_clobbered c buildername); discriminate.
Qed.

Lemma repo_name_witness :
  exists earlier later,
    query_repositories empty_collab false = (earlier ++ "try" :: later)%list
    /\ Forall (fun r => repo_name_in_buildername r linux_test = false) earlier
    /\ exists sep before after,
         sep ∈ [" "; "_"; "-"]
         /\ linux_test = before ++ (sep ++ "try" ++ sep) ++ after.
Proof.
  apply (repo_name_is_first_framed_repository empty_collab linux_test "try").
  reflexivity.
Defined.

(** X5: whether [query_repo_name_from_buildername] returns is decided by the
    cached repository list alone: when no cached name matches it raises,
    whatever the refreshed list it asks for holds. *)
Theorem repo_lookup_ignores_refreshed_list (c : Collab) (buildername : string) :
  is_Return (query_repo_name_from_buildername c buildername)
  = existsb (fun r => repo_name_in_buildername r buildername)
            (query_repositories c false)
  /\ (is_Return (query_repo_name_from_buildername c buildername) = false ->
      query_repo_name_from_buildername c buildername = Raise repo_not_found).
Proof.
  rewrite find_none_existsb. unfold query_repo_name_from_buildername.
  destruct (List.find _ (query_repositories c false)).
  - split; [reflexivity | discriminate].
  - unfold query_repo_name_clobbered.
    destruct (List.find _ (query_repositories c true)); split; reflexivity.
Qed.

(** X6: [_find_files] returns exactly when buildjson has a status record for
    the job whose properties are a non-empty dictionary with a
    ["buildername"] entry; without a record it fails its assertion, without
    properties (or with empty ones) it raises [Exception], and without the
    ["buildername"] entry the log line raises [KeyError]. *)
Theorem find_files_returns_iff (c : Collab) (job : Job) :
  (is_Return (_find_files c job) = true
   <-> exists props,
         _status_info c job = Some (mkJobData (Some props))
         /\ props <> ∅ /\ is_Some (props !! "buildername"))
  /\ (_status_info c job = None ->
      exists msg, _find_files c job = Raise (AssertionError msg))
  /\ (forall data, _status_info c job = Some data ->
      properties data = None \/ properties data = Some ∅ ->
      _find_files c job = Raise no_properties)
  /\ (forall props, _status_info c job = Some (mkJobData (Some props)) ->
      props <> ∅ -> props !! "buildername" = None ->
      _find_files c job = Raise (KeyError "buildername")).
Proof.
  unfold _find_files. repeat split.
  - destruct (_status_info c job) as [[[props|]]|]; try discriminate.
    cbn [properties]. case_bool_decide as Hempty; [discriminate|].
    destruct (props !! "buildername") eqn:Hb; [|discriminate].
    intros _. exists props. repeat split; [exact Hempty | now rewrite Hb].
  - intros [props [-> [Hne [b Hb]]]]. cbn.
    rewrite bool_decide_eq_false_2 by exact Hne. now rewrite Hb.
  - intros ->. eexists. reflexivity.
  - intros data -> [Hp|Hp]; rewrite Hp; [reflexivity|].
    now rewrite bool_decide_eq_true_2.
  - intros props -> Hne Hb. cbn.
    rewrite bool_decide_eq_false_2 by exact Hne. now rewrite Hb.
Qed.

(** X7: the files [_find_files] returns are at most two, the package first;
    the test archive is the one of ["testPackagesUrl"] whenever that entry
    exists, and the list is empty exactly when the properties have none of
    the three URL entries. *)
Theorem find_files_shape
    (c : Collab) (job : Job) (props : gmap string string) (files : list string)
    (Hdata : _status_info c job = Some (mkJobData (Some props)))
    (Hfiles : _find_files c job = Return files) :
  (length files <= 2)%nat
  /\ (forall url, props !! "packageUrl" = Some url -> head files = Some url)
  /\ (forall url, props !! "testPackagesUrl" = Some url -> last files = Some url)
  /\ (forall url, url ∈ files ->
        props !! "packageUrl" = Some url
        \/ props !! "testPackagesUrl" = Some url
        \/ (props !! "testPackagesUrl" = None /\ props !! "testsUrl" = Some url))
  /\ (files = [] <->
      props !! "packageUrl" = None /\ props !! "testPackagesUrl" = None
      /\ props !! "testsUrl" = None).
Proof.
  unfold _find_files in Hfiles. rewrite Hdata in Hfiles. cbn in Hfiles.
  destruct (bool_decide (props = ∅)); [discriminate|].
  destruct (props !! "buildername"); [|discriminate].
  injection Hfiles as <-.
  destruct (props !! "packageUrl") as [p|], (props !! "testPackagesUrl") as [t|],
           (props !! "testsUrl") as [u|]; cbn;
    (split; [lia|]);
    (split; [intros url [= <-] || intros url [=]; reflexivity|]);
    (split; [intros url [= <-] || intros url [=]; reflexivity|]);
    (split; [intros url Hin; cbn in Hin;
             rewrite ?elem_of_cons, ?elem_of_nil in Hin;
             intuition (subst; auto)|]);
    (split; [try discriminate; tauto | intros [? [? ?]]; congruence]).
Qed.
(** ** The scan and the resolution in closed form *)

Lemma scan_ok_kind (c : Collab) (job : Job) :
  scan_ok c job = true <-> forall e, job_kind c job <> Broken e.
Proof.
  unfold scan_ok, job_kind.
  destruct (get_job_status c BuildApi job) as [status|e].
  - destruct (in_flight status); cbn; [split; [discriminate|reflexivity]|].
    destruct (_find_files c job) as [files|e]; cbn.
    + split; [|reflexivity]. intros _ e.
      destruct (negb _ && _); discriminate.
    + split; [discriminate|]. intros H. now destruct (H e).
  - destruct e; cbn; split; try discriminate; try reflexivity;
      intros H; exfalso; eapply H; reflexivity.
Qed.

Lemma last_filter_cons {A} (f : A -> bool) (x : A) (l : list A) (d : option A) :
  or_else (last (List.filter f (x :: l))) d
  = or_else (last (List.filter f l)) (if f x then Some x else d).
Proof.
  cbn [List.filter]. destruct (f x); [|reflexivity].
  rewrite last_cons. now destruct (last (List.filter f l)).
Qed.

(** One round of the scan, by the kind of the job. *)
Lemma scan_step (c : Collab) (job : Job) (rest : list Job) (st : Scan) :
  scan_build_jobs c (job :: rest) st =
  match job_kind c job with
  | Skipped => scan_build_jobs c rest st
  | InFlight =>
      scan_build_jobs c rest
        (mkScan (scan_files st) (working_job st) (Some job) (failed_job st))
  | Working files =>
      Return (mkScan (Some files) (Some job) (running_job st) (failed_job st))
  | Unusable =>
      scan_build_jobs c rest
        (mkScan None (working_job st) (running_job st) (Some job))
  | Broken e => Raise e
  end.
Proof.
  cbn [scan_build_jobs]. unfold job_kind.
  destruct (get_job_status c BuildApi job) as [status|e].
  - destruct (in_flight status); [reflexivity|].
    destruct (_find_files c job) as [files|e]; [|reflexivity].
    now destruct (negb (bool_decide (files = [])) && _all_urls_reachable c files).
  - now destruct e.
Qed.

(** The scan from any state of the local variables. *)
Lemma scan_build_jobs_closed_form (c : Collab) :
  forall (jobs : list Job) (st : Scan),
    Forall (fun job => scan_ok c job = true) jobs ->
    scan_build_jobs c jobs st =
    Return
      (mkScan
         (match List.find (is_working c) jobs with
          | Some job => working_files c job
          | None => if existsb (is_unusable c) jobs then None else scan_files st
          end)
         (or_else (List.find (is_working c) jobs) (working_job st))
         (or_else (last (List.filter (is_in_flight c)
                           (prefix_before (is_working c) jobs)))
                  (running_job st))
         (or_else (last (List.filter (is_unusable c)
                           (prefix_before (is_working c) jobs)))
                  (failed_job st))).
Proof.
  induction jobs as [|job jobs IH]; intros st Hok.
  - now destruct st.
  - inversion Hok as [|? ? Hjob Hrest]; subst.
    pose proof (proj1 (scan_ok_kind c job) Hjob) as Hkind.
    rewrite scan_step. cbn [List.find prefix_before existsb].
    assert (Hw : is_working c job
                 = match job_kind c job with Working _ => true | _ => false end)
      by reflexivity.
    assert (Hf : is_in_flight c job
                 = match job_kind c job with InFlight => true | _ => false end)
      by reflexivity.
    assert (Hu : is_unusable c job
                 = match job_kind c job with Unusable => true | _ => false end)
      by reflexivity.
    assert (Hfiles : working_files c job
                 = match job_kind c job with Working fs => Some fs | _ => None end)
      by reflexivity.
    destruct (job_kind c job) as [| |files| |e];
      try (now destruct (Hkind e));
      rewrite Hw, ?Hfiles; try rewrite !last_filter_cons, Hf, Hu, (IH _ Hrest);
      cbn; try reflexivity.
    destruct (List.find (is_working c) jobs); [reflexivity|].
    now destruct (existsb (is_unusable c) jobs).
Qed.

(** X8: on a build-job list that raises nothing, the scan stops at the first
    working job and hands out its files; the in-flight and the failed
    candidate are the last in-flight and the last unusable job among the
    jobs before that one (among all jobs, when none is working). *)
Theorem scan_stops_at_first_working_job
    (c : Collab) (jobs : list Job)
    (Hok : Forall (fun job => scan_ok c job = true) jobs) :
  scan_build_jobs c jobs scan0 = Return (scan_summary c jobs).
Proof.
  rewrite (scan_build_jobs_closed_form c jobs scan0 Hok). unfold scan_summary.
  cbn [scan_files working_job running_job failed_job scan0].
  do 2 f_equal.
  - destruct (List.find (is_working c) jobs); [reflexivity|].
    now destruct (existsb (is_unusable c) jobs).
  - now destruct (List.find (is_working c) jobs).
  - now destruct (last _).
  - now destruct (last _).
Qed.
Lemma prefix_before_none {A} (f : A -> bool) (l : list A) :
  List.find f l = None -> prefix_before f l = l.
Proof.
  induction l as [|x l IH]; cbn; [reflexivity|].
  destruct (f x); [discriminate|]. intros H. now rewrite IH.
Qed.

Lemma last_filter_is_Some {A} (f : A -> bool) (l : list A) :
  existsb f l = true -> is_Some (last (List.filter f l)).
Proof.
  induction l as [|x l IH]; cbn; [discriminate|].
  destruct (f x); cbn.
  - intros _. rewrite last_cons. destruct (last (List.filter f l)); eauto.
  - exact IH.
Qed.

Lemma find_none_forall {A} (f : A -> bool) (l : list A) :
  Forall (fun x => f x = false) l -> List.find f l = None.
Proof.
  induction 1 as [|x l Hx _ IH]; cbn; [reflexivity|]. now rewrite Hx.
Qed.

(** The resolution once the jobs are scanned, for a test builder. *)
Lemma resolution_after_scan (p : Platforms) (c : Collab)
    (sch_mgr : gmap string (list string)) (revision buildername repo_name : string)
    (tbim : bool) :
  query_repo_name_from_buildername c buildername = Return repo_name ->
  valid_builder c (determine_upstream_builder p buildername) = true ->
  determine_upstream_builder p buildername <> buildername ->
  _determine_trigger_objective p c sch_mgr revision buildername tbim =
  match scan_build_jobs c
          (get_matching_jobs c BuildApi repo_name revision
             (determine_upstream_builder p buildername)) scan0 with
  | Raise e => Raise e
  | Return st =>
      Return
        (match working_job st, running_job st, failed_job st with
         | Some _, _, _ => Some buildername
         | None, Some _, _ => None
         | None, None, Some _ => None
         | None, None, None =>
             if negb tbim
                || negb (_unique_build_request p sch_mgr
                           (determine_upstream_builder p buildername) revision)
             then None
             else Some (determine_upstream_builder p buildername)
         end,
         scan_files st)
  end.
Proof.
  intros Hrepo Hvalid Hne. unfold _determine_trigger_objective.
  rewrite Hrepo, Hvalid. cbn [negb].
  now rewrite bool_decide_eq_false_2.
Qed.

(** X9: while the revision has no working build but a build job in flight,
    or a finished one without usable files, the resolution of a test
    builder is "nothing to trigger", whatever the ledger holds and whether
    or not a missing build may be triggered. *)
Theorem no_build_while_one_is_in_flight_or_failed
    (p : Platforms) (c : Collab) (sch_mgr : gmap string (list string))
    (revision buildername repo_name : string) (tbim : bool)
    (Hrepo : query_repo_name_from_buildername c buildername = Return repo_name)
    (Hvalid : valid_builder c (determine_upstream_builder p buildername) = true)
    (Htest : determine_upstream_builder p buildername <> buildername)
    (Hok : Forall (fun job => scan_ok c job = true)
             (get_matching_jobs c BuildApi repo_name revision
                (determine_upstream_builder p buildername)))
    (Hnone : Forall (fun job => is_working c job = false)
               (get_matching_jobs c BuildApi repo_name revision
                  (determine_upstream_builder p buildername)))
    (Hsome : existsb (fun job => is_in_flight c job || is_unusable c job)
               (get_matching_jobs c BuildApi repo_name revision
                  (determine_upstream_builder p buildername)) = true) :
  _determine_trigger_objective p c sch_mgr revision buildername tbim
  = Return (None, None).
Proof.
  rewrite (resolution_after_scan p c sch_mgr revision buildername repo_name tbim
             Hrepo Hvalid Htest).
  rewrite (scan_build_jobs_closed_form c _ scan0 Hok).
  pose proof (find_none_forall _ _ Hnone) as Hfind.
  rewrite Hfind, (prefix_before_none _ _ Hfind).
  cbn [working_job running_job failed_job scan_files scan0 or_else].
  set (jobs := get_matching_jobs c BuildApi repo_name revision _) in *.
  assert (Hcases : existsb (is_in_flight c) jobs = true
                   \/ existsb (is_unusable c) jobs = true).
  { clearbody jobs. clear -Hsome. induction jobs as [|j jobs IH]; [discriminate|].
    cbn in Hsome |- *.
    destruct (is_in_flight c j); [now left|].
    destruct (is_unusable c j); [now right|].
    cbn in Hsome. destruct (IH Hsome) as [H|H]; rewrite H; auto using orb_true_r. }
  destruct Hcases as [Hf|Hu].
  - destruct (last_filter_is_Some _ _ Hf) as [j ->]. cbn.
    now destruct (existsb (is_unusable c) jobs).
  - rewrite Hu. destruct (last_filter_is_Some _ _ Hu) as [j ->]. cbn.
    now destruct (last (List.filter (is_in_flight c) jobs)).
Qed.

Lemma no_build_while_pending_witness :
  _determine_trigger_objective demo_platforms pending_build ∅ rev1 linux_test
    true = Return (None, None).
Proof.
  apply (no_build_while_one_is_in_flight_or_failed demo_platforms pending_build
           ∅ rev1 linux_test "try" true).
  - reflexivity.
  - reflexivity.
  - vm_compute. discriminate.
  - repeat constructor.
  - repeat constructor.
  - reflexivity.
Defined.

(** X10: when the build builder has no job on the revision, or only jobs
    whose status fetch hit the data-retrieval error, the resolution of a
    test builder is the build builder, without files, exactly when a
    missing build may be triggered and the ledger does not list the build
    builder for the revision; otherwise it is nothing. *)
Theorem missing_build_is_triggered_once
    (p : Platforms) (c : Collab) (sch_mgr : gmap string (list string))
    (revision buildername repo_name : string) (tbim : bool)
    (Hrepo : query_repo_name_from_buildername c buildername = Return repo_name)
    (Hvalid : valid_builder c (determine_upstream_builder p buildername) = true)
    (Htest : determine_upstream_builder p buildername <> buildername)
    (Hskipped : Forall (fun job => job_kind c job = Skipped)
                  (get_matching_jobs c BuildApi repo_name revision
                     (determine_upstream_builder p buildername))) :
  _determine_trigger_objective p c sch_mgr revision buildername tbim
  = Return
      (if tbim
          && _unique_build_request p sch_mgr
               (determine_upstream_builder p buildername) revision
       then Some (determine_upstream_builder p buildername)
       else None,
       None).
Proof.
  rewrite (resolution_after_scan p c sch_mgr revision buildername repo_name tbim
             Hrepo Hvalid Htest).
  set (jobs := get_matching_jobs c BuildApi repo_name revision _) in *.
  assert (Hscan : scan_build_jobs c jobs scan0 = Return scan0).
  { clearbody jobs. induction Hskipped as [|j jobs Hj _ IH]; [reflexivity|].
    now rewrite scan_step, Hj. }
  rewrite Hscan. cbn [working_job running_job failed_job scan_files scan0].
  now destruct tbim, (_unique_build_request p sch_mgr _ revision).
Qed.

Lemma missing_build_witness :
  _determine_trigger_objective demo_platforms empty_collab ∅ rev1 linux_test true
  = Return
      (if true && _unique_build_request demo_platforms ∅
                    (determine_upstream_builder demo_platforms linux_test) rev1
       then Some (determine_upstream_builder demo_platforms linux_test)
       else None,
       None).
Proof.
  apply (missing_build_is_triggered_once demo_platforms empty_collab ∅ rev1
           linux_test "try" true).
  - reflexivity.
  - reflexivity.
  - vm_compute. discriminate.
  - constructor.
Defined.

(** What the scan leaves behind when it starts without a working job. *)
Lemma scan_files_come_from_a_job (c : Collab) :
  forall (jobs : list Job) (st st' : Scan),
    working_job st = None -> scan_files st = None ->
    scan_build_jobs c jobs st = Return st' ->
    (working_job st' = None /\ scan_files st' = None)
    \/ exists job files,
         job ∈ jobs /\ working_job st' = Some job /\ scan_files st' = Some files
         /\ job_kind c job = Working files.
Proof.
  induction jobs as [|job jobs IH]; intros st st' Hw Hf Hscan.
  - injection Hscan as <-. now left.
  - rewrite scan_step in Hscan.
    assert (Hlater : forall st0, working_job st0 = None -> scan_files st0 = None ->
              scan_build_jobs c jobs st0 = Return st' ->
              (working_job st' = None /\ scan_files st' = None)
              \/ exists j files,
                   j ∈ job :: jobs /\ working_job st' = Some j
                   /\ scan_files st' = Some files /\ job_kind c j = Working files).
    { intros st0 H1 H2 H3. destruct (IH st0 st' H1 H2 H3) as [H|[j [fs [Hin H]]]];
        [now left|]. right. exists j, fs. split; [now apply list_elem_of_further|exact H]. }
    destruct (job_kind c job) as [| |files| |e] eqn:Hk.
    + now apply (Hlater st).
    + now apply (Hlater (mkScan (scan_files st) (working_job st) (Some job) (failed_job st))).
    + injection Hscan as <-. right. exists job, files.
      split; [apply list_elem_of_here|]. now repeat split.
    + now apply (Hlater (mkScan None (working_job st) (running_job st) (Some job))).
    + discriminate.
Qed.

Lemma working_kind_spec (c : Collab) (job : Job) (files : list string) :
  job_kind c job = Working files ->
  _find_files c job = Return files /\ files <> []
  /\ _all_urls_reachable c files = true
  /\ exists status, get_job_status c BuildApi job = Return status
                    /\ in_flight status = false.
Proof.
  unfold job_kind.
  destruct (get_job_status c BuildApi job) as [status|e]; [|destruct e; discriminate].
  destruct (in_flight status) eqn:Hf; [discriminate|].
  destruct (_find_files c job) as [fs|e]; [|discriminate].
  destruct (negb (bool_decide (fs = [])) && _all_urls_reachable c fs) eqn:Hc;
    [|discriminate].
  intros [= <-]. apply andb_true_iff in Hc as [Hne Hr].
  apply negb_true_iff, bool_decide_eq_false_1 in Hne.
  repeat split; try assumption. now exists status.
Qed.

(** X11: whatever the resolution returns, it names the requested builder, its
    upstream build builder, or nothing; files come only with the requested
    builder, and then they are the non-empty, fully reachable files that
    [_find_files] gives for one finished build job of the revision. *)
Theorem resolution_hands_out_reachable_build_files
    (p : Platforms) (c : Collab) (sch_mgr : gmap string (list string))
    (revision buildername repo_name : string) (tbim : bool)
    (builder : option string) (files : option (list string))
    (Hrepo : query_repo_name_from_buildername c buildername = Return repo_name)
    (Hres : _determine_trigger_objective p c sch_mgr revision buildername tbim
            = Return (builder, files)) :
  (builder = None \/ builder = Some buildername
   \/ builder = Some (determine_upstream_builder p buildername))
  /\ (forall fs, files = Some fs ->
        builder = Some buildername
        /\ fs <> [] /\ _all_urls_reachable c fs = true
        /\ exists job status,
             job ∈ get_matching_jobs c BuildApi repo_name revision
                     (determine_upstream_builder p buildername)
             /\ get_job_status c BuildApi job = Return status
             /\ in_flight status = false
             /\ _find_files c job = Return fs).
Proof.
  unfold _determine_trigger_objective in Hres. rewrite Hrepo in Hres.
  destruct (negb (valid_builder c _)); [discriminate|].
  case_bool_decide as Hself.
  - injection Hres as <- <-. split; [now right; right|]. discriminate.
  - destruct (scan_build_jobs c _ scan0) as [st|e] eqn:Hscan; [|discriminate].
    injection Hres as <- <-.
    destruct (scan_files_come_from_a_job c _ scan0 st eq_refl eq_refl Hscan)
      as [[Hw Hf]|[job [fs [Hin [Hw [Hf Hk]]]]]].
    + rewrite Hw, Hf. split; [|discriminate].
      destruct (running_job st), (failed_job st); auto.
      destruct (_ || _); auto.
    + rewrite Hw, Hf. split; [now right; left|].
      intros fs' [= <-].
      destruct (working_kind_spec c job fs Hk) as [Hfind [Hne [Hr [status [Hs Hflight]]]]].
      repeat split; try assumption. now exists job, status.
Qed.

Lemma resolution_files_witness :
  (Some linux_test = None \/ Some linux_test = Some linux_test
   \/ Some linux_test = Some (determine_upstream_builder demo_platforms linux_test))
  /\ (forall fs,
        Some archive_files = Some fs ->
        Some linux_test = Some linux_test
        /\ fs <> [] /\ _all_urls_reachable both_test_archives fs = true
        /\ exists job status,
             job ∈ get_matching_jobs both_test_archives BuildApi "try" rev1
                     (determine_upstream_builder demo_platforms linux_test)
             /\ get_job_status both_test_archives BuildApi job = Return status
             /\ in_flight status = false
             /\ _find_files both_test_archives job = Return fs).
Proof.
  apply (resolution_hands_out_reachable_build_files demo_platforms
           both_test_archives ∅ rev1 linux_test "try" true).
  - reflexivity.
  - vm_compute. reflexivity.
Defined.

Lemma find_files_shape_witness :
  (length archive_files <= 2)%nat
  /\ (forall url, archive_props !! "packageUrl" = Some url ->
        head archive_files = Some url)
  /\ (forall url, archive_props !! "testPackagesUrl" = Some url ->
        last archive_files = Some url)
  /\ (forall url, url ∈ archive_files ->
        archive_props !! "packageUrl" = Some url
        \/ archive_props !! "testPackagesUrl" = Some url
        \/ (archive_props !! "testPackagesUrl" = None
            /\ archive_props !! "testsUrl" = Some url))
  /\ (archive_files = [] <->
      archive_props !! "packageUrl" = None
      /\ archive_props !! "testPackagesUrl" = None
      /\ archive_props !! "testsUrl" = None).
Proof.
  apply (find_files_shape both_test_archives job1).
  - reflexivity.
  - vm_compute. reflexivity.
Defined.

Lemma scan_stops_at_first_working_job_witness :
  scan_build_jobs in_flight_then_working [job1; job2] scan0
  = Return (scan_summary in_flight_then_working [job1; job2]).
Proof.
  apply (scan_stops_at_first_working_job in_flight_then_working [job1; job2]).
  repeat constructor.
Defined.

(** ** What the entry points do to the session *)

Lemma resolved_builder_range (p : Platforms) (c : Collab)
    (sch_mgr : gmap string (list string)) (revision buildername : string)
    (tbim : bool) (b : string) (files : option (list string)) :
  _determine_trigger_objective p c sch_mgr revision buildername tbim
    = Return (Some b, files) ->
  b = buildername \/ b = determine_upstream_builder p buildername.
Proof.
  unfold _determine_trigger_objective.
  destruct (query_repo_name_from_buildername c buildername); [|discriminate].
  destruct (negb (valid_builder c _)); [discriminate|].
  case_bool_decide as Heq.
  - intros [= <- _]. now right.
  - destruct (scan_build_jobs c _ scan0) as [sc|e]; [|discriminate].
    destruct (working_job sc), (running_job sc), (failed_job sc);
      try (intros [= <- _]; now left); try discriminate.
    destruct (negb tbim || _); [discriminate|].
    intros [= <- _]. now right.
Qed.

Lemma summary_counts_nonneg (c : Collab) (src : QuerySource) (jobs : list Job)
    (s : StatusSummary) :
  _status_summary c src (PyList jobs) = Return s ->
  0 <= successful s /\ 0 <= pending s /\ 0 <= running s /\ 0 <= coalesced s
  /\ 0 <= failed s.
Proof.
  intros Hsummary.
  assert (Hknown : statuses_known c src jobs)
    by (eapply status_loop_known, Hsummary).
  rewrite (status_summary_known c src jobs Hknown) in Hsummary.
  injection Hsummary as <-. cbn. repeat split; apply bucket_count_nonneg.
Qed.

Section Closure.

Variable R : Session -> Session -> Prop.
Hypothesis R_refl : forall st, R st st.
Hypothesis R_trans : forall st1 st2 st3, R st1 st2 -> R st2 st3 -> R st1 st3.

(** Which trigger and retrigger requests [R] puts up with: builder,
    revision, [dry_run] and [extra_properties] of a trigger; repository,
    count and [dry_run] of a retrigger. *)
Variable OkTrigger : string -> string -> bool -> option MozciRequest -> Prop.
Variable OkRetrigger : string -> Z -> bool -> Prop.

Hypothesis R_trigger :
  forall w builder revision files dry_run extra st,
    OkTrigger builder revision dry_run extra ->
    R st (snd (trigger w builder revision files dry_run extra st)).

Hypothesis R_retrigger :
  forall w repo_name req_id count dry_run st,
    OkRetrigger repo_name count dry_run ->
    R st (snd (send w (MakeRetriggerRequest repo_name req_id count dry_run) st)).

Lemma keeps_bind {A B} (m : M A) (k : A -> M B) :
  keeps R m -> (forall a, keeps R (k a)) -> keeps R (bind m k).
Proof.
  intros Hm Hk st. unfold bind. specialize (Hm st).
  destruct (m st) as [[a|e] st1]; cbn in *.
  - eapply R_trans; [exact Hm | apply Hk].
  - exact Hm.
Qed.

Lemma keeps_trigger_times w n builder revision files dry_run extra acc :
  OkTrigger builder revision dry_run extra ->
  keeps R (trigger_times w n builder revision files dry_run extra acc).
Proof.
  intros Hok. revert acc. induction n as [|n IH]; intros acc; cbn [trigger_times].
  - intros st. apply R_refl.
  - apply keeps_bind; [|intros req; apply IH].
    intros st. now apply R_trigger.
Qed.

Lemma keeps_trigger_job p w revision buildername times files dry_run extra tbim :
  OkTrigger buildername revision dry_run extra ->
  OkTrigger (determine_upstream_builder p buildername) revision dry_run extra ->
  keeps R (trigger_job p w revision buildername times files dry_run extra tbim).
Proof.
  intros Hsame Hup st.
  assert (Hend : forall ob fs n,
    (forall b, ob = Some b ->
       b = buildername \/ b = determine_upstream_builder p buildername) ->
    R st (snd (match ob with
               | Some builder =>
                   if truthy_builder ob then
                     if dry_run then
                       do _ <- trigger w builder revision fs dry_run extra;
                       ret []
                     else
                       trigger_times w n builder revision fs dry_run extra []
                   else ret []
               | None => ret []
               end st))).
  { intros [b|] fs n Hb; [|apply R_refl].
    assert (Hok : OkTrigger b revision dry_run extra)
      by (destruct (Hb b eq_refl) as [->| ->]; assumption).
    destruct (truthy_builder (Some b)); [|apply R_refl].
    destruct dry_run.
    - unfold bind.
      pose proof (R_trigger w b revision fs true extra st Hok) as H.
      destruct (trigger w b revision fs true extra st) as [[?|?] ?]; exact H.
    - now apply keeps_trigger_times. }
  unfold trigger_job, bind at 1 2 3, ask, lift.
  destruct (query_repo_name_from_buildername _ buildername) as [repo_name|e];
    [|apply R_refl].
  cbv zeta.
  destruct (negb (valid_revision _ _ revision)); [apply R_refl|].
  destruct (negb (valid_builder _ buildername)); [apply R_refl|].
  destruct (truthy_files files).
  - unfold ret at 1.
    apply (Hend (Some buildername) files (Z.to_nat times)).
    intros b [= <-]. now left.
  - unfold bind at 1 2, get_sch_mgr, lift.
    destruct (_determine_trigger_objective p _ _ revision buildername tbim)
      as [[ob fs]|e] eqn:Hres; [|apply R_refl].
    assert (Hob : forall b, ob = Some b ->
              b = buildername \/ b = determine_upstream_builder p buildername).
    { intros b ->. eapply resolved_builder_range, Hres. }
    destruct (negb (bool_decide (ob = Some buildername)) && negb (times =? 1)%Z);
      unfold ret at 1;
      [apply (Hend ob fs (Z.to_nat 1)) | apply (Hend ob fs (Z.to_nat times))];
      exact Hob.
Qed.

Lemma keeps_trigger_range_rev p w buildername times dry_run files extra tbim
    repo_name repo_url rev :
  OkTrigger buildername rev dry_run extra ->
  OkTrigger (determine_upstream_builder p buildername) rev dry_run extra ->
  (forall count, 0 < count <= times -> OkRetrigger repo_name count dry_run) ->
  keeps R (trigger_range_rev p w buildername times dry_run files extra tbim
             repo_name repo_url rev).
Proof.
  intros Hsame Hup Hre st.
  assert (Hjob : forall n,
    R st (snd ((do _ <- trigger_job p w rev buildername n files dry_run
                          extra tbim; ret tt) st))).
  { intros n. unfold bind.
    pose proof (keeps_trigger_job p w rev buildername n files dry_run extra
                  tbim Hsame Hup st) as H.
    destruct (trigger_job p w rev buildername n files dry_run extra tbim st)
      as [[?|?] ?]; exact H. }
  unfold trigger_range_rev.
  unfold bind at 1. unfold ask at 1. cbv beta iota.
  destruct (negb (valid_revision _ repo_url rev)); [apply R_refl|].
  unfold bind at 1. unfold get_query_source at 1. cbv beta iota zeta.
  unfold bind at 1. unfold lift at 1.
  destruct (_status_summary _ _ _) as [s|e] eqn:Hsummary; [|apply R_refl].
  destruct (potential_jobs s >=? times)%Z eqn:Hge; [apply R_refl|].
  destruct (get_matching_jobs _ _ repo_name rev buildername) as [|job0 more].
  - apply Hjob.
  - destruct files as [fs|]; [apply Hjob|].
    unfold bind.
    assert (Hcount : 0 < times - potential_jobs s <= times).
    { rewrite Z.geb_leb in Hge. apply Z.leb_gt in Hge.
      pose proof (summary_counts_nonneg _ _ _ _ Hsummary). unfold potential_jobs in *. lia. }
    pose proof (R_retrigger w repo_name
      (get_buildapi_request_id (w (backend_calls st)) (QUERY_SOURCE st) repo_name job0)
      (times - potential_jobs s) dry_run st (Hre _ Hcount)) as H.
    destruct (send w _ st) as [[?|?] ?]; exact H.
Qed.

Lemma keeps_for_each {A} (l : list A) (body : A -> M unit) :
  (forall x, x ∈ l -> keeps R (body x)) -> keeps R (for_each l body).
Proof.
  induction l as [|x l IH]; intros Hbody; cbn [for_each].
  - intros st. apply R_refl.
  - apply keeps_bind.
    + apply Hbody, list_elem_of_here.
    + intros _. apply IH. intros y Hy. now apply Hbody, list_elem_of_further.
Qed.

Lemma keeps_trigger_range p w buildername revisions times dry_run files extra tbim :
  (forall rev, rev ∈ revisions ->
     OkTrigger buildername rev dry_run extra
     /\ OkTrigger (determine_upstream_builder p buildername) rev dry_run extra) ->
  (forall repo_name count,
     0 < count <= times -> OkRetrigger repo_name count dry_run) ->
  keeps R (trigger_range p w buildername revisions times dry_run files extra tbim).
Proof.
  intros Htr Hre st. unfold trigger_range.
  unfold bind at 1. unfold ask at 1. cbv beta iota.
  unfold bind at 1. unfold lift at 1.
  destruct (query_repo_name_from_buildername _ buildername) as [repo_name|e];
    [|apply R_refl].
  cbv zeta. apply keeps_for_each. intros rev Hrev.
  destruct (Htr rev Hrev) as [Hsame Hup].
  apply keeps_trigger_range_rev; auto.
Qed.

End Closure.

(** *** The requests an entry point adds *)

Lemma adds_refl (P : BackendCall -> Prop) (st : Session) : adds P st st.
Proof. exists []. split; [now rewrite app_nil_r | constructor]. Qed.

Lemma adds_trans (P : BackendCall -> Prop) (st1 st2 st3 : Session) :
  adds P st1 st2 -> adds P st2 st3 -> adds P st1 st3.
Proof.
  intros [l1 [H1 P1]] [l2 [H2 P2]]. exists (l1 ++ l2)%list. split.
  - now rewrite H2, H1, app_assoc.
  - apply Forall_app. now split.
Qed.

Lemma adds_trigger (P : BackendCall -> Prop) w builder revision files dry_run
    extra st :
  (forall repo_name,
     P (TriggerArbitraryJob repo_name builder revision files dry_run extra)) ->
  adds P st (snd (trigger w builder revision files dry_run extra st)).
Proof.
  intros HP. rewrite trigger_unfold. cbv zeta.
  destruct (query_repo_name_from_buildername _ _) as [repo_name|e]; cbn [snd].
  - eexists [_]. split; [reflexivity|]. repeat constructor. apply HP.
  - exists []. split; [cbn; now rewrite app_nil_r | constructor].
Qed.

Lemma adds_send (P : BackendCall -> Prop) w call st :
  P call -> adds P st (snd (send w call st)).
Proof. intros HP. exists [call]. split; [reflexivity | now repeat constructor]. Qed.

(** X12: every call [trigger_job] adds to the history is a trigger request on
    the requested revision, for the requested builder or for its upstream
    build builder, and carries the caller's [dry_run] and [extra_properties];
    [trigger_job] never retriggers and never rewrites the history. *)
Theorem trigger_job_requests
    (p : Platforms) (w : World) (revision buildername : string) (times : Z)
    (files : option (list string)) (dry_run : bool)
    (extra : option MozciRequest) (tbim : bool) (st : Session) :
  adds (job_request p revision buildername dry_run extra) st
    (snd (trigger_job p w revision buildername times files dry_run extra tbim st)).
Proof.
  apply (keeps_trigger_job
           (adds (job_request p revision buildername dry_run extra))
           (adds_refl _) (adds_trans _)
           (fun b r d e =>
              r = revision
              /\ (b = buildername \/ b = determine_upstream_builder p buildername)
              /\ d = dry_run /\ e = extra)).
  - intros w0 b r fs d e st0 Hok. apply adds_trigger. intros repo. exact Hok.
  - repeat split; auto.
  - repeat split; auto.
Qed.

(** X13: every call [trigger_range] adds to the history is either a trigger
    request on one of the given revisions, for the requested builder or its
    upstream build builder, or a retrigger whose count is positive and at
    most the requested count; all of them carry the caller's [dry_run], the
    trigger requests the caller's [extra_properties]. *)
Theorem trigger_range_requests
    (p : Platforms) (w : World) (buildername : string) (revisions : list string)
    (times : Z) (dry_run : bool) (files : option (list string))
    (extra : option MozciRequest) (tbim : bool) (st : Session) :
  adds (range_request p buildername revisions times dry_run extra) st
    (snd (trigger_range p w buildername revisions times dry_run files extra tbim st)).
Proof.
  apply (keeps_trigger_range
           (adds (range_request p buildername revisions times dry_run extra))
           (adds_refl _) (adds_trans _)
           (fun b r d e =>
              r ∈ revisions
              /\ (b = buildername \/ b = determine_upstream_builder p buildername)
              /\ d = dry_run /\ e = extra)
           (fun _ count d => 0 < count <= times /\ d = dry_run)).
  - intros w0 b r fs d e st0 Hok. apply adds_trigger. intros repo. exact Hok.
  - intros w0 repo id count d st0 Hok. apply adds_send. exact Hok.
  - intros rev Hrev. repeat split; auto.
  - intros repo count Hcount. now split.
Qed.
(** *** The ledger books every trigger request *)

Lemma ledger_count_record (m : gmap string (list string)) (r b r' b' : string) :
  ledger_count (record_builder m r b) r' b'
  = (ledger_count m r' b'
     + if bool_decide (b = b') && bool_decide (r = r') then 1 else 0)%nat.
Proof.
  unfold ledger_count, record_builder.
  destruct (decide (r = r')) as [->|Hne].
  - rewrite lookup_insert_eq.
    change (default [] (Some (default [] (m !! r') ++ [b])%list))
      with (default [] (m !! r') ++ [b])%list.
    rewrite List.filter_app, length_app. cbn [List.filter length].
    rewrite (bool_decide_eq_true_2 (r' = r')) by reflexivity.
    rewrite andb_true_r. now destruct (bool_decide (b = b')).
  - rewrite lookup_insert_ne by done.
    rewrite (bool_decide_eq_false_2 (r = r')) by done.
    rewrite andb_false_r. lia.
Qed.

Lemma covered_trigger w builder revision files dry_run extra st :
  covered st -> covered (snd (trigger w builder revision files dry_run extra st)).
Proof.
  intros Hcov r b. rewrite trigger_unfold. cbv zeta. specialize (Hcov r b).
  destruct (query_repo_name_from_buildername _ _) as [repo_name|e];
    cbn [snd backend_calls SCHEDULING_MANAGER]; rewrite ledger_count_record.
  - rewrite trigger_count_app, trigger_count_single. cbn [is_trigger_of]. lia.
  - lia.
Qed.

Lemma covered_retrigger w repo_name req_id count dry_run st :
  covered st ->
  covered (snd (send w (MakeRetriggerRequest repo_name req_id count dry_run) st)).
Proof.
  intros Hcov r b. cbn [send snd backend_calls SCHEDULING_MANAGER].
  rewrite trigger_count_app, trigger_count_single. cbn [is_trigger_of].
  rewrite Nat.add_0_r. apply Hcov.
Qed.

(** X14: in every session that starts from the empty ledger, whatever is
    invoked and with whatever arguments, each trigger request in the history
    has its own entry in the ledger: a builder is listed for a revision at
    least as often as it was requested on it. *)
Theorem every_trigger_request_is_booked
    (p : Platforms) (invs : list (World * Invocation)) :
  covered (run_session p invs fresh_session).
Proof.
  assert (Hinvoke : forall w i,
            keeps (fun st st' => covered st -> covered st') (invoke p w i)).
  { intros w i. destruct i; cbn [invoke].
    - apply keeps_bind;
        [intros a b c H1 H2 H; exact (H2 (H1 H)) | | intros a st0 H; exact H].
      apply (keeps_trigger_job _ (fun st H => H) (fun a b c H1 H2 H => H2 (H1 H))
               (fun _ _ _ _ => True)); auto.
      intros; now apply covered_trigger.
    - apply (keeps_trigger_range _ (fun st H => H) (fun a b c H1 H2 H => H2 (H1 H))
               (fun _ _ _ _ => True) (fun _ _ _ => True)); auto.
      + intros; now apply covered_trigger.
      + intros; now apply covered_retrigger. }
  enough (Hrun : forall st, covered st -> covered (run_session p invs st)).
  { apply Hrun. intros r b. cbn. lia. }
  induction invs as [|[w i] invs IH]; intros st Hst; cbn [run_session].
  - exact Hst.
  - apply IH. now apply Hinvoke.
Qed.

(** *** The query source *)

Lemma same_source_trigger_range p w buildername revisions times dry_run files
    extra tbim st :
  QUERY_SOURCE (snd (trigger_range p w buildername revisions times dry_run files
                       extra tbim st)) = QUERY_SOURCE st.
Proof.
  apply (keeps_trigger_range (fun st st' => QUERY_SOURCE st' = QUERY_SOURCE st)
           (fun st => eq_refl)
           (fun a b c H1 H2 => eq_trans H2 H1)
           (fun _ _ _ _ => True) (fun _ _ _ => True)); auto.
  intros w0 b r f d e st0 _. rewrite trigger_unfold. cbv zeta.
  now destruct (query_repo_name_from_buildername _ _).
Qed.

Lemma same_source_trigger_job p w revision buildername times files dry_run
    extra tbim st :
  QUERY_SOURCE (snd (trigger_job p w revision buildername times files dry_run
                       extra tbim st)) = QUERY_SOURCE st.
Proof.
  apply (keeps_trigger_job (fun st st' => QUERY_SOURCE st' = QUERY_SOURCE st)
           (fun st => eq_refl)
           (fun a b c H1 H2 => eq_trans H2 H1)
           (fun _ _ _ _ => True)); auto.
  intros w0 b r f d e st0 _. rewrite trigger_unfold. cbv zeta.
  now destruct (query_repo_name_from_buildername _ _).
Qed.

(** X15: [manual_backfill] leaves the session on the treeherder query source
    as soon as the repository of the builder is found, whether or not the
    backfill then succeeds, so the calls made later in the session query
    treeherder; [trigger_job] and [trigger_range] never change the query
    source. *)
Theorem manual_backfill_switches_query_source
    (p : Platforms) (w : World) (revision buildername : string)
    (max_revisions : Z) (dry_run : bool) (st : Session) :
  QUERY_SOURCE (snd (manual_backfill p w revision buildername max_revisions
                       dry_run st))
  = (if is_Return (query_repo_name_from_buildername (w (backend_calls st))
                     buildername)
     then TreeherderApi else QUERY_SOURCE st)
  /\ (forall invs, QUERY_SOURCE (run_session p invs st) = QUERY_SOURCE st).
Proof.
  split.
  - unfold manual_backfill, query_repo_url_from_buildername.
    unfold bind at 1. unfold ask at 1. cbv beta iota.
    unfold bind at 1. unfold lift at 1.
    destruct (query_repo_name_from_buildername _ buildername) as [repo_name|e];
      [|reflexivity].
    cbn [is_Return]. unfold bind at 1. unfold set_query_source at 1.
    change (bool_decide ("treeherder" = "treeherder")) with true. cbv beta iota zeta.
    unfold bind at 1. unfold get_query_source at 1. cbv beta iota.
    unfold bind at 1. unfold lift at 1.
    destruct (_filter_backfill_revlist _ _ buildername _ false); [|reflexivity].
    now rewrite same_source_trigger_range.
  - intros invs. revert st. induction invs as [|[w0 i] invs IH]; intros st;
      cbn [run_session]; [reflexivity|].
    rewrite IH. destruct i as [rev b n fs d e t | b revs n d fs e t]; cbn [invoke].
    + unfold bind.
      pose proof (same_source_trigger_job p w0 rev b n fs d e t st) as H.
      destruct (trigger_job _ _ _ _ _ _ _ _ _ st) as [[?|?] ?]; exact H.
    + apply same_source_trigger_range.
Qed.
(** *** How many requests [trigger_job] sends *)

Lemma trigger_times_bounds w builder revision files dry_run extra :
  forall (n : nat) (acc : list Response) (st : Session),
    exists added,
      backend_calls (snd (trigger_times w n builder revision files dry_run extra
                            acc st))
        = (backend_calls st ++ added)%list
      /\ (length added <= n)%nat
      /\ forall l,
           fst (trigger_times w n builder revision files dry_run extra acc st)
             = Return l ->
           (length l <= length acc + length added)%nat.
Proof.
  induction n as [|n IH]; intros acc st.
  - exists []. cbn. rewrite app_nil_r. repeat split; [lia|].
    intros l [= <-]. lia.
  - cbn [trigger_times]. unfold bind. rewrite trigger_unfold. cbv zeta.
    destruct (query_repo_name_from_buildername _ builder) as [repo_name|e].
    + match goal with
      | |- context [trigger_times w n _ _ _ _ _ ?acc' ?st'] =>
          destruct (IH acc' st') as [added [Hcalls [Hlen Hres]]];
          exists (TriggerArbitraryJob repo_name builder revision files dry_run
                    extra :: added)
      end.
      cbn [backend_calls] in Hcalls. rewrite Hcalls, <- app_assoc.
      repeat split; [cbn; lia|].
      intros l Hl. specialize (Hres l Hl). cbn [length].
      destruct (buildapi_response _ _); [rewrite length_app in Hres; cbn in Hres|];
        lia.
    + exists []. cbn. rewrite app_nil_r. repeat split; [lia | discriminate].
Qed.

Lemma trigger_job_outcome
    (p : Platforms) (w : World) (revision buildername : string) (times : Z)
    (files : option (list string)) (dry_run : bool)
    (extra : option MozciRequest) (tbim : bool) (st : Session) :
  exists added,
    backend_calls (snd (trigger_job p w revision buildername times files dry_run
                          extra tbim st))
      = (backend_calls st ++ added)%list
    /\ (length added <= if dry_run then 1 else Nat.max 1 (Z.to_nat times))%nat
    /\ forall l,
         fst (trigger_job p w revision buildername times files dry_run extra
                tbim st) = Return l ->
         (length l <= length added)%nat /\ (dry_run = true -> l = []).
Proof.
  set (Q := fun o : Result (list Response) * Session =>
    exists added,
      backend_calls (snd o) = (backend_calls st ++ added)%list
      /\ (length added <= if dry_run then 1 else Nat.max 1 (Z.to_nat times))%nat
      /\ forall l, fst o = Return l ->
           (length l <= length added)%nat /\ (dry_run = true -> l = [])).
  change (Q (trigger_job p w revision buildername times files dry_run extra tbim st)).
  assert (Hnone : forall (r : Result (list Response)),
            (forall l, r = Return l -> l = []) -> Q (r, st)).
  { intros r Hr. exists []. cbn [fst snd]. rewrite app_nil_r. repeat split.
    - destruct dry_run; cbn; lia.
    - rewrite (Hr l H). cbn. lia.
    - intros _. now apply Hr. }
  assert (Hend : forall ob fs n, (n <= Nat.max 1 (Z.to_nat times))%nat ->
    Q (match ob with
       | Some builder =>
           if truthy_builder ob then
             if dry_run then
               do _ <- trigger w builder revision fs dry_run extra;
               ret []
             else
               trigger_times w n builder revision fs dry_run extra []
           else ret []
       | None => ret []
       end st)).
  { intros [b|] fs n Hn;
      [|apply (Hnone (Return [])); intros l Hl; now injection Hl].
    destruct (truthy_builder (Some b));
      [|apply (Hnone (Return [])); intros l Hl; now injection Hl].
    destruct dry_run.
    - unfold bind. rewrite trigger_unfold. cbv zeta.
      destruct (query_repo_name_from_buildername _ b) as [repo_name|e].
      + eexists [_]. split; [reflexivity|]. split; [cbn; lia|].
        intros l Hl. cbn in Hl. injection Hl as <-. split; [cbn; lia | reflexivity].
      + exists []. cbn. rewrite app_nil_r. repeat split; try lia; discriminate.
    - destruct (trigger_times_bounds w b revision fs false extra n [] st)
        as [added [Hcalls [Hlen Hres]]].
      exists added. repeat split; [exact Hcalls | lia | | discriminate].
      specialize (Hres l H). cbn in Hres. lia. }
  clearbody Q.
  unfold trigger_job, bind at 1 2 3, ask, lift.
  destruct (query_repo_name_from_buildername _ buildername) as [repo_name|e];
    [|apply (Hnone (Raise e)); discriminate].
  cbv zeta.
  destruct (negb (valid_revision _ _ revision));
    [apply (Hnone (Return [])); intros l Hl; now injection Hl|].
  destruct (negb (valid_builder _ buildername));
    [apply (Hnone (Raise (SystemExit (-1)))); discriminate|].
  destruct (truthy_files files).
  - unfold ret at 1.
    apply (Hend (Some buildername) files (Z.to_nat times)). lia.
  - unfold bind at 1 2, get_sch_mgr, lift.
    destruct (_determine_trigger_objective p _ _ revision buildername tbim)
      as [[ob fs]|e]; [|apply (Hnone (Raise e)); discriminate].
    destruct (negb (bool_decide (ob = Some buildername)) && negb (times =? 1)%Z);
      unfold ret at 1;
      [apply (Hend ob fs (Z.to_nat 1)) | apply (Hend ob fs (Z.to_nat times))];
      cbn; lia.
Qed.

(** X16: [trigger_job] adds at most one request to the history in a dry run
    and at most max(1, [times]) otherwise (a request for zero jobs can still
    trigger the missing build once); the list it returns is never longer
    than what it added and is empty in a dry run. *)
Theorem trigger_job_bounds
    (p : Platforms) (w : World) (revision buildername : string) (times : Z)
    (files : option (list string)) (dry_run : bool)
    (extra : option MozciRequest) (tbim : bool) (st : Session) :
  exists added,
    backend_calls (snd (trigger_job p w revision buildername times files dry_run
                          extra tbim st))
      = (backend_calls st ++ added)%list
    /\ (length added <= if dry_run then 1 else Nat.max 1 (Z.to_nat times))%nat
    /\ forall l,
         fst (trigger_job p w revision buildername times files dry_run extra
                tbim st) = Return l ->
         (length l <= length added)%nat /\ (dry_run = true -> l = []).
Proof. apply trigger_job_outcome. Qed.
(** *** Requests that bypass the dedup check, and the build that stands in *)

Lemma record_builder_entry (m : gmap string (list string)) (r b : string) :
  default [] (record_builder m r b !! r) = (default [] (m !! r) ++ [b])%list.
Proof. unfold record_builder. now rewrite lookup_insert_eq. Qed.

Lemma trigger_times_exact w builder revision files dry_run extra repo_name :
  (forall history,
     query_repo_name_from_buildername (w history) builder = Return repo_name) ->
  forall (n : nat) (acc : list Response) (st : Session),
    is_Return (fst (trigger_times w n builder revision files dry_run extra acc st))
      = true
    /\ backend_calls (snd (trigger_times w n builder revision files dry_run extra
                             acc st))
       = (backend_calls st
          ++ replicate n (TriggerArbitraryJob repo_name builder revision files
                            dry_run extra))%list
    /\ default []
         (SCHEDULING_MANAGER
            (snd (trigger_times w n builder revision files dry_run extra acc st))
          !! revision)
       = (default [] (SCHEDULING_MANAGER st !! revision)
          ++ replicate n builder)%list.
Proof.
  intros Hrepo. induction n as [|n IH]; intros acc st.
  - cbn. rewrite !app_nil_r. repeat split.
  - cbn [trigger_times]. unfold bind. rewrite trigger_unfold. cbv zeta.
    rewrite Hrepo.
    match goal with
    | |- context [trigger_times w n _ _ _ _ _ ?acc' ?st'] =>
        destruct (IH acc' st') as [Hret [Hcalls Hledger]]
    end.
    cbn [backend_calls SCHEDULING_MANAGER] in Hcalls, Hledger.
    rewrite Hret, Hcalls, Hledger, record_builder_entry, <- !app_assoc.
    repeat split.
Qed.

(** X17: with artifact files given, or for a builder that is its own upstream
    builder, [trigger_job] outside a dry run sends the request for the
    requested builder once for each of the [times] asked for, and books each
    one, whatever the ledger and the existing jobs say: these requests are
    not deduplicated. *)
Theorem direct_requests_are_sent_every_time
    (p : Platforms) (w : World) (revision buildername repo_name : string)
    (times : Z) (files : option (list string)) (extra : option MozciRequest)
    (tbim : bool) (st : Session)
    (Hrepo : forall history,
       query_repo_name_from_buildername (w history) buildername = Return repo_name)
    (Hrevision : valid_revision (w (backend_calls st))
                   (query_repo_url (w (backend_calls st)) repo_name) revision
                 = true)
    (Hbuilder : valid_builder (w (backend_calls st)) buildername = true)
    (Hname : buildername <> "")
    (Hdirect : truthy_files files = true
               \/ determine_upstream_builder p buildername = buildername) :
  backend_calls (snd (trigger_job p w revision buildername times files false
                        extra tbim st))
  = (backend_calls st
     ++ replicate (Z.to_nat times)
          (TriggerArbitraryJob repo_name buildername revision
             (if truthy_files files then files else None) false extra))%list
  /\ default []
       (SCHEDULING_MANAGER
          (snd (trigger_job p w revision buildername times files false extra
                  tbim st)) !! revision)
     = (default [] (SCHEDULING_MANAGER st !! revision)
        ++ replicate (Z.to_nat times) buildername)%list.
Proof.
  set (Q := fun s' : Session =>
    backend_calls s'
    = (backend_calls st
       ++ replicate (Z.to_nat times)
            (TriggerArbitraryJob repo_name buildername revision
               (if truthy_files files then files else None) false extra))%list
    /\ default [] (SCHEDULING_MANAGER s' !! revision)
       = (default [] (SCHEDULING_MANAGER st !! revision)
          ++ replicate (Z.to_nat times) buildername)%list).
  change (Q (snd (trigger_job p w revision buildername times files false extra
                    tbim st))).
  assert (Hend : forall fs,
    fs = (if truthy_files files then files else None) ->
    Q (snd (trigger_times w (Z.to_nat times) buildername revision fs false
              extra [] st))).
  { intros fs ->.
    destruct (trigger_times_exact w buildername revision
                (if truthy_files files then files else None) false extra
                repo_name Hrepo (Z.to_nat times) [] st) as [_ [Hc Hl]].
    now split. }
  clearbody Q.
  unfold trigger_job, bind at 1 2 3, ask, lift.
  rewrite Hrepo. cbv zeta. rewrite Hrevision, Hbuilder. cbn [negb].
  assert (Htruthy : truthy_builder (Some buildername) = true).
  { cbn. now rewrite bool_decide_eq_false_2. }
  destruct (truthy_files files) eqn:Hfiles.
  - unfold ret at 1. rewrite Htruthy. now apply Hend.
  - destruct Hdirect as [?|Hself]; [discriminate|].
    unfold bind at 1 2, get_sch_mgr, lift.
    unfold _determine_trigger_objective. rewrite Hrepo, Hself, Hbuilder.
    cbn [negb]. rewrite bool_decide_eq_true_2 by reflexivity.
    rewrite bool_decide_eq_true_2 by reflexivity. cbn [negb andb].
    unfold ret at 1. rewrite Htruthy. now apply Hend.
Qed.

Lemma direct_requests_witness :
  backend_calls (snd (trigger_job demo_platforms (still empty_collab) rev1
                        linux_build 3 None false None true fresh_session))
  = replicate 3 (TriggerArbitraryJob "try" linux_build rev1 None false None)
  /\ default []
       (SCHEDULING_MANAGER
          (snd (trigger_job demo_platforms (still empty_collab) rev1
                  linux_build 3 None false None true fresh_session)) !! rev1)
     = replicate 3 linux_build.
Proof.
  apply (direct_requests_are_sent_every_time demo_platforms (still empty_collab)
           rev1 linux_build "try" 3 None None true fresh_session).
  - intros history. reflexivity.
  - reflexivity.
  - reflexivity.
  - discriminate.
  - right. reflexivity.
Defined.

(** X18: when the resolution of a request without files names a builder other
    than the requested one (the upstream build), [trigger_job] sends exactly
    one request for it, in a dry run or not, for every value of [times],
    zero and negative ones included. *)
Theorem stand_in_build_is_requested_once
    (p : Platforms) (w : World) (revision buildername repo_name : string)
    (times : Z) (files : option (list string)) (dry_run : bool)
    (extra : option MozciRequest) (tbim : bool) (st : Session)
    (builder build_repo : string) (build_files : option (list string))
    (Hfiles : truthy_files files = false)
    (Hrepo : query_repo_name_from_buildername (w (backend_calls st)) buildername
             = Return repo_name)
    (Hrevision : valid_revision (w (backend_calls st))
                   (query_repo_url (w (backend_calls st)) repo_name) revision
                 = true)
    (Hbuilder : valid_builder (w (backend_calls st)) buildername = true)
    (Hres : _determine_trigger_objective p (w (backend_calls st))
              (SCHEDULING_MANAGER st) revision buildername tbim
            = Return (Some builder, build_files))
    (Hother : builder <> buildername)
    (Hname : builder <> "")
    (Hbuild_repo : query_repo_name_from_buildername (w (backend_calls st)) builder
                   = Return build_repo) :
  backend_calls (snd (trigger_job p w revision buildername times files dry_run
                        extra tbim st))
  = (backend_calls st
     ++ [TriggerArbitraryJob build_repo builder revision build_files dry_run
           extra])%list.
Proof.
  unfold trigger_job, bind at 1 2 3, ask, lift.
  rewrite Hrepo. cbv zeta. rewrite Hrevision, Hbuilder. cbn [negb].
  rewrite Hfiles. unfold bind at 1 2, get_sch_mgr, lift. rewrite Hres.
  rewrite (bool_decide_eq_false_2 (Some builder = Some buildername)) by congruence.
  cbn [negb andb].
  assert (Htruthy : truthy_builder (Some builder) = true).
  { cbn. now rewrite bool_decide_eq_false_2. }
  assert (Hone : forall d,
    backend_calls (snd (trigger w builder revision build_files d extra st))
    = (backend_calls st
       ++ [TriggerArbitraryJob build_repo builder revision build_files d extra])%list).
  { intros d. rewrite trigger_unfold. cbv zeta. now rewrite Hbuild_repo. }
  assert (Hend : forall n, n = 1%nat ->
    backend_calls
      (snd ((if dry_run
             then do _ <- trigger w builder revision build_files dry_run extra;
                  ret []
             else trigger_times w n builder revision build_files dry_run extra [])
              st))
    = (backend_calls st
       ++ [TriggerArbitraryJob build_repo builder revision build_files dry_run
             extra])%list).
  { intros n ->. destruct dry_run.
    - unfold bind. specialize (Hone true).
      destruct (trigger w builder revision build_files true extra st) as [[?|?] ?];
        exact Hone.
    - cbn [trigger_times]. unfold bind. specialize (Hone false).
      destruct (trigger w builder revision build_files false extra st) as [[?|?] ?];
        exact Hone. }
  destruct (negb (times =? 1)%Z) eqn:Htimes; unfold ret at 1; rewrite Htruthy.
  - now apply Hend.
  - apply Hend. apply negb_false_iff, Z.eqb_eq in Htimes. now subst.
Qed.

Lemma stand_in_build_witness :
  backend_calls (snd (trigger_job demo_platforms (still empty_collab) rev1
                        linux_test 0 None false None true fresh_session))
  = [TriggerArbitraryJob "try" linux_build rev1 None false None].
Proof.
  apply (stand_in_build_is_requested_once demo_platforms (still empty_collab)
           rev1 linux_test "try" 0 None false None true fresh_session
           linux_build "try" None).
  - reflexivity.
  - reflexivity.
  - reflexivity.
  - reflexivity.
  - vm_compute. reflexivity.
  - vm_compute. discriminate.
  - discriminate.
  - reflexivity.
Defined.
(** *** The range scheduler: skipped revisions, errors, families *)

Lemma round_on_invalid_revision p w buildername times dry_run files extra tbim
    repo_name repo_url rev st :
  valid_revision (w (backend_calls st)) repo_url rev = false ->
  trigger_range_rev p w buildername times dry_run files extra tbim repo_name
    repo_url rev st = (Return tt, st).
Proof.
  intros Hinvalid. unfold trigger_range_rev, bind, ask. now rewrite Hinvalid.
Qed.

(** X19: against collaborators that do not change, the range scheduler does
    for a list of revisions exactly what it does for the valid ones among
    them, in the same order: an invalid revision is passed over and stops
    nothing. *)
Theorem invalid_revisions_are_passed_over
    (p : Platforms) (c : Collab) (buildername repo_name : string)
    (revisions : list string) (times : Z) (dry_run : bool)
    (files : option (list string)) (extra : option MozciRequest) (tbim : bool)
    (st : Session)
    (Hrepo : query_repo_name_from_buildername c buildername = Return repo_name) :
  trigger_range p (still c) buildername revisions times dry_run files extra tbim st
  = trigger_range p (still c) buildername
      (List.filter (valid_revision c (query_repo_url c repo_name)) revisions)
      times dry_run files extra tbim st.
Proof.
  unfold trigger_range, bind, ask, lift, still.
  rewrite Hrepo. cbv zeta.
  revert st. induction revisions as [|rev revisions IH]; intros st; [reflexivity|].
  cbn [List.filter].
  destruct (valid_revision c (query_repo_url c repo_name) rev) eqn:Hvalid.
  - cbn [for_each]. unfold bind.
    destruct (trigger_range_rev _ _ _ _ _ _ _ _ _ _ rev st) as [[[]|e] st1];
      [apply IH | reflexivity].
  - cbn [for_each]. unfold bind at 1.
    rewrite (round_on_invalid_revision p (fun _ => c)); [apply IH | exact Hvalid].
Qed.

Lemma invalid_revisions_witness :
  trigger_range demo_platforms (still only_rev1_is_valid) linux_test
    ["000000000000"; rev1] 1 false None None true fresh_session
  = trigger_range demo_platforms (still only_rev1_is_valid) linux_test
      [rev1] 1 false None None true fresh_session.
Proof.
  exact (invalid_revisions_are_passed_over demo_platforms only_rev1_is_valid
           linux_test "try" ["000000000000"; rev1] 1 false None None true
           fresh_session eq_refl).
Defined.
Lemma round_with_enough_jobs p w buildername times dry_run files extra tbim
    repo_name repo_url rev st s :
  _status_summary (w (backend_calls st)) (QUERY_SOURCE st)
    (PyList (get_matching_jobs (w (backend_calls st)) (QUERY_SOURCE st)
               repo_name rev buildername)) = Return s ->
  potential_jobs s >= times ->
  trigger_range_rev p w buildername times dry_run files extra tbim repo_name
    repo_url rev st = (Return tt, st).
Proof.
  intros Hsummary Henough.
  unfold trigger_range_rev, bind, ask, get_query_source, lift, ret.
  destruct (negb (valid_revision _ repo_url rev)); [reflexivity|].
  rewrite Hsummary.
  destruct (potential_jobs s >=? times)%Z eqn:Hge; [reflexivity|].
  rewrite Z.geb_leb in Hge. apply Z.leb_gt in Hge. lia.
Qed.

(** X20: the range scheduler does not skip a revision whose jobs cannot be
    summarised: after revisions that are invalid or already have enough
    jobs, a status fetch that fails on a valid revision ends the whole call
    with that error; nothing has been sent and the revisions after it are
    never looked at. *)
Theorem status_failure_ends_the_batch
    (p : Platforms) (w : World) (buildername repo_name : string)
    (settled : list string) (rev : string) (rest : list string) (times : Z)
    (dry_run : bool) (files : option (list string))
    (extra : option MozciRequest) (tbim : bool) (st : Session) (e : exn)
    (Hrepo : query_repo_name_from_buildername (w (backend_calls st)) buildername
             = Return repo_name)
    (Hsettled :
       Forall (fun r =>
                 valid_revision (w (backend_calls st))
                   (query_repo_url (w (backend_calls st)) repo_name) r = false
                 \/ exists s,
                      _status_summary (w (backend_calls st)) (QUERY_SOURCE st)
                        (PyList (get_matching_jobs (w (backend_calls st))
                                   (QUERY_SOURCE st) repo_name r buildername))
                      = Return s
                      /\ potential_jobs s >= times)
              settled)
    (Hvalid : valid_revision (w (backend_calls st))
                (query_repo_url (w (backend_calls st)) repo_name) rev = true)
    (Hfail : _status_summary (w (backend_calls st)) (QUERY_SOURCE st)
               (PyList (get_matching_jobs (w (backend_calls st)) (QUERY_SOURCE st)
                          repo_name rev buildername)) = Raise e) :
  trigger_range p w buildername (settled ++ rev :: rest) times dry_run files
    extra tbim st = (Raise e, st).
Proof.
  unfold trigger_range, bind at 1 2, ask, lift. rewrite Hrepo. cbv zeta.
  induction Hsettled as [|r settled Hr _ IH]; cbn [app for_each]; unfold bind at 1.
  - unfold trigger_range_rev, bind, ask, get_query_source, lift.
    rewrite Hvalid. cbn [negb]. cbv zeta. now rewrite Hfail.
  - destruct Hr as [Hinvalid|[s [Hs Henough]]].
    + rewrite round_on_invalid_revision by exact Hinvalid. exact IH.
    + rewrite (round_with_enough_jobs _ _ _ _ _ _ _ _ _ _ _ _ s Hs Henough).
      exact IH.
Qed.

Lemma status_failure_witness :
  trigger_range demo_platforms (still unreadable_status) linux_test
    (["000000000000"] ++ rev1 :: ["fedcba543210"]) 1 false None None true
    fresh_session
  = (Raise BuildjsonException, fresh_session).
Proof.
  apply (status_failure_ends_the_batch demo_platforms (still unreadable_status)
           linux_test "try" ["000000000000"] rev1 ["fedcba543210"] 1 false None
           None true fresh_session BuildjsonException).
  - reflexivity.
  - constructor; [left; reflexivity | constructor].
  - reflexivity.
  - reflexivity.
Defined.

(** *** Families of builders *)

Lemma adds_at_most_refl (st : Session) : adds_at_most 0 st st.
Proof. exists []. split; [now rewrite app_nil_r | reflexivity]. Qed.

Lemma adds_at_most_weaken (n m : nat) (st st' : Session) :
  (n <= m)%nat -> adds_at_most n st st' -> adds_at_most m st st'.
Proof. intros Hle [added [H1 H2]]. exists added. split; [exact H1 | lia]. Qed.

Lemma adds_at_most_trans (n m : nat) (st1 st2 st3 : Session) :
  adds_at_most n st1 st2 -> adds_at_most m st2 st3 ->
  adds_at_most (n + m) st1 st3.
Proof.
  intros [l1 [H1 L1]] [l2 [H2 L2]]. exists (l1 ++ l2)%list. split.
  - now rewrite H2, H1, app_assoc.
  - rewrite length_app. lia.
Qed.

Lemma trigger_range_single_adds_at_most p w buildername rev times dry_run
    extra tbim st :
  adds_at_most (Nat.max 1 (Z.to_nat times)) st
    (snd (trigger_range p w buildername [rev] times dry_run None extra tbim st)).
Proof.
  assert (Hnone : adds_at_most (Nat.max 1 (Z.to_nat times)) st st)
    by (apply (adds_at_most_weaken 0); [lia | apply adds_at_most_refl]).
  unfold trigger_range, bind at 1 2, ask, lift.
  destruct (query_repo_name_from_buildername _ buildername) as [repo_name|e];
    [|exact Hnone].
  cbv zeta. cbn [for_each]. unfold bind at 1.
  enough (Hround : adds_at_most (Nat.max 1 (Z.to_nat times)) st
            (snd (trigger_range_rev p w buildername times dry_run None extra tbim
                    repo_name (query_repo_url (w (backend_calls st)) repo_name)
                    rev st))).
  { destruct (trigger_range_rev _ _ _ _ _ _ _ _ _ _ rev st) as [[[]|e] st1];
      exact Hround. }
  unfold trigger_range_rev.
  unfold bind at 1. unfold ask at 1. cbv beta iota.
  destruct (negb (valid_revision _ _ rev)); [exact Hnone|].
  unfold bind at 1. unfold get_query_source at 1. cbv beta iota zeta.
  unfold bind at 1. unfold lift at 1.
  destruct (_status_summary _ _ _) as [s|e] eqn:Hsummary; [|exact Hnone].
  destruct (potential_jobs s >=? times)%Z eqn:Hge; [exact Hnone|].
  assert (Hpot : 0 <= potential_jobs s).
  { pose proof (summary_counts_nonneg _ _ _ _ Hsummary).
    unfold potential_jobs. lia. }
  destruct (get_matching_jobs _ _ repo_name rev buildername) as [|job0 more].
  - unfold bind.
    destruct (trigger_job_outcome p w rev buildername (times - potential_jobs s)
                None dry_run extra tbim st) as [added [Hcalls [Hlen _]]].
    destruct (trigger_job _ _ _ _ _ _ _ _ _ st) as [[?|?] st1];
      exists added; (split; [exact Hcalls|]); destruct dry_run; lia.
  - unfold bind. exists [MakeRetriggerRequest repo_name
            (get_buildapi_request_id (w (backend_calls st)) (QUERY_SOURCE st)
               repo_name job0) (times - potential_jobs s) dry_run].
    split; [reflexivity | cbn; lia].
Qed.

Lemma family_adds_at_most p w (builders : list string) rev times dry_run extra
    tbim :
  forall st,
    adds_at_most (length builders * Nat.max 1 (Z.to_nat times)) st
      (snd (for_each builders
              (fun buildername =>
                 trigger_range p w buildername [rev] times dry_run None extra
                   tbim) st)).
Proof.
  induction builders as [|b builders IH]; intros st; cbn [for_each length].
  - apply adds_at_most_refl.
  - unfold bind.
    pose proof (trigger_range_single_adds_at_most p w b rev times dry_run extra
                  tbim st) as Hfirst.
    destruct (trigger_range p w b [rev] times dry_run None extra tbim st)
      as [[[]|e] st1]; cbn [snd] in Hfirst |- *.
    + apply (adds_at_most_trans _ _ st st1); [exact Hfirst | apply IH].
    + eapply adds_at_most_weaken; [|exact Hfirst]. lia.
Qed.

Lemma family_adds_requests p w (builders : list string) rev times dry_run tag
    tbim :
  keeps (adds (family_request rev times dry_run tag))
    (for_each builders
       (fun buildername =>
          trigger_range p w buildername [rev] times dry_run None (Some tag)
            tbim)).
Proof.
  apply (keeps_for_each _ (adds_refl _) (adds_trans _)). intros b _.
  apply (keeps_trigger_range _ (adds_refl _) (adds_trans _)
           (fun _ r d e => r = rev /\ d = dry_run /\ e = Some tag)
           (fun _ count d => 0 < count <= times /\ d = dry_run)).
  - intros w0 b0 r fs d e st0 Hok. apply adds_trigger. intros repo. exact Hok.
  - intros w0 repo id count d st0 Hok. apply adds_send. exact Hok.
  - intros r Hr. apply list_elem_of_singleton in Hr as ->. repeat split.
  - intros repo count Hcount. now split.
Qed.

Lemma family_outcome p w (builders : list string) rev times dry_run tag tbim st :
  exists added,
    backend_calls
      (snd (for_each builders
              (fun buildername =>
                 trigger_range p w buildername [rev] times dry_run None
                   (Some tag) tbim) st))
      = (backend_calls st ++ added)%list
    /\ (length added <= length builders * Nat.max 1 (Z.to_nat times))%nat
    /\ Forall (family_request rev times dry_run tag) added.
Proof.
  destruct (family_adds_at_most p w builders rev times dry_run (Some tag) tbim st)
    as [added [Hcalls Hlen]].
  destruct (family_adds_requests p w builders rev times dry_run tag tbim st)
    as [added' [Hcalls' Hall]].
  rewrite Hcalls in Hcalls'. apply app_inv_head in Hcalls'. subst added'.
  now exists added.
Qed.

(** X21: [trigger_missing_jobs_for_revision] adds at most one call for each
    builder name that [filter_buildernames] keeps of the catalogue; every
    call is on the given revision with the caller's [dry_run], a trigger
    request carries the tag of the function and the count of a retrigger is
    one. *)
Theorem missing_jobs_one_call_per_builder
    (p : Platforms)
    (filter_buildernames :
       list string -> list string -> list string -> list string)
    (w : World) (repo_name revision : string) (dry_run : bool) (st : Session) :
  exists added,
    backend_calls
      (snd (trigger_missing_jobs_for_revision p filter_buildernames w repo_name
              revision dry_run st))
      = (backend_calls st ++ added)%list
    /\ (length added
        <= length (filter_buildernames [repo_name] ["hg bundle"; "b2g"; "pgo"]
                     (list_builders (w (backend_calls st)))))%nat
    /\ Forall (family_request revision 1 dry_run
                 (mkMozciRequest "trigger_missing_jobs_for_revision" None None))
              added.
Proof.
  unfold trigger_missing_jobs_for_revision, bind, ask. cbv zeta.
  destruct (family_outcome p w
              (filter_buildernames [repo_name] ["hg bundle"; "b2g"; "pgo"]
                 (list_builders (w (backend_calls st))))
              revision 1 dry_run
              (mkMozciRequest "trigger_missing_jobs_for_revision" None None)
              true st) as [added [Hcalls [Hlen Hall]]].
  exists added. repeat split; [exact Hcalls | | exact Hall].
  cbn in Hlen. lia.
Qed.

(** X22: [trigger_all_talos_jobs] asks for the talos builders with the pgo
    flag set exactly for mozilla-central, mozilla-aurora and mozilla-beta,
    and adds at most max(1, [times]) calls for each of them; every call is
    on the given revision with the caller's [dry_run], a trigger request
    carries the tag of the function with [times], and the count of a
    retrigger lies between one and [times]. *)
Theorem talos_jobs_requests
    (p : Platforms)
    (build_talos_buildernames_for_repo : string -> bool -> list string)
    (w : World) (repo_name revision : string) (times : Z) (dry_run : bool)
    (st : Session) :
  exists added,
    backend_calls
      (snd (trigger_all_talos_jobs p build_talos_buildernames_for_repo w
              repo_name revision times dry_run st))
      = (backend_calls st ++ added)%list
    /\ (length added
        <= length (build_talos_buildernames_for_repo repo_name
                     (bool_decide (repo_name = "mozilla-central"
                                   \/ repo_name = "mozilla-aurora"
                                   \/ repo_name = "mozilla-beta")))
           * Nat.max 1 (Z.to_nat times))%nat
    /\ Forall (family_request revision times dry_run
                 (mkMozciRequest "trigger_all_talos_jobs" None (Some times)))
              added.
Proof.
  unfold trigger_all_talos_jobs. cbv zeta.
  assert (Hpgo : bool_decide (repo_name ∈ ["mozilla-central"; "mozilla-aurora";
                                          "mozilla-beta"])
                 = bool_decide (repo_name = "mozilla-central"
                                \/ repo_name = "mozilla-aurora"
                                \/ repo_name = "mozilla-beta")).
  { apply bool_decide_ext. rewrite !elem_of_cons, elem_of_nil. tauto. }
  rewrite Hpgo. apply family_outcome.
Qed.
(** ** More on the backfill window *)

Lemma backfill_test_is_stop (c : Collab) (src : QuerySource)
    (repo_name buildername rev : string) (only_successful : bool)
    (s : StatusSummary) :
  _status_summary c src
    (PyList (get_matching_jobs c src repo_name rev buildername)) = Return s ->
  (if negb only_successful
   then negb (bool_decide (get_matching_jobs c src repo_name rev buildername = []))
        && (truthy_int (successful s) || truthy_int (pending s)
            || truthy_int (running s) || truthy_int (failed s))
   else (successful s >? 0)%Z)
  = backfill_stop c src repo_name buildername only_successful rev.
Proof.
  intros Hsummary.
  assert (Hknown : statuses_known c src
                     (get_matching_jobs c src repo_name rev buildername))
    by (eapply status_loop_known, Hsummary).
  rewrite (status_summary_known c src _ Hknown) in Hsummary.
  injection Hsummary as <-. cbn [successful pending running failed].
  destruct only_successful; cbn [negb backfill_stop].
  - rewrite positive_bucket_count, truthy_bucket_count. unfold successful_stop.
    induction (job_statuses c src _) as [|s0 l0 IHl]; [reflexivity|].
    cbn [existsb]. rewrite IHl. now destruct s0.
  - apply any_status_test.
Qed.

(** What a returning scan of the revisions has kept. *)
Lemma backfill_loop_kept (c : Collab) (src : QuerySource)
    (repo_name buildername : string) (only_successful : bool) :
  forall (revisions acc out : list string),
    backfill_loop c src repo_name buildername only_successful revisions acc
      = Return out ->
    exists kept,
      out = (acc ++ kept)%list
      /\ Forall (fun rev => backfill_stop c src repo_name buildername
                              only_successful rev = false) kept
      /\ (kept = revisions
          \/ exists rev rest,
               revisions = (kept ++ rev :: rest)%list
               /\ backfill_stop c src repo_name buildername only_successful rev
                  = true)
      /\ forall acc',
           backfill_loop c src repo_name buildername only_successful kept acc'
           = Return (acc' ++ kept)%list.
Proof.
  induction revisions as [|rev revisions IH]; intros acc out Hloop.
  - injection Hloop as <-. exists []. rewrite app_nil_r.
    repeat split; [constructor | now left | intros acc'; cbn; now rewrite app_nil_r].
  - cbn [backfill_loop] in Hloop.
    destruct (_status_summary c src _) as [s|e] eqn:Hsummary; [|discriminate].
    pose proof (backfill_test_is_stop c src repo_name buildername rev
                  only_successful s Hsummary) as Htest.
    destruct (backfill_stop c src repo_name buildername only_successful rev)
      eqn:Hstop.
    + assert (out = acc) as ->.
      { destruct only_successful; cbn [negb] in Hloop, Htest;
          rewrite Htest in Hloop; now injection Hloop. }
      exists []. rewrite app_nil_r. repeat split; [constructor | |].
      * right. now exists rev, revisions.
      * intros acc'. cbn. now rewrite app_nil_r.
    + assert (Hrest : backfill_loop c src repo_name buildername only_successful
                        revisions (acc ++ [rev]) = Return out).
      { destruct only_successful; cbn [negb] in Hloop, Htest;
          rewrite Htest in Hloop; exact Hloop. }
      destruct (IH _ _ Hrest) as [kept [-> [Hkept [Hmax Hfix]]]].
      exists (rev :: kept). repeat split.
      * now rewrite <- app_assoc.
      * now constructor.
      * destruct Hmax as [->|[r [rest [-> Hr]]]]; [now left|].
        right. now exists r, rest.
      * intros acc'. cbn [backfill_loop]. rewrite Hsummary.
        destruct only_successful; cbn [negb] in Htest |- *; rewrite Htest, Hfix;
          now rewrite <- app_assoc.
Qed.

(** The scan of the revisions needs the statuses only of the revisions it
    looks at. *)
Lemma backfill_loop_examined (c : Collab) (src : QuerySource)
    (repo_name buildername : string) (only_successful : bool) :
  forall (revisions acc : list string),
    Forall (fun rev => statuses_known c src
                         (get_matching_jobs c src repo_name rev buildername))
           (examined (backfill_stop c src repo_name buildername only_successful)
                     revisions) ->
    backfill_loop c src repo_name buildername only_successful revisions acc =
    Return (acc ++ prefix_before
                     (backfill_stop c src repo_name buildername only_successful)
                     revisions)%list.
Proof.
  induction revisions as [|rev revisions IH]; intros acc Hknown.
  - cbn. now rewrite app_nil_r.
  - cbn [backfill_loop prefix_before examined] in *.
    assert (Hrev : statuses_known c src
                     (get_matching_jobs c src repo_name rev buildername)).
    { destruct (backfill_stop c src repo_name buildername only_successful rev);
        now inversion Hknown. }
    pose proof (status_summary_known c src _ Hrev) as Hsummary.
    pose proof (backfill_test_is_stop c src repo_name buildername rev
                  only_successful _ Hsummary) as Htest.
    rewrite Hsummary.
    destruct (backfill_stop c src repo_name buildername only_successful rev)
      eqn:Hstop.
    + destruct only_successful; cbn [negb] in Htest |- *; rewrite Htest;
        now rewrite app_nil_r.
    + assert (Hrest : Forall (fun rev => statuses_known c src
                         (get_matching_jobs c src repo_name rev buildername))
                (examined (backfill_stop c src repo_name buildername
                             only_successful) revisions))
        by now inversion Hknown.
      destruct only_successful; cbn [negb] in Htest |- *; rewrite Htest;
        rewrite (IH _ Hrest); now rewrite <- app_assoc.
Qed.

(** C9, as the code has it: when the repository of the builder is found,
    the revision history answers with a window that is not empty and the
    job statuses can be fetched on the revisions the filter looks at (those
    up to and including the first one that stops it), [manual_backfill]
    switches the query source to treeherder, asks the revision history for
    the window with [before = max_revisions] and [after = -1] around the
    pivot, keeps the prefix of that window before the first revision that
    stops the any-status scan, and runs one round of the range scheduler
    with a requested count of one on each revision kept. *)
Theorem manual_backfill_schedules_window
    (p : Platforms) (w : World) (revision buildername : string)
    (max_revisions : Z) (dry_run : bool) (st : Session) (repo_name : string)
    (Hrepo : query_repo_name_from_buildername (w (backend_calls st)) buildername
             = Return repo_name)
    (Hne : query_revisions_range_from_revision_before_and_after
             (w (backend_calls st))
             (query_repo_url (w (backend_calls st)) repo_name)
             revision max_revisions (-1) <> [])
    (Hknown :
       Forall (fun rev =>
                 statuses_known (w (backend_calls st)) TreeherderApi
                   (get_matching_jobs (w (backend_calls st)) TreeherderApi
                      repo_name rev buildername))
              (examined
                 (any_status_stop (w (backend_calls st)) TreeherderApi repo_name
                    buildername)
                 (query_revisions_range_from_revision_before_and_after
                    (w (backend_calls st))
                    (query_repo_url (w (backend_calls st)) repo_name)
                    revision max_revisions (-1)))) :
  manual_backfill p w revision buildername max_revisions dry_run st =
  for_each
    (prefix_before
       (any_status_stop (w (backend_calls st)) TreeherderApi repo_name buildername)
       (query_revisions_range_from_revision_before_and_after
          (w (backend_calls st))
          (query_repo_url (w (backend_calls st)) repo_name)
          revision max_revisions (-1)))
    (trigger_range_rev p w buildername 1 dry_run None
       (Some (manual_backfill_request buildername)) true repo_name
       (query_repo_url (w (backend_calls st)) repo_name))
    (mkSession (SCHEDULING_MANAGER st) TreeherderApi (backend_calls st)).
Proof.
  unfold manual_backfill, trigger_range, query_repo_url_from_buildername.
  unfold bind, ask, lift, set_query_source, get_query_source.
  rewrite Hrepo.
  change (bool_decide ("treeherder" = "treeherder")) with true.
  cbn [backend_calls QUERY_SOURCE SCHEDULING_MANAGER].
  unfold _filter_backfill_revlist. rewrite Hrepo.
  destruct (query_revisions_range_from_revision_before_and_after _ _ _ _ _)
    as [|rev0 revs] eqn:Hwindow; [contradiction|].
  rewrite (backfill_loop_examined _ TreeherderApi repo_name buildername false
             (rev0 :: revs) [] Hknown).
  cbn [app backend_calls]. reflexivity.
Qed.

Lemma manual_backfill_witness :
  manual_backfill demo_platforms (still unreadable_past_the_stop) "r5"
    linux_test 4 false fresh_session =
  for_each ["r5"; "r4"]
    (trigger_range_rev demo_platforms (still unreadable_past_the_stop)
       linux_test 1 false None (Some (manual_backfill_request linux_test)) true
       "try" "https://hg.mozilla.org/try")
    (mkSession ∅ TreeherderApi []).
Proof.
  apply (manual_backfill_schedules_window demo_platforms
           (still unreadable_past_the_stop) "r5" linux_test 4 false
           fresh_session "try").
  - reflexivity.
  - vm_compute. discriminate.
  - vm_compute. repeat constructor.
Defined.

(** X23: whenever [_filter_backfill_revlist] returns, in either mode, the
    window is a prefix of the input made of revisions that do not stop the
    scan; it is the whole input unless the revision right after it stops
    the scan; and filtering a non-empty window again gives the same
    window. *)
Theorem backfill_window_is_maximal_and_stable
    (c : Collab) (src : QuerySource) (buildername : string)
    (revisions window : list string) (only_successful : bool)
    (Hwindow : _filter_backfill_revlist c src buildername revisions
                 only_successful = Return window) :
  exists repo_name,
    query_repo_name_from_buildername c buildername = Return repo_name
    /\ Forall (fun rev => backfill_stop c src repo_name buildername
                            only_successful rev = false) window
    /\ (window = revisions
        \/ exists rev rest,
             revisions = (window ++ rev :: rest)%list
             /\ backfill_stop c src repo_name buildername only_successful rev
                = true)
    /\ (window <> [] ->
        _filter_backfill_revlist c src buildername window only_successful
        = Return window).
Proof.
  unfold _filter_backfill_revlist in *.
  destruct (query_repo_name_from_buildername c buildername) as [repo_name|e];
    [|discriminate].
  exists repo_name. split; [reflexivity|].
  destruct revisions as [|rev revisions]; [discriminate|].
  destruct (backfill_loop_kept c src repo_name buildername only_successful
              _ _ _ Hwindow) as [kept [-> [Hkept [Hmax Hfix]]]].
  cbn [app]. repeat split; [exact Hkept | exact Hmax |].
  intros Hne. destruct kept as [|r kept]; [contradiction|]. apply (Hfix []).
Qed.

Lemma backfill_window_witness :
  exists repo_name,
    query_repo_name_from_buildername (job_on_third PENDING) linux_test
      = Return repo_name
    /\ Forall (fun rev => backfill_stop (job_on_third PENDING) BuildApi repo_name
                            linux_test false rev = false) ["r5"; "r4"]
    /\ (["r5"; "r4"] = five_revisions
        \/ exists rev rest,
             five_revisions = (["r5"; "r4"] ++ rev :: rest)%list
             /\ backfill_stop (job_on_third PENDING) BuildApi repo_name
                  linux_test false rev = true)
    /\ (["r5"; "r4"] <> [] ->
        _filter_backfill_revlist (job_on_third PENDING) BuildApi linux_test
          ["r5"; "r4"] false = Return ["r5"; "r4"]).
Proof.
  apply (backfill_window_is_maximal_and_stable (job_on_third PENDING) BuildApi
           linux_test five_revisions ["r5"; "r4"] false).
  vm_compute. reflexivity.
Defined.

(** X24: the automatic backfill asks the revision history for the pivot and
    the [max_revisions - 1] revisions before it, and whenever it returns,
    its result is the longest prefix of those revisions on which the
    builder has no successful job. *)
Theorem find_backfill_revlist_is_longest_unsuccessful_prefix
    (c : Collab) (src : QuerySource) (repo_url revision buildername : string)
    (max_revisions : Z) (window : list string)
    (Hwindow : find_backfill_revlist c src repo_url revision max_revisions
                 buildername = Return window) :
  exists repo_name,
    query_repo_name_from_buildername c buildername = Return repo_name
    /\ Forall (fun rev => successful_stop c src repo_name buildername rev = false)
              window
    /\ (window = query_revisions_range_from_revision_before_and_after c repo_url
                   revision (max_revisions - 1) 0
        \/ exists rev rest,
             query_revisions_range_from_revision_before_and_after c repo_url
               revision (max_revisions - 1) 0
             = (window ++ rev :: rest)%list
             /\ successful_stop c src repo_name buildername rev = true).
Proof.
  unfold find_backfill_revlist, _filter_backfill_revlist in Hwindow.
  destruct (query_repo_name_from_buildername c buildername) as [repo_name|e];
    [|discriminate].
  exists repo_name. split; [reflexivity|].
  destruct (query_revisions_range_from_revision_before_and_after c repo_url
              revision (max_revisions - 1) 0) as [|rev revisions];
    [discriminate|].
  destruct (backfill_loop_kept c src repo_name buildername true _ _ _ Hwindow)
    as [kept [-> [Hkept [Hmax _]]]].
  cbn [app]. split; [exact Hkept | exact Hmax].
Qed.

Lemma find_backfill_revlist_witness :
  exists repo_name,
    query_repo_name_from_buildername pushlog_collab linux_test = Return repo_name
    /\ Forall (fun rev => successful_stop pushlog_collab BuildApi repo_name
                            linux_test rev = false)
              ["c3c3c3c3c3c3"; "b2b2b2b2b2b2"]
    /\ (["c3c3c3c3c3c3"; "b2b2b2b2b2b2"]
        = query_revisions_range_from_revision_before_and_after pushlog_collab
            "https://hg.mozilla.org/try" "c3c3c3c3c3c3" (2 - 1) 0
        \/ exists rev rest,
             query_revisions_range_from_revision_before_and_after pushlog_collab
               "https://hg.mozilla.org/try" "c3c3c3c3c3c3" (2 - 1) 0
             = (["c3c3c3c3c3c3"; "b2b2b2b2b2b2"] ++ rev :: rest)%list
             /\ successful_stop pushlog_collab BuildApi repo_name linux_test rev
                = true).
Proof.
  apply (find_backfill_revlist_is_longest_unsuccessful_prefix pushlog_collab
           BuildApi "https://hg.mozilla.org/try" "c3c3c3c3c3c3" linux_test 2).
  vm_compute. reflexivity.
Defined.

Lemma backfill_windows_witness :
  _filter_backfill_revlist (job_on_third SUCCESS) BuildApi linux_test
    five_revisions false
    = Return (prefix_before
                (any_status_stop (job_on_third SUCCESS) BuildApi "try" linux_test)
                five_revisions)
  /\ _filter_backfill_revlist (job_on_third SUCCESS) BuildApi linux_test
       five_revisions true
     = Return (prefix_before
                 (successful_stop (job_on_third SUCCESS) BuildApi "try" linux_test)
                 five_revisions)
  /\ prefix_before
       (any_status_stop (job_on_third SUCCESS) BuildApi "try" linux_test)
       five_revisions
     `prefix_of`
     prefix_before
       (successful_stop (job_on_third SUCCESS) BuildApi "try" linux_test)
       five_revisions
  /\ prefix_before
       (successful_stop (job_on_third SUCCESS) BuildApi "try" linux_test)
       five_revisions `prefix_of` five_revisions.
Proof.
  apply (backfill_windows (job_on_third SUCCESS) BuildApi linux_test "try"
           five_revisions).
  - reflexivity.
  - discriminate.
  - intros rev _. unfold job_on_third, demo_collab. cbn [get_matching_jobs].
    case_bool_decide; repeat constructor.
Defined.
(** ** The scheduling managers *)

(** X25: [BuildAPIManager.cancel] never reaches buildapi: it names
    [repo_name] both as a keyword of its own and through [**kwargs], so
    every call ends with an exception that the keyword arguments alone
    decide, whatever the backend would answer: [KeyError] when they hold
    none of [self], [uuid] and [repo_name], [TypeError] when they hold one
    of them. *)
Theorem buildapi_cancel_always_raises
    (ext ext' : CIManager.External) (uuid : CIManager.value)
    (args : list CIManager.value) (kwargs : gmap string CIManager.value) :
  CIManager.cancel CIManager.BuildAPIManager ext uuid args kwargs
    = CIManager.cancel CIManager.BuildAPIManager ext' uuid args kwargs
  /\ (kwargs !! "self" = None -> kwargs !! "uuid" = None ->
      kwargs !! "repo_name" = None ->
      CIManager.cancel CIManager.BuildAPIManager ext uuid args kwargs
      = CIManager.Err (CIManager.KeyError "repo_name"))
  /\ (is_Some (kwargs !! "self") \/ is_Some (kwargs !! "uuid")
      \/ is_Some (kwargs !! "repo_name") ->
      exists msg,
        CIManager.cancel CIManager.BuildAPIManager ext uuid args kwargs
        = CIManager.Err (CIManager.TypeError msg)).
Proof.
  unfold CIManager.cancel. cbn [CIManager.lookup CIManager.mro List.find].
  change (CIManager.defines CIManager.BuildAPIManager "cancel") with true.
  cbv iota. unfold CIManager.enter, CIManager.apply_call. cbn [List.find fst].
  destruct (kwargs !! "self") as [v0|] eqn:Hself.
  { rewrite bool_decide_eq_true_2 by eauto.
    split; [reflexivity|]. split; [discriminate | intros _; eexists; reflexivity]. }
  rewrite bool_decide_eq_false_2 by (intros [? ?]; discriminate).
  destruct (kwargs !! "uuid") as [u|] eqn:Huuid.
  { rewrite bool_decide_eq_true_2 by eauto.
    split; [reflexivity|].
    split; [intros _ H; discriminate H | intros _; eexists; reflexivity]. }
  rewrite bool_decide_eq_false_2 by (intros [? ?]; discriminate).
  destruct (kwargs !! "repo_name") as [r|] eqn:Hrepo.
  - rewrite bool_decide_eq_true_2 by eauto.
    split; [reflexivity|].
    split; [intros _ _ H; discriminate H | intros _; eexists; reflexivity].
  - split; [reflexivity|]. split; [reflexivity|].
    intros [[? H]|[[? H]|[? H]]]; discriminate H.
Qed.

(** X26: [TaskClusterBuildbotManager.schedule_arbitrary_job] never returns a
    value.  A keyword argument named like one of its parameters, or like a
    keyword it writes out in the call of the buildbot bridge, is a
    [TypeError]; without one, the bridge is called, its error is passed on,
    and when it answers, the method asks its parent classes for
    [schedule_arbitrary_task], which none of them defines, and ends with
    [AttributeError]. *)
Theorem bridge_schedule_arbitrary_job_always_raises
    (ext : CIManager.External) (repo_name revision uuid : CIManager.value)
    (args : list CIManager.value) (kwargs : gmap string CIManager.value) :
  CIManager.is_Err
    (CIManager.schedule_arbitrary_job CIManager.TaskClusterBuildbotManager ext
       repo_name revision uuid args kwargs) = true
  /\ ((exists name,
         name ∈ ["self"; "repo_name"; "revision"; "uuid"; "buildername"]
         /\ is_Some (kwargs !! name)) ->
      exists msg,
        CIManager.schedule_arbitrary_job CIManager.TaskClusterBuildbotManager
          ext repo_name revision uuid args kwargs
        = CIManager.Err (CIManager.TypeError msg))
  /\ ((forall name,
         name ∈ ["self"; "repo_name"; "revision"; "uuid"; "buildername"] ->
         kwargs !! name = None) ->
      CIManager.schedule_arbitrary_job CIManager.TaskClusterBuildbotManager
        ext repo_name revision uuid args kwargs
      = match ext (CIManager.mkCall
                     "buildbot_bridge.schedule_arbitrary_builder" args
                     (list_to_map [("revision", revision);
                                   ("buildername", uuid)] ∪ kwargs)) with
        | CIManager.Ok _ =>
            CIManager.Err (CIManager.AttributeError "schedule_arbitrary_task")
        | CIManager.Err e => CIManager.Err e
        end).
Proof.
  unfold CIManager.schedule_arbitrary_job.
  cbn [CIManager.lookup CIManager.mro List.find].
  change (CIManager.defines CIManager.TaskClusterBuildbotManager
            "schedule_arbitrary_job") with true.
  cbv iota.
  change (CIManager.super CIManager.TaskClusterBuildbotManager
            "schedule_arbitrary_task") with (@None CIManager.class).
  split; [|split].
  - unfold CIManager.enter.
    destruct (List.find _ _); [reflexivity|].
    now destruct (CIManager.apply_call _ _ _ _ _).
  - intros [name [Hin Hsome]].
    unfold CIManager.enter, CIManager.apply_call. cbn [List.find fst].
    repeat (case_bool_decide; [eexists; reflexivity|]).
    exfalso.
    rewrite !elem_of_cons, elem_of_nil in Hin.
    destruct Hin as [->|[->|[->|[->|[->|[]]]]]]; contradiction.
  - intros Hfresh.
    unfold CIManager.enter, CIManager.apply_call. cbn [List.find fst].
    rewrite !Hfresh by (rewrite !elem_of_cons; tauto).
    rewrite !bool_decide_eq_false_2 by (intros [? ?]; discriminate).
    reflexivity.
Qed.

(** X27: with keyword arguments that repeat none of the parameters,
    [TaskClusterBuildbotManager.schedule_graph] hands back the graph that
    the buildbot bridge generated, as it is: the [schedule_graph] it
    inherits from [TaskclusterManager] sends nothing anywhere. The same
    manager inherits [retrigger] from [TaskclusterManager], which goes to
    [tc.retrigger_task] with the identifier as [task_id]. *)
Theorem bridge_schedule_graph_returns_generated_graph
    (ext : CIManager.External)
    (repo_name revision builders_graph uuid : CIManager.value)
    (args : list CIManager.value) (kwargs : gmap string CIManager.value)
    (Hfresh : forall name,
       name ∈ ["self"; "repo_name"; "revision"; "builders_graph"; "uuid";
               "task_id"] ->
       kwargs !! name = None) :
  CIManager.schedule_graph CIManager.TaskClusterBuildbotManager ext repo_name
    revision builders_graph args kwargs
  = ext (CIManager.mkCall "buildbot_bridge.generate_task_graph" args
           (list_to_map [("repo_name", repo_name); ("revision", revision);
                         ("builders_graph", builders_graph)] ∪ kwargs))
  /\ CIManager.retrigger CIManager.TaskClusterBuildbotManager ext uuid args kwargs
     = ext (CIManager.mkCall "tc.retrigger_task" args
              (list_to_map [("task_id", uuid)] ∪ kwargs)).
Proof.
  split.
  - unfold CIManager.schedule_graph.
    cbn [CIManager.lookup CIManager.mro List.find].
    change (CIManager.defines CIManager.TaskClusterBuildbotManager
              "schedule_graph") with true.
    cbv iota.
    change (CIManager.super CIManager.TaskClusterBuildbotManager "schedule_graph")
      with (Some CIManager.TaskclusterManager).
    unfold CIManager.enter, CIManager.apply_call. cbn [List.find fst].
    rewrite !Hfresh by (rewrite !elem_of_cons; tauto).
    rewrite !bool_decide_eq_false_2 by (intros [? ?]; discriminate).
    now destruct (ext _).
  - unfold CIManager.retrigger.
    change (CIManager.lookup (CIManager.mro CIManager.TaskClusterBuildbotManager)
              "retrigger") with (Some CIManager.TaskclusterManager).
    cbv iota.
    unfold CIManager.enter, CIManager.apply_call. cbn [List.find fst].
    rewrite !Hfresh by (rewrite !elem_of_cons; tauto).
    now rewrite !bool_decide_eq_false_2 by (intros [? ?]; discriminate).
Qed.

Lemma bridge_schedule_graph_witness :
  CIManager.schedule_graph CIManager.TaskClusterBuildbotManager
    CIManager.obliging (CIManager.VStr "try") (CIManager.VStr rev1)
    (CIManager.VGraph [(linux_build, [linux_test])]) [] ∅
  = CIManager.obliging
      (CIManager.mkCall "buildbot_bridge.generate_task_graph" []
         (list_to_map [("repo_name", CIManager.VStr "try");
                       ("revision", CIManager.VStr rev1);
                       ("builders_graph",
                        CIManager.VGraph [(linux_build, [linux_test])])] ∪ ∅))
  /\ CIManager.retrigger CIManager.TaskClusterBuildbotManager
       CIManager.obliging (CIManager.VStr "task-1") [] ∅
     = CIManager.obliging
         (CIManager.mkCall "tc.retrigger_task" []
            (list_to_map [("task_id", CIManager.VStr "task-1")] ∪ ∅)).
Proof.
  apply (bridge_schedule_graph_returns_generated_graph CIManager.obliging
           (CIManager.VStr "try") (CIManager.VStr rev1)
           (CIManager.VGraph [(linux_build, [linux_test])])
           (CIManager.VStr "task-1") [] ∅).
  intros name _. apply lookup_empty.
Defined.
